(** * Real-Estate-Net: accounts, agent vetting and admin permission workflow

    A shallow embedding of the Django application code in
    [accounts/models.py], [accounts/admin.py] and [accounts/views.py].

    - Model instances are records; a database table is a finite map from
      primary key to row ([gmap nat _]).  A model instance in Python memory is
      a pair of its primary key and a copy of its row.  Fields that the
      workflow never reads (passwords, contact data, uploaded documents and
      the like) are left out of the records.
    - A JSON object ([admin_permissions]) is a [gmap string bool].
    - Code that touches the database, the clock or the message store runs in
      the monad [M]: state passing over [World] plus exceptions.  A raised
      exception keeps the writes made before it (Django's default autocommit;
      none of the modelled functions opens a transaction).
    - Two database constraints can be violated by the modelled code and are
      enforced: the unique index of [AdminPermissionRequest] and the column
      [AdminActivityLog.ip_address], which is declared without [null=True].
    - The clock is a counter: every modelled [timezone.now()] returns its
      value and advances it.  Only the presence and the order of timestamps
      carry meaning.
    - A queryset is the list of selected primary keys; it is evaluated against
      the table when the code iterates, updates or counts.  The order in
      which fetched rows are visited is that of [map_to_list]; no modelled
      loop depends on it beyond the timestamps it hands out.
    - Strings stay strings: roles, statuses and action types are compared with
      string equality and list membership, as the source does. *)

From Stdlib Require Import ZArith Ascii.
From stdpp Require Import base strings gmap list fin_maps pretty.

Local Open Scope string_scope.

(** ** Python helpers *)

(** [d.get(k, default)] on a dict. *)
Definition dict_get {V : Type} (d : gmap string V) (k : string) (dflt : V) : V :=
  default dflt (d !! k).

(** [x in xs] for a list of strings. *)
Definition str_in (x : string) (xs : list string) : bool :=
  bool_decide (x ∈ xs).

(** The empty string. *)
Definition empty_str : string := EmptyString.

(** [x == y] on strings. *)
Definition str_eq (x y : string) : bool := bool_decide (x = y).

(** Truthiness of a string ([not s] is [negb (truthy s)]). *)
Definition truthy (s : string) : bool := negb (str_eq s empty_str).

(** Truthiness of an optional string as returned by [QueryDict.get]. *)
Definition truthy_opt (s : option string) : bool :=
  match s with Some s => truthy s | None => false end.

(** ** accounts/models.py: User *)

Definition timestamp := Z.
Bind Scope Z_scope with timestamp.

Record User := mkUser {
  username : string;
  user_type : string;
  is_active : bool;
  is_verified : bool;
  verification_date : option timestamp;
  is_staff : bool;
  is_superuser : bool;
  is_admin_active : bool;
  admin_permissions : gmap string bool;
}.

(** Field defaults of a freshly constructed [User]: [is_active] is Django's
    [AbstractUser] default, the others are declared in the model. *)
Definition User_new (name : string) : User :=
  {| username := name; user_type := "buyer"; is_active := true;
     is_verified := false; verification_date := None;
     is_staff := false; is_superuser := false;
     is_admin_active := false; admin_permissions := ∅ |}.

Definition set_user_type (v : string) (u : User) : User :=
  {| username := username u; user_type := v; is_active := is_active u;
     is_verified := is_verified u; verification_date := verification_date u;
     is_staff := is_staff u; is_superuser := is_superuser u;
     is_admin_active := is_admin_active u;
     admin_permissions := admin_permissions u |}.

Definition set_is_active (v : bool) (u : User) : User :=
  {| username := username u; user_type := user_type u; is_active := v;
     is_verified := is_verified u; verification_date := verification_date u;
     is_staff := is_staff u; is_superuser := is_superuser u;
     is_admin_active := is_admin_active u;
     admin_permissions := admin_permissions u |}.

Definition set_is_verified (v : bool) (u : User) : User :=
  {| username := username u; user_type := user_type u; is_active := is_active u;
     is_verified := v; verification_date := verification_date u;
     is_staff := is_staff u; is_superuser := is_superuser u;
     is_admin_active := is_admin_active u;
     admin_permissions := admin_permissions u |}.

Definition set_verification_date (v : option timestamp) (u : User) : User :=
  {| username := username u; user_type := user_type u; is_active := is_active u;
     is_verified := is_verified u; verification_date := v;
     is_staff := is_staff u; is_superuser := is_superuser u;
     is_admin_active := is_admin_active u;
     admin_permissions := admin_permissions u |}.

Definition set_admin_permissions (v : gmap string bool) (u : User) : User :=
  {| username := username u; user_type := user_type u; is_active := is_active u;
     is_verified := is_verified u; verification_date := verification_date u;
     is_staff := is_staff u; is_superuser := is_superuser u;
     is_admin_active := is_admin_active u;
     admin_permissions := v |}.

Definition is_super_admin (self : User) : bool :=
  str_eq (user_type self) "super_admin" && is_admin_active self.

Definition is_normal_admin (self : User) : bool :=
  str_eq (user_type self) "admin" && is_admin_active self.

Definition can_manage_properties (self : User) : bool :=
  if str_eq (user_type self) "super_admin" then true
  else is_admin_active self
       && dict_get (admin_permissions self) "manage_properties" false.

Definition can_manage_users (self : User) : bool :=
  if str_eq (user_type self) "super_admin" then true
  else is_admin_active self
       && dict_get (admin_permissions self) "manage_users" false.

Definition can_manage_premium (self : User) : bool :=
  if str_eq (user_type self) "super_admin" then true
  else is_admin_active self
       && dict_get (admin_permissions self) "manage_premium" false.

Definition can_manage_payments (self : User) : bool :=
  if str_eq (user_type self) "super_admin" then true
  else is_admin_active self
       && dict_get (admin_permissions self) "manage_payments" false.

Definition can_manage_system (self : User) : bool :=
  if str_eq (user_type self) "super_admin" then true
  else is_admin_active self
       && dict_get (admin_permissions self) "system_settings" false.

Definition can_view_logs (self : User) : bool :=
  if str_eq (user_type self) "super_admin" then true
  else is_admin_active self
       && dict_get (admin_permissions self) "view_logs" false.

Definition can_delete_data (self : User) : bool :=
  if str_eq (user_type self) "super_admin" then true
  else is_admin_active self
       && dict_get (admin_permissions self) "delete_data" false.

Definition can_export_data (self : User) : bool :=
  if str_eq (user_type self) "super_admin" then true
  else is_admin_active self
       && dict_get (admin_permissions self) "export_data" false.

Definition can_manage_content (self : User) : bool :=
  if str_eq (user_type self) "super_admin" then true
  else is_admin_active self
       && dict_get (admin_permissions self) "manage_content" false.

Definition can_manage_admins (self : User) : bool :=
  str_eq (user_type self) "super_admin".

Definition no_permissions : gmap string bool :=
  <["manage_users" := false]> (<["manage_properties" := false]>
  (<["manage_payments" := false]> (<["manage_premium" := false]>
  (<["manage_admins" := false]> (<["system_settings" := false]>
  (<["view_logs" := false]> (<["delete_data" := false]>
  (<["export_data" := false]> (<["manage_content" := false]> ∅))))))))).

(** [self.admin_permissions or {}] is the stored map either way: an empty
    dict is the only falsy value it can hold. *)
Definition get_admin_permissions (self : User) : gmap string bool :=
  if negb (is_admin_active self) then no_permissions
  else admin_permissions self.

(** The ten capabilities, each decided by its own predicate method. *)
Inductive Capability :=
  | ManageUsers | ManageProperties | ManagePayments | ManagePremium
  | ManageAdmins | SystemSettings | ViewLogs | DeleteData | ExportData
  | ManageContent.

#[global] Instance Capability_eq_dec : EqDecision Capability.
Proof. solve_decision. Defined.

(** The key under which a capability is stored in [admin_permissions]. *)
Definition capability_key (c : Capability) : string :=
  match c with
  | ManageUsers => "manage_users"
  | ManageProperties => "manage_properties"
  | ManagePayments => "manage_payments"
  | ManagePremium => "manage_premium"
  | ManageAdmins => "manage_admins"
  | SystemSettings => "system_settings"
  | ViewLogs => "view_logs"
  | DeleteData => "delete_data"
  | ExportData => "export_data"
  | ManageContent => "manage_content"
  end.

(** The authorization gate: capability [c] is checked by calling the
    predicate method that the source defines for it. *)
Definition can (account : User) (c : Capability) : bool :=
  match c with
  | ManageUsers => can_manage_users account
  | ManageProperties => can_manage_properties account
  | ManagePayments => can_manage_payments account
  | ManagePremium => can_manage_premium account
  | ManageAdmins => can_manage_admins account
  | SystemSettings => can_manage_system account
  | ViewLogs => can_view_logs account
  | DeleteData => can_delete_data account
  | ExportData => can_export_data account
  | ManageContent => can_manage_content account
  end.

(** ** accounts/models.py: the remaining models *)

Record RealEstateAgentApplication := mkApplication {
  applicant : nat;
  company_name : string;
  license_number : string;
  status : string;
  reviewed_at : option timestamp;
  reviewed_by : option nat;
  admin_feedback : string;
  requested_documents : string;
}.

(** The fields the review code assigns together. *)
Definition set_review (st : string) (at_ : option timestamp) (by_ : option nat)
    (a : RealEstateAgentApplication) : RealEstateAgentApplication :=
  {| applicant := applicant a; company_name := company_name a;
     license_number := license_number a; status := st;
     reviewed_at := at_; reviewed_by := by_;
     admin_feedback := admin_feedback a;
     requested_documents := requested_documents a |}.

Record UserActivity := mkUserActivity {
  ua_user : nat;
  activity_type : string;
  ua_title : string;
  ua_description : string;
}.

Record AdminActivityLog := mkLog {
  admin : nat;
  action_type : string;
  description : string;
  target_model : option string;
  target_id : option nat;
  ip_address : option string;
  user_agent : option string;
  timestamp_ : timestamp;
  is_high_risk : bool;
}.

Definition set_is_high_risk (v : bool) (l : AdminActivityLog) : AdminActivityLog :=
  {| admin := admin l; action_type := action_type l;
     description := description l; target_model := target_model l;
     target_id := target_id l; ip_address := ip_address l;
     user_agent := user_agent l; timestamp_ := timestamp_ l;
     is_high_risk := v |}.

Record AdminNotification := mkNotification {
  title : string;
  message : string;
  notification_type : string;
  priority : string;
  related_admin : nat;
  is_read : bool;
  created_at : timestamp;
}.

Record AdminPermissionRequest := mkRequest {
  requesting_admin : nat;
  permission_type : string;
  reason : string;
  justification : string;
  pr_status : string;
  requested_at : timestamp;
  pr_reviewed_at : option timestamp;
  pr_reviewed_by : option nat;
  review_notes : string;
  granted_at : option timestamp;
}.

Definition PERMISSION_TYPES : list (string * string) :=
  [ ("manage_users", "User Management");
    ("manage_properties", "Property Management");
    ("manage_payments", "Payment Management");
    ("manage_premium", "Premium Features Management");
    ("manage_content", "Content Management");
    ("view_logs", "View System Logs");
    ("export_data", "Export Data");
    ("delete_data", "Delete Data");
    ("system_settings", "System Settings") ].

(** [dict(pairs)]: later pairs win, as in Python. *)
Definition dict_of (pairs : list (string * string)) : gmap string string :=
  foldl (λ d kv, <[kv.1 := kv.2]> d) ∅ pairs.

(** ** The world the code runs in *)

Inductive Level := DEBUG | INFO | SUCCESS | WARNING | ERROR.

Record World := mkWorld {
  users : gmap nat User;
  next_user_id : nat;
  applications : gmap nat RealEstateAgentApplication;
  permission_requests : gmap nat AdminPermissionRequest;
  next_permission_request_id : nat;
  activity_logs : list AdminActivityLog;
  admin_notifications : list AdminNotification;
  user_activities : list UserActivity;
  flash : list (Level * string);
  clock : timestamp;
}.

Definition with_users (f : gmap nat User → gmap nat User) (w : World) : World :=
  {| users := f (users w); next_user_id := next_user_id w;
     applications := applications w;
     permission_requests := permission_requests w;
     next_permission_request_id := next_permission_request_id w;
     activity_logs := activity_logs w;
     admin_notifications := admin_notifications w;
     user_activities := user_activities w; flash := flash w;
     clock := clock w |}.

Definition with_next_user_id (n : nat) (w : World) : World :=
  {| users := users w; next_user_id := n;
     applications := applications w;
     permission_requests := permission_requests w;
     next_permission_request_id := next_permission_request_id w;
     activity_logs := activity_logs w;
     admin_notifications := admin_notifications w;
     user_activities := user_activities w; flash := flash w;
     clock := clock w |}.

Definition with_applications
    (f : gmap nat RealEstateAgentApplication → gmap nat RealEstateAgentApplication)
    (w : World) : World :=
  {| users := users w; next_user_id := next_user_id w;
     applications := f (applications w);
     permission_requests := permission_requests w;
     next_permission_request_id := next_permission_request_id w;
     activity_logs := activity_logs w;
     admin_notifications := admin_notifications w;
     user_activities := user_activities w; flash := flash w;
     clock := clock w |}.

Definition with_permission_requests
    (f : gmap nat AdminPermissionRequest → gmap nat AdminPermissionRequest)
    (w : World) : World :=
  {| users := users w; next_user_id := next_user_id w;
     applications := applications w;
     permission_requests := f (permission_requests w);
     next_permission_request_id := next_permission_request_id w;
     activity_logs := activity_logs w;
     admin_notifications := admin_notifications w;
     user_activities := user_activities w; flash := flash w;
     clock := clock w |}.

Definition with_next_permission_request_id (n : nat) (w : World) : World :=
  {| users := users w; next_user_id := next_user_id w;
     applications := applications w;
     permission_requests := permission_requests w;
     next_permission_request_id := n;
     activity_logs := activity_logs w;
     admin_notifications := admin_notifications w;
     user_activities := user_activities w; flash := flash w;
     clock := clock w |}.

Definition with_activity_logs
    (f : list AdminActivityLog → list AdminActivityLog) (w : World) : World :=
  {| users := users w; next_user_id := next_user_id w;
     applications := applications w;
     permission_requests := permission_requests w;
     next_permission_request_id := next_permission_request_id w;
     activity_logs := f (activity_logs w);
     admin_notifications := admin_notifications w;
     user_activities := user_activities w; flash := flash w;
     clock := clock w |}.

Definition with_admin_notifications
    (f : list AdminNotification → list AdminNotification) (w : World) : World :=
  {| users := users w; next_user_id := next_user_id w;
     applications := applications w;
     permission_requests := permission_requests w;
     next_permission_request_id := next_permission_request_id w;
     activity_logs := activity_logs w;
     admin_notifications := f (admin_notifications w);
     user_activities := user_activities w; flash := flash w;
     clock := clock w |}.

Definition with_user_activities
    (f : list UserActivity → list UserActivity) (w : World) : World :=
  {| users := users w; next_user_id := next_user_id w;
     applications := applications w;
     permission_requests := permission_requests w;
     next_permission_request_id := next_permission_request_id w;
     activity_logs := activity_logs w;
     admin_notifications := admin_notifications w;
     user_activities := f (user_activities w); flash := flash w;
     clock := clock w |}.

Definition with_flash
    (f : list (Level * string) → list (Level * string)) (w : World) : World :=
  {| users := users w; next_user_id := next_user_id w;
     applications := applications w;
     permission_requests := permission_requests w;
     next_permission_request_id := next_permission_request_id w;
     activity_logs := activity_logs w;
     admin_notifications := admin_notifications w;
     user_activities := user_activities w; flash := f (flash w);
     clock := clock w |}.

Definition with_clock (t : timestamp) (w : World) : World :=
  {| users := users w; next_user_id := next_user_id w;
     applications := applications w;
     permission_requests := permission_requests w;
     next_permission_request_id := next_permission_request_id w;
     activity_logs := activity_logs w;
     admin_notifications := admin_notifications w;
     user_activities := user_activities w; flash := flash w;
     clock := t |}.

(** ** The monad: state over [World], with exceptions that keep the state *)

Inductive exn := IntegrityError | DoesNotExist | KeyError | ValueError.

Inductive outcome (A : Type) :=
  | Return (a : A)
  | Raise (e : exn).
Arguments Return {A} a.
Arguments Raise {A} e.

Definition M (A : Type) : Type := World → outcome A * World.

#[global] Instance M_ret : MRet M := λ A a w, (Return a, w).

#[global] Instance M_bind : MBind M := λ A B f m w,
  match m w with
  | (Return a, w') => f a w'
  | (Raise e, w') => (Raise e, w')
  end.

Definition raise {A : Type} (e : exn) : M A := λ w, (Raise e, w).
Definition gets {A : Type} (f : World → A) : M A := λ w, (Return (f w), w).
Definition modify (f : World → World) : M unit := λ w, (Return tt, f w).

(** [timezone.now()]: reads the clock; time has moved on by the next call. *)
Definition timezone_now : M timestamp :=
  t ← gets clock; modify (with_clock (t + 1)%Z);; mret t.

(** [messages.<level>(request, text)] and [ModelAdmin.message_user]. *)
Definition messages_add (lvl : Level) (text : string) : M unit :=
  modify (with_flash (λ l, (l ++ [(lvl, text)])%list)).

Definition message_user (text : string) : M unit := messages_add INFO text.

(** [d[k]] on a dict of strings: a missing key raises [KeyError]. *)
Definition dict_index (d : gmap string string) (k : string) : M string :=
  match d !! k with Some v => mret v | None => raise KeyError end.

(** [for x in xs: body], with the loop's local counter threaded through. *)
Fixpoint for_each {A S : Type} (xs : list A) (body : A → S → M S) (s : S) : M S :=
  match xs with
  | [] => mret s
  | x :: xs' => s' ← body x s; for_each xs' body s'
  end.

(** ** Storage: reading and writing rows

    [Model.save()] on an instance with a primary key rewrites its whole row;
    [objects.get(pk=...)] and a foreign-key attribute read the row or raise
    [DoesNotExist].  The constraints enforced are the unique index that
    [AdminPermissionRequest.Meta] declares and the NOT NULL column
    [AdminActivityLog.ip_address]; every other column that the modelled code
    leaves empty is nullable or has a default. *)

Definition User_objects_get (pk : nat) : M User :=
  o ← gets (λ w, users w !! pk);
  match o with Some u => mret u | None => raise DoesNotExist end.

Definition User_save (pk : nat) (u : User) : M unit :=
  modify (with_users <[pk := u]>).

(** First [save()] of a new [User]: the row gets the next primary key. *)
Definition User_insert (u : User) : M nat :=
  pk ← gets next_user_id;
  modify (with_users <[pk := u]>);;
  modify (with_next_user_id (S pk));;
  mret pk.

Definition Application_save (pk : nat) (a : RealEstateAgentApplication) : M unit :=
  modify (with_applications <[pk := a]>).

Definition UserActivity_objects_create (user : nat) (activity_type title description : string)
    : M unit :=
  modify (with_user_activities (λ l,
    (l ++ [ {| ua_user := user; activity_type := activity_type;
               ua_title := title; ua_description := description |} ])%list)).

(** *** AdminActivityLog *)

Definition high_risk_actions : list string :=
  ["delete"; "ban"; "refund"; "permission"].

(** [AdminActivityLog.save]: mark high-risk actions, then store the row
    ([super().save()]).  [ip_address] is a [GenericIPAddressField] without
    [null=True] and without default: an instance built without an address
    holds [None], the backend writes an empty address as NULL as well
    ([adapt_ipaddressfield_value] is [value or None]), and the INSERT of a
    NULL is refused with [IntegrityError]. *)
Definition AdminActivityLog_save (self : AdminActivityLog) : M AdminActivityLog :=
  let self :=
    if str_in (action_type self) high_risk_actions
    then set_is_high_risk true self else self in
  if truthy_opt (ip_address self) then
    modify (with_activity_logs (λ l, (l ++ [self])%list));;
    mret self
  else raise IntegrityError.

(** [AdminActivityLog.objects.create] with keyword arguments: build the
    instance (the [timestamp] default reads the clock, an omitted
    [is_high_risk] takes the field default [False], an omitted [ip_address]
    or [user_agent] is [None]) and call [save]. *)
Definition AdminActivityLog_objects_create
    (admin : nat) (action_type description : string)
    (target_model : option string) (target_id : option nat)
    (ip_address user_agent : option string) (is_high_risk : option bool)
    : M AdminActivityLog :=
  t ← timezone_now;
  AdminActivityLog_save
    {| admin := admin; action_type := action_type; description := description;
       target_model := target_model; target_id := target_id;
       ip_address := ip_address; user_agent := user_agent; timestamp_ := t;
       is_high_risk := default false is_high_risk |}.

(** *** AdminNotification *)

Definition AdminNotification_objects_create
    (title message notification_type priority : string) (related_admin : nat)
    : M unit :=
  t ← timezone_now;
  modify (with_admin_notifications (λ l,
    (l ++ [ {| title := title; message := message;
               notification_type := notification_type; priority := priority;
               related_admin := related_admin; is_read := false;
               created_at := t |} ])%list)).

(** *** AdminPermissionRequest *)

(** [Meta.unique_together = ('requesting_admin', 'permission_type', 'status')]:
    some row other than [self_pk] already holds the triple of [r]. *)
Definition same_triple (r r' : AdminPermissionRequest) : Prop :=
  requesting_admin r' = requesting_admin r
  ∧ permission_type r' = permission_type r
  ∧ pr_status r' = pr_status r.

Definition unique_together_violated (self_pk : option nat)
    (r : AdminPermissionRequest) (tbl : gmap nat AdminPermissionRequest) : bool :=
  bool_decide (map_Exists (λ k r', Some k ≠ self_pk ∧ same_triple r r') tbl).

(** [save()] of a stored request: an UPDATE, refused by the unique index. *)
Definition AdminPermissionRequest_save (pk : nat) (r : AdminPermissionRequest)
    : M unit :=
  tbl ← gets permission_requests;
  if unique_together_violated (Some pk) r tbl then raise IntegrityError
  else modify (with_permission_requests <[pk := r]>).

(** [AdminPermissionRequest.objects.create(...)]: an INSERT with the field
    defaults ([status='pending'], [requested_at] from the clock). *)
Definition AdminPermissionRequest_objects_create
    (requesting_admin : nat) (permission_type reason justification : string)
    : M (nat * AdminPermissionRequest) :=
  t ← timezone_now;
  let r := {| requesting_admin := requesting_admin;
              permission_type := permission_type; reason := reason;
              justification := justification; pr_status := "pending";
              requested_at := t; pr_reviewed_at := None;
              pr_reviewed_by := None; review_notes := empty_str;
              granted_at := None |} in
  tbl ← gets permission_requests;
  if unique_together_violated None r tbl then raise IntegrityError
  else
    pk ← gets next_permission_request_id;
    modify (with_permission_requests <[pk := r]>);;
    modify (with_next_permission_request_id (S pk));;
    mret (pk, r).

(** [objects.get(pk=request_id, status='pending')]. *)
Definition AdminPermissionRequest_get_pending (pk : nat)
    : M (nat * AdminPermissionRequest) :=
  o ← gets (λ w, permission_requests w !! pk);
  match o with
  | Some r => if str_eq (pr_status r) "pending" then mret (pk, r)
              else raise DoesNotExist
  | None => raise DoesNotExist
  end.

(** [get_permission_type_display()]: the label of the choice, or the raw
    value when it is not one of the choices. *)
Definition get_permission_type_display (self : AdminPermissionRequest) : string :=
  dict_get (dict_of PERMISSION_TYPES) (permission_type self) (permission_type self).

Definition set_resolution (st : string) (at_ : option timestamp) (by_ : option nat)
    (notes : string) (granted : option timestamp) (r : AdminPermissionRequest)
    : AdminPermissionRequest :=
  {| requesting_admin := requesting_admin r;
     permission_type := permission_type r; reason := reason r;
     justification := justification r; pr_status := st;
     requested_at := requested_at r; pr_reviewed_at := at_;
     pr_reviewed_by := by_; review_notes := notes; granted_at := granted |}.

(** [AdminPermissionRequest.approve_request(self, super_admin)].  Returns the
    instance as the method leaves it.  The call that logs the action passes
    neither [ip_address] nor [user_agent]. *)
Definition approve_request (self : nat * AdminPermissionRequest)
    (super_admin : nat * User) : M (nat * AdminPermissionRequest) :=
  let '(pk, r) := self in
  (* Update the admin's permissions *)
  requester ← User_objects_get (requesting_admin r);
  let permissions := admin_permissions requester in
  let permissions := <[permission_type r := true]> permissions in
  let requester := set_admin_permissions permissions requester in
  User_save (requesting_admin r) requester;;
  (* Update request status *)
  t1 ← timezone_now;
  t2 ← timezone_now;
  let r := set_resolution "approved" (Some t1) (Some super_admin.1)
             (review_notes r) (Some t2) r in
  AdminPermissionRequest_save pk r;;
  (* Log the action *)
  AdminActivityLog_objects_create super_admin.1 "permission"
    ("Granted " +:+ get_permission_type_display r +:+ " permission to "
       +:+ username requester)
    (Some "User") (Some (requesting_admin r)) None None (Some true);;
  (* Create notification for the requesting admin *)
  AdminNotification_objects_create "Permission Request Approved"
    ("Your request for " +:+ get_permission_type_display r
       +:+ " permission has been approved by " +:+ username super_admin.2
       +:+ ". Please logout and login again to see the changes.")
    "permission_request" "high" (requesting_admin r);;
  mret (pk, r).

(** [AdminPermissionRequest.reject_request(self, super_admin, reason)], whose
    [reason] defaults to the empty string.  As in [approve_request], the call
    that logs the action passes neither [ip_address] nor [user_agent]. *)
Definition reject_request (self : nat * AdminPermissionRequest)
    (super_admin : nat * User) (reason : string)
    : M (nat * AdminPermissionRequest) :=
  let '(pk, r) := self in
  t ← timezone_now;
  let r := set_resolution "rejected" (Some t) (Some super_admin.1)
             reason (granted_at r) r in
  AdminPermissionRequest_save pk r;;
  (* Log the action *)
  requester ← User_objects_get (requesting_admin r);
  AdminActivityLog_objects_create super_admin.1 "permission"
    ("Rejected " +:+ get_permission_type_display r
       +:+ " permission request from " +:+ username requester)
    (Some "AdminPermissionRequest") (Some pk) None None (Some false);;
  (* Create notification for the requesting admin *)
  AdminNotification_objects_create "Permission Request Rejected"
    ("Your request for " +:+ get_permission_type_display r
       +:+ " permission has been rejected by " +:+ username super_admin.2
       +:+ ". " +:+ reason)
    "permission_request" "medium" (requesting_admin r);;
  mret (pk, r).

(** ** Requests and responses *)

(** A request carries the primary key of the logged-in user, if any, in its
    session. *)
Record HttpRequest := mkRequestObj {
  session_user : option nat;
  method : string;
  POST : gmap string string;
  META : gmap string string;
}.

Inductive HttpResponse :=
  | Redirect (to : string)
  | Render (template : string).

(** [request.user]: the authentication middleware loads the row of the
    session's user; without a session, or without the row, the user is
    anonymous ([None]).  The session's account is taken as given, that is as
    one that Django's authentication accepts: [ModelBackend] treats the
    session of an account whose [is_active] is off as anonymous, a case that
    is outside this model. *)
Definition get_user (request : HttpRequest) : M (option (nat * User)) :=
  match session_user request with
  | Some pk => o ← gets (λ w, users w !! pk); mret ((λ u, (pk, u)) <$> o)
  | None => mret None
  end.

(** [request.user] where a stored user is required: the admin site only runs
    its actions for a logged-in staff user; an anonymous user cannot be
    assigned to a foreign key. *)
Definition request_user (request : HttpRequest) : M (nat * User) :=
  o ← get_user request;
  match o with
  | Some u => mret u
  | None => raise ValueError
  end.

(** ** accounts/admin.py *)

(** A queryset over applications is the list of selected primary keys;
    [queryset.filter(status__in=statuses)] selects the stored rows among them
    whose status is listed. *)
Definition queryset_filter_status (queryset : list nat) (statuses : list string)
    (tbl : gmap nat RealEstateAgentApplication)
    : gmap nat RealEstateAgentApplication :=
  filter (λ kv, kv.1 ∈ queryset ∧ status kv.2 ∈ statuses) tbl.

(** [queryset.filter(status__in=statuses).update(...)]: one UPDATE statement
    over the matching rows; returns how many rows matched. *)
Definition queryset_update (queryset : list nat) (statuses : list string)
    (f : RealEstateAgentApplication → RealEstateAgentApplication) : M nat :=
  n ← gets (λ w, size (queryset_filter_status queryset statuses (applications w)));
  modify (with_applications (map_imap (λ k a,
    Some (if decide (k ∈ queryset ∧ status a ∈ statuses) then f a else a))));;
  mret n.

(** [CustomUserAdmin.verify_agents].  The count is taken by a second query
    over the same filter, after the update. *)
Definition verify_agents_filter (queryset : list nat) (tbl : gmap nat User)
    : gmap nat User :=
  filter (λ kv, kv.1 ∈ queryset ∧ user_type kv.2 = "agent"
                ∧ is_verified kv.2 = false) tbl.

Definition verify_agents (request : HttpRequest) (queryset : list nat) : M unit :=
  t ← timezone_now;
  modify (with_users (map_imap (λ k u,
    Some (if decide (k ∈ queryset ∧ user_type u = "agent" ∧ is_verified u = false)
          then set_verification_date (Some t)
                 (set_is_active true (set_is_verified true u))
          else u))));;
  verified_count ← gets (λ w, size (verify_agents_filter queryset (users w)));
  if decide (0 < verified_count) then
    message_user (pretty verified_count
                  +:+ " real estate agents verified and activated.")
  else
    message_user "No agents selected or all selected agents are already verified.".

(** [RealEstateAgentApplicationAdmin.save_model(request, obj, form, change)].
    [obj] is the instance with the submitted form values already applied;
    [changed_data] is [form.changed_data]. *)
Definition save_model (request : HttpRequest)
    (obj : nat * RealEstateAgentApplication) (changed_data : list string)
    (change : bool) : M unit :=
  let '(pk, obj) := obj in
  obj ←
    (if change && str_in "status" changed_data
        && negb (str_eq (status obj) "pending")
     then
       t ← timezone_now;
       ru ← request_user request;
       let obj := set_review (status obj) (Some t) (Some ru.1) obj in
       (* If approved, activate the user's account *)
       (if str_eq (status obj) "approved" then
          u ← User_objects_get (applicant obj);
          t' ← timezone_now;
          User_save (applicant obj)
            (set_verification_date (Some t')
               (set_is_verified true (set_is_active true u)));;
          (* Log activity *)
          UserActivity_objects_create (applicant obj) "register"
            "Real Estate Agent Application Approved"
            ("Application approved by " +:+ username ru.2)
        else if str_in (status obj) ["rejected"; "needs_info"] then
          (* Keep account deactivated until issues are resolved *)
          u ← User_objects_get (applicant obj);
          User_save (applicant obj) (set_is_verified false (set_is_active false u))
        else mret tt);;
       mret obj
     else mret obj);
  Application_save pk obj.

(** [RealEstateAgentApplicationAdmin.approve_applications].  The rows are
    fetched once, when the loop starts. *)
Definition approve_one (request : HttpRequest)
    (row : nat * RealEstateAgentApplication) (updated : nat) : M nat :=
  let '(pk, application) := row in
  (* Update application *)
  t ← timezone_now;
  ru ← request_user request;
  let application := set_review "approved" (Some t) (Some ru.1) application in
  Application_save pk application;;
  (* Activate user's account *)
  u ← User_objects_get (applicant application);
  t' ← timezone_now;
  User_save (applicant application)
    (set_verification_date (Some t')
       (set_is_verified true (set_is_active true u)));;
  mret (updated + 1).

Definition approve_applications_loop (request : HttpRequest)
    (queryset : list nat) : M nat :=
  rows ← gets (λ w, map_to_list
            (queryset_filter_status queryset ["pending"; "under_review"]
               (applications w)));
  for_each rows (approve_one request) 0.

Definition approve_applications (request : HttpRequest) (queryset : list nat)
    : M unit :=
  updated ← approve_applications_loop request queryset;
  if decide (0 < updated) then
    message_user (pretty updated +:+
      " applications approved. Users can now log in and list properties.")
  else
    message_user "No applications were approved.".

(** [RealEstateAgentApplicationAdmin.reject_applications]. *)
Definition reject_applications_update (request : HttpRequest)
    (queryset : list nat) : M nat :=
  t ← timezone_now;
  ru ← request_user request;
  queryset_update queryset ["pending"; "under_review"; "needs_info"]
    (set_review "rejected" (Some t) (Some ru.1)).

Definition reject_applications (request : HttpRequest) (queryset : list nat)
    : M unit :=
  updated ← reject_applications_update request queryset;
  if decide (0 < updated) then
    message_user (pretty updated +:+ " applications rejected.")
  else
    message_user "No applications were rejected.".

(** [RealEstateAgentApplicationAdmin.request_more_info]. *)
Definition request_more_info_update (request : HttpRequest)
    (queryset : list nat) : M nat :=
  t ← timezone_now;
  ru ← request_user request;
  queryset_update queryset ["pending"; "under_review"]
    (set_review "needs_info" (Some t) (Some ru.1)).

Definition request_more_info (request : HttpRequest) (queryset : list nat)
    : M unit :=
  updated ← request_more_info_update request queryset;
  if decide (0 < updated) then
    message_user (pretty updated
                  +:+ " applications marked as needing more information.")
  else
    message_user "No applications were updated.".

(** ** accounts/views.py *)

(** [user_passes_test(test, login_url)]: run the view for a user that passes
    the test, send everybody else to the login page.  An anonymous user has
    [is_authenticated = False], so no test of this module lets it through. *)
Definition user_passes_test (test : User → bool) (login_url : string)
    (request : HttpRequest) (view : nat * User → M HttpResponse)
    : M HttpResponse :=
  o ← get_user request;
  match o with
  | Some u => if test u.2 then view u else mret (Redirect login_url)
  | None => mret (Redirect login_url)
  end.

Definition is_admin_user (user : User) : bool :=
  is_normal_admin user || is_super_admin user.

Definition is_admin (user : User) : bool :=
  is_staff user || is_superuser user
  || str_in (user_type user) ["super_admin"; "admin"].

(** [log_admin_activity(request, action_type, description, target_model=None,
    target_id=None, is_high_risk=False)]; an omitted optional argument is
    [None] here.  [actor] is the primary key of [request.user], which the
    calling view has loaded.  The [device_info] blob, assembled from the same
    two headers, is not stored in this model. *)
Definition log_admin_activity (request : HttpRequest) (actor : nat)
    (action_type description : string) (target_model : option string)
    (target_id : option nat) (is_high_risk : option bool) : M unit :=
  AdminActivityLog_objects_create actor action_type description
    target_model target_id
    (META request !! "REMOTE_ADDR") (META request !! "HTTP_USER_AGENT")
    (Some (default false is_high_risk));;
  mret tt.

(** The cleaned data of a valid [CustomUserCreationForm]. *)
Record RegistrationForm := mkRegistrationForm {
  cleaned_username : string;
  cleaned_user_type : string;
}.

(** [register(request)].  [form] is [Some] cleaned data when
    [form.is_valid()] holds; [form.save(commit=False)] builds the unsaved
    user from it.  The session keys and [login()] are outside this model. *)
Definition register (request : HttpRequest) (form : option RegistrationForm)
    : M HttpResponse :=
  if str_eq (method request) "POST" then
    match form with
    | Some f =>
      let user := set_user_type (cleaned_user_type f)
                    (User_new (cleaned_username f)) in
      (* Handle different user types *)
      if str_eq (user_type user) "agent" then
        (* For agents, create account but mark as pending application *)
        let user := set_is_verified false (set_is_active false user) in
        User_insert user;;
        messages_add INFO
          "Account created successfully! Now please complete your Real Estate Agent application.";;
        mret (Redirect "accounts:agent_application")
      else
        (* For buyers and brokers, activate immediately *)
        let user := set_is_verified true (set_is_active true user) in
        t ← timezone_now;
        let user := set_verification_date (Some t) user in
        User_insert user;;
        messages_add SUCCESS "Registration successful. Welcome!";;
        mret (Redirect "home")
    | None => mret (Render "accounts/register.html")
    end
  else mret (Render "accounts/register.html").

(** [dict(AdminPermissionRequest.PERMISSION_TYPES)[permission_type]]. *)
Definition permission_label (permission_type : string) : M string :=
  dict_index (dict_of PERMISSION_TYPES) permission_type.

(** The value of a [QueryDict.get] result that has been tested truthy. *)
Definition str_of (o : option string) : string := default empty_str o.

(** [.filter(requesting_admin=..., permission_type=..., status=...)]. *)
Definition permission_requests_filter (who : nat) (ptype st : string)
    (tbl : gmap nat AdminPermissionRequest) : gmap nat AdminPermissionRequest :=
  filter (λ kv, requesting_admin kv.2 = who
                ∧ permission_type kv.2 = ptype
                ∧ pr_status kv.2 = st) tbl.

(** [.first()]: some row of the selection, if there is one. *)
Definition first {A : Type} (rows : gmap nat A) : option (nat * A) :=
  head (map_to_list rows).

(** [normal_admin_request_permission(request)].  The GET branch renders the
    form; its template context is outside this model. *)
Definition normal_admin_request_permission (request : HttpRequest)
    : M HttpResponse :=
  user_passes_test is_admin_user "/accounts/login/" request (λ u,
    if str_eq (method request) "POST" then
      let permission_type := POST request !! "permission_type" in
      let reason := POST request !! "reason" in
      let justification := POST request !! "justification" in
      if negb (truthy_opt permission_type) || negb (truthy_opt reason)
         || negb (truthy_opt justification)
      then
        messages_add ERROR "All fields are required.";;
        mret (Redirect "normal_admin:normal_admin_request_permission")
      else
        let permission_type := str_of permission_type in
        let reason := str_of reason in
        let justification := str_of justification in
        (* Check if user already has this permission *)
        let permissions := get_admin_permissions u.2 in
        if dict_get permissions permission_type false then
          label ← permission_label permission_type;
          messages_add WARNING
            ("You already have " +:+ label +:+ " permission.");;
          mret (Redirect "normal_admin:normal_admin_profile")
        else
          (* Check if there's already a pending request for this permission *)
          existing_request ← gets (λ w,
            first (permission_requests_filter u.1 permission_type "pending"
                     (permission_requests w)));
          if bool_decide (is_Some existing_request) then
            label ← permission_label permission_type;
            messages_add WARNING
              ("You already have a pending request for " +:+ label
               +:+ " permission.");;
            mret (Redirect "normal_admin:normal_admin_profile")
          else
            (* Create the permission request *)
            AdminPermissionRequest_objects_create u.1 permission_type
              reason justification;;
            (* Log the request *)
            label ← permission_label permission_type;
            log_admin_activity request u.1 "create"
              ("Submitted permission request for " +:+ label)
              (Some "AdminPermissionRequest") None None;;
            label ← permission_label permission_type;
            messages_add SUCCESS
              ("Your request for " +:+ label
               +:+ " permission has been submitted to Super Admin for review.");;
            mret (Redirect "normal_admin:normal_admin_profile")
    else mret (Render "accounts/normal_admin/request_permission.html")).

(** A primary key posted as text: the number its decimal digits spell, or
    [None] when the text is not a string of digits (the lookup then raises
    [ValueError]).  The conversion of the ORM also accepts surrounding
    white space, a sign and underscores between digits; such texts are
    outside this model, and every statement about a posted key assumes a
    string of digits. *)
Definition digit_of (c : ascii) : option nat :=
  let n := nat_of_ascii c in
  if decide (48 ≤ n ∧ n ≤ 57)%nat then Some (n - 48)%nat else None.

Fixpoint parse_digits (s : string) (acc : nat) : option nat :=
  match s with
  | EmptyString => Some acc
  | String c s' =>
    match digit_of c with
    | Some d => parse_digits s' (10 * acc + d)%nat
    | None => None
    end
  end.

Definition parse_pk (s : string) : option nat :=
  match s with
  | EmptyString => None
  | _ => parse_digits s 0
  end.

(** [User.objects.get(pk=agent_id, user_type__in=['agent', 'broker'])] with
    [agent_id] as posted. *)
Definition get_agent (agent_id : option string) : M (nat * User) :=
  match agent_id with
  | None => raise DoesNotExist
  | Some s =>
    match parse_pk s with
    | None => raise ValueError
    | Some pk =>
      o ← gets (λ w, users w !! pk);
      match o with
      | Some u => if str_in (user_type u) ["agent"; "broker"] then mret (pk, u)
                  else raise DoesNotExist
      | None => raise DoesNotExist
      end
    end
  end.

(** [try: ... except User.DoesNotExist: handler]. *)
Definition try_except_DoesNotExist {A : Type} (body handler : M A) : M A :=
  λ w, match body w with
       | (Raise DoesNotExist, w') => handler w'
       | r => r
       end.

Definition dquote : string := String (ascii_of_nat 34) EmptyString.

(** [f'{agent.get_full_name}']: the method is not called, so the text is the
    representation of the bound method. *)
Definition get_full_name_repr (agent : User) : string :=
  "<bound method AbstractUser.get_full_name of <User: " +:+ username agent
  +:+ " (" +:+ user_type agent +:+ ")>>".

(** [normal_admin_agents(request)].  The GET branch renders the list. *)
Definition normal_admin_agents (request : HttpRequest) : M HttpResponse :=
  user_passes_test is_admin "/accounts/login/" request (λ ru,
    if str_eq (method request) "POST" then
      let agent_id := POST request !! "agent_id" in
      let action := POST request !! "action" in
      try_except_DoesNotExist
        ('(pk, agent) ← get_agent agent_id;
         if bool_decide (action = Some "verify") && negb (is_verified agent) then
           t ← timezone_now;
           User_save pk (set_verification_date (Some t) (set_is_verified true agent));;
           log_admin_activity request ru.1 "verify"
             ("Verified agent: " +:+ username agent) (Some "User") (Some pk) None;;
           messages_add SUCCESS
             ("Agent " +:+ dquote +:+ get_full_name_repr agent +:+ dquote
              +:+ " verified successfully.")
         else if bool_decide (action = Some "unverify") && is_verified agent then
           User_save pk (set_verification_date None (set_is_verified false agent));;
           log_admin_activity request ru.1 "update"
             ("Unverified agent: " +:+ username agent) (Some "User") (Some pk) None;;
           messages_add SUCCESS
             ("Agent " +:+ dquote +:+ get_full_name_repr agent +:+ dquote
              +:+ " unverified.")
         else if bool_decide (action = Some "activate") && negb (is_active agent) then
           User_save pk (set_is_active true agent);;
           log_admin_activity request ru.1 "update"
             ("Activated agent account: " +:+ username agent)
             (Some "User") (Some pk) None;;
           messages_add SUCCESS
             ("Agent " +:+ dquote +:+ get_full_name_repr agent +:+ dquote
              +:+ " activated.")
         else if bool_decide (action = Some "deactivate") && is_active agent then
           User_save pk (set_is_active false agent);;
           log_admin_activity request ru.1 "update"
             ("Deactivated agent account: " +:+ username agent)
             (Some "User") (Some pk) None;;
           messages_add SUCCESS
             ("Agent " +:+ dquote +:+ get_full_name_repr agent +:+ dquote
              +:+ " deactivated.")
         else mret tt)
        (messages_add ERROR "Agent not found.");;
      mret (Redirect "normal_admin:normal_admin_agents")
    else mret (Render "realestate_admin_templates/agents_list.html")).

(** ** Names for the rows the review code writes *)

(** The account after the approval cascade. *)
Definition activated (t : timestamp) (u : User) : User :=
  set_verification_date (Some t) (set_is_verified true (set_is_active true u)).

(** The account after the reject / needs_info cascade. *)
Definition locked_out (u : User) : User :=
  set_is_verified false (set_is_active false u).

(** The applicants of a list of fetched application rows. *)
Definition applicants (rows : list (nat * RealEstateAgentApplication)) : list nat :=
  (λ row, applicant row.2) <$> rows.

(** What the approval cascade must have established: the application as
    stored after the review and the applicant's account as stored. *)
Definition cascade_done (reviewer : nat) (a : RealEstateAgentApplication)
    (u : User) : Prop :=
  status a = "approved" ∧ is_Some (reviewed_at a) ∧ reviewed_by a = Some reviewer
  ∧ is_active u = true ∧ is_verified u = true ∧ is_Some (verification_date u).

(** * Concrete accounts, requests and worlds used by the examples *)

Definition plain_user (name role : string) : User :=
  set_user_type role (User_new name).

(** An account demoted from admin to buyer (the [make_buyers] admin action
    rewrites [user_type] only): the admin flag and the permission map stay. *)
Definition demoted_admin : User :=
  {| username := "former_admin"; user_type := "buyer"; is_active := true;
     is_verified := true; verification_date := None;
     is_staff := false; is_superuser := false; is_admin_active := true;
     admin_permissions := {[ "manage_users" := true ]} |}.

(** A super admin with an empty permission map, and a limited admin whose map
    is the one [setup_admin_users] writes: every key present, only
    [manage_properties] true. *)
Definition root_user : User :=
  {| username := "SuperAdmin"; user_type := "super_admin"; is_active := true;
     is_verified := false; verification_date := None;
     is_staff := true; is_superuser := true; is_admin_active := true;
     admin_permissions := ∅ |}.

Definition admin7 : User :=
  {| username := "RENAdmin"; user_type := "admin"; is_active := true;
     is_verified := false; verification_date := None;
     is_staff := true; is_superuser := false; is_admin_active := true;
     admin_permissions := <["manage_properties" := true]> no_permissions |}.

(** The final world of a run. *)
Definition exec {A : Type} (m : M A) (w : World) : World := (m w).2.

(** The two admin accounts, and nothing else. *)
Definition world0 : World :=
  {| users := {[ 1 := root_user; 7 := admin7 ]}; next_user_id := 8;
     applications := ∅; permission_requests := ∅;
     next_permission_request_id := 1; activity_logs := [];
     admin_notifications := []; user_activities := []; flash := [];
     clock := 100%Z |}.

(** Admin 7 posts the permission request form for [manage_payments]. *)
Definition payments_form : HttpRequest :=
  {| session_user := Some 7; method := "POST";
     POST := {[ "permission_type" := "manage_payments"; "reason" := "X";
                "justification" := "Y" ]};
     META := {[ "REMOTE_ADDR" := "10.0.0.7" ]} |}.

(** The super admin resolves pending request [pk], as the review view does:
    fetch it with [status='pending'], then call the method. *)
Definition approve_pending (pk : nat) : M (nat * AdminPermissionRequest) :=
  p ← AdminPermissionRequest_get_pending pk; approve_request p (1, root_user).

Definition reject_pending (pk : nat) (notes : string)
    : M (nat * AdminPermissionRequest) :=
  p ← AdminPermissionRequest_get_pending pk;
  reject_request p (1, root_user) notes.

(** Request 1 is pending. *)
Definition world_submitted : World :=
  exec (normal_admin_request_permission payments_form) world0.

(** Request 1 has been approved: the requester's row and the request are
    saved, after which the method raises on its audit entry. *)
Definition world_approved : World := exec (approve_pending 1) world_submitted.

(** Request 1 has been rejected: the request is saved, after which the
    method raises on its audit entry. *)
Definition world_rejected : World :=
  exec (reject_pending 1 "not now") world_submitted.




(** The rows these runs store. *)
Definition payments_request (st : string) (requested : timestamp)
    (reviewed : option timestamp) (reviewer : option nat) (notes : string)
    (granted : option timestamp) : AdminPermissionRequest :=
  {| requesting_admin := 7; permission_type := "manage_payments";
     reason := "X"; justification := "Y"; pr_status := st;
     requested_at := requested; pr_reviewed_at := reviewed;
     pr_reviewed_by := reviewer; review_notes := notes;
     granted_at := granted |}.

Definition pending_request (requested : timestamp) : AdminPermissionRequest :=
  payments_request "pending" requested None None empty_str None.

Definition admin7_granted : User :=
  set_admin_permissions
    (<["manage_payments" := true]> (admin_permissions admin7)) admin7.

(** Agent accounts and their applications. *)
Definition agent_user (name : string) (active verified : bool) : User :=
  set_is_verified verified (set_is_active active (plain_user name "agent")).

Definition application_of (who : nat) (st : string) : RealEstateAgentApplication :=
  {| applicant := who; company_name := "ABC Realty Company";
     license_number := "REL-12345-ABC"; status := st; reviewed_at := None;
     reviewed_by := None; admin_feedback := empty_str;
     requested_documents := empty_str |}.

(** The super admin, logged in to the admin site. *)
Definition staff_request : HttpRequest :=
  {| session_user := Some 1; method := "POST"; POST := ∅;
     META := {[ "REMOTE_ADDR" := "10.0.0.1" ]} |}.

(** Four agents: application 1 pending, 2 approved, 3 rejected, 4 waiting
    for more information. *)
Definition world_applications : World :=
  with_applications (λ _,
    {[ 1 := application_of 41 "pending"; 2 := application_of 42 "approved";
       3 := application_of 43 "rejected"; 4 := application_of 44 "needs_info" ]})
  (with_users (λ us,
     <[41 := agent_user "agent41" false false]>
     (<[42 := agent_user "agent42" true true]>
     (<[43 := agent_user "agent43" false false]>
     (<[44 := agent_user "agent44" false false]> us)))) world0).

(** Agent 41's application is pending; the super admin then runs the
    "Verify and activate selected real estate agents" action on the
    account. *)
Definition world_verified_by_hand : World :=
  exec (verify_agents staff_request [41]) world_applications.

(** A visitor registers as a buyer. *)
Definition register_post : HttpRequest :=
  {| session_user := None; method := "POST"; POST := ∅; META := ∅ |}.

Definition buyer_form : RegistrationForm :=
  {| cleaned_username := "alice"; cleaned_user_type := "buyer" |}.

Definition agent_form : RegistrationForm :=
  {| cleaned_username := "bob"; cleaned_user_type := "agent" |}.

(** The super admin posts the verify action of the agents page for
    account 41. *)
Definition verify_post : HttpRequest :=
  {| session_user := Some 1; method := "POST";
     POST := {[ "agent_id" := "41"; "action" := "verify" ]};
     META := {[ "REMOTE_ADDR" := "10.0.0.1" ]} |}.

(** * Further code of the same files *)

(** ** accounts/admin.py: the remaining actions of [CustomUserAdmin] *)

(** [queryset.update(...)] on users: one UPDATE over the selected rows.  As
    for applications, the queryset of an action is the list of the ticked
    primary keys; list filters of the changelist are not part of it. *)
Definition users_update (queryset : list nat) (f : User → User) : M unit :=
  modify (with_users (map_imap (λ k u,
    Some (if decide (k ∈ queryset) then f u else u)))).

(** [queryset.count()] on users: the selected rows that are stored. *)
Definition users_count (queryset : list nat) : M nat :=
  gets (λ w, size (filter (λ kv : nat * User, kv.1 ∈ queryset) (users w))).

Definition activate_users (request : HttpRequest) (queryset : list nat) : M unit :=
  users_update queryset (set_is_active true);;
  n ← users_count queryset;
  message_user (pretty n +:+ " users activated.").

Definition deactivate_users (request : HttpRequest) (queryset : list nat) : M unit :=
  users_update queryset (set_is_active false);;
  n ← users_count queryset;
  message_user (pretty n +:+ " users deactivated.").

Definition make_brokers (request : HttpRequest) (queryset : list nat) : M unit :=
  users_update queryset (set_user_type "broker");;
  n ← users_count queryset;
  message_user (pretty n +:+ " users set as brokers.").

Definition make_buyers (request : HttpRequest) (queryset : list nat) : M unit :=
  users_update queryset (set_user_type "buyer");;
  n ← users_count queryset;
  message_user (pretty n +:+ " users set as buyers.").

Definition make_agents (request : HttpRequest) (queryset : list nat) : M unit :=
  users_update queryset (set_user_type "agent");;
  n ← users_count queryset;
  message_user (pretty n +:+ " users set as real estate agents.").

(** [CustomUserAdmin.revoke_verification].  As in [verify_agents], the count
    is a second query over the same filter, run after the update. *)
Definition revoke_verification_filter (queryset : list nat) (tbl : gmap nat User)
    : gmap nat User :=
  filter (λ kv, kv.1 ∈ queryset ∧ user_type kv.2 = "agent"
                ∧ is_verified kv.2 = true) tbl.

Definition revoke_verification (request : HttpRequest) (queryset : list nat)
    : M unit :=
  modify (with_users (map_imap (λ k u,
    Some (if decide (k ∈ queryset ∧ user_type u = "agent" ∧ is_verified u = true)
          then set_verification_date None
                 (set_is_active false (set_is_verified false u))
          else u))));;
  revoked_count ← gets (λ w, size (revoke_verification_filter queryset (users w)));
  if decide (0 < revoked_count) then
    message_user ("Verification revoked for " +:+ pretty revoked_count
                  +:+ " agents (accounts deactivated).")
  else
    message_user "No verified agents selected.".

(** ** accounts/views.py: logging in *)

(** [f'{x}'] of a [QueryDict.get] result: a missing key prints as [None]. *)
Definition py_str (o : option string) : string := default "None" o.

(** [user.agent_application], the reverse side of the one-to-one relation:
    the application whose applicant is the user, [None] where the accessor
    raises because there is none. *)
Definition agent_application_of (user_pk : nat)
    : M (option (nat * RealEstateAgentApplication)) :=
  gets (λ w, first (filter (λ kv : nat * RealEstateAgentApplication,
                              applicant kv.2 = user_pk) (applications w))).

Definition login_page : HttpResponse := Render "accounts/login.html".

(** [user_login(request)].  The view returns its response together with the
    account that [login(request, user)] has put into the session ([None]
    when [login] was not called).  Three things come from outside the
    modelled code and are parameters: whether [form.is_valid()] holds,
    the account [authenticate(username, password)] returns, and
    [request.GET.get('next')]. *)
Definition user_login (request : HttpRequest) (form_valid : bool)
    (authenticated : option nat) (next_url : option string)
    : M (HttpResponse * option nat) :=
  if str_eq (method request) "POST" then
    let username := POST request !! "username" in
    if form_valid then
      user ← match authenticated with
             | Some pk => o ← gets (λ w, users w !! pk); mret ((λ u, (pk, u)) <$> o)
             | None => mret None
             end;
      match user with
      | Some (pk, user) =>
        (* Handle admin users first (super_admin and admin types) *)
        if str_in (user_type user) ["super_admin"; "admin"] then
          if is_admin_active user then
            messages_add SUCCESS
              ("Welcome back, Admin " +:+ py_str username +:+ "!");;
            (* Redirect based on admin type and next parameter *)
            if truthy_opt next_url then
              mret (Redirect (str_of next_url), Some pk)
            else if str_eq (user_type user) "super_admin" then
              mret (Redirect "normal_admin:normal_admin_dashboard", Some pk)
            else
              mret (Redirect "normal_admin:normal_admin_dashboard", Some pk)
          else
            messages_add ERROR
              "Your admin account is deactivated. Contact Super Admin.";;
            mret (login_page, None)
        (* Handle agent verification check BEFORE checking is_active *)
        else if str_eq (user_type user) "agent" then
          application ← agent_application_of pk;
          match application with
          | Some (_, application) =>
            if str_eq (status application) "approved" && is_active user
               && is_verified user
            then
              (* Agent is approved, allow login *)
              messages_add SUCCESS ("Welcome back, " +:+ py_str username +:+ "!");;
              mret (Redirect "home", Some pk)
            else if str_in (status application) ["pending"; "under_review"] then
              messages_add WARNING
                "Your Real Estate Agent application is under review. You will be notified once it's approved.";;
              mret (login_page, None)
            else if str_eq (status application) "needs_info" then
              messages_add WARNING
                "Your application needs additional information. Please check your application status for details.";;
              mret (login_page, None)
            else if str_eq (status application) "rejected" then
              messages_add ERROR
                "Your Real Estate Agent application has been rejected. Please contact support for assistance.";;
              mret (login_page, None)
            else mret (login_page, None)
          | None =>
            (* No application found *)
            messages_add ERROR
              "You must submit a Real Estate Agent application first. Please register as an agent again.";;
            mret (login_page, None)
          end
        (* For regular users (buyers and brokers), check normal activation *)
        else
          if negb (is_active user) then
            messages_add ERROR "Your account is deactivated. Contact support.";;
            mret (login_page, None)
          else
            (* Normal login for buyers and brokers *)
            messages_add SUCCESS ("Welcome back, " +:+ py_str username +:+ "!");;
            mret (Redirect "home", Some pk)
      | None =>
        (* Invalid credentials *)
        messages_add ERROR "Invalid username or password.";;
        mret (login_page, None)
      end
    else
      (* Form not valid *)
      messages_add ERROR "Please enter valid credentials.";;
      mret (login_page, None)
  else mret (login_page, None).

(** ** accounts/views.py and real_estate/admin_views.py: resolving requests *)

(** [AdminPermissionRequest.objects.get(pk=request_id, status='pending')]
    with [request_id] as posted: [None] where the lookup raises
    [AdminPermissionRequest.DoesNotExist], which is what the view's [except]
    clause catches; text that is not a number raises [ValueError]. *)
Definition get_pending_request (request_id : option string)
    : M (option (nat * AdminPermissionRequest)) :=
  match request_id with
  | None => mret None
  | Some s =>
    match parse_pk s with
    | None => raise ValueError
    | Some pk =>
      o ← gets (λ w, permission_requests w !! pk);
      match o with
      | Some r => if str_eq (pr_status r) "pending" then mret (Some (pk, r))
                  else mret None
      | None => mret None
      end
    end
  end.

(** The POST branch that the two review views share, up to the redirect.
    [DoesNotExist] of another model raised inside the methods is not caught.
    The requester's name in the message is read from the instance the method
    has loaded; its row is read again here. *)
Definition resolve_posted_request (request : HttpRequest)
    (super_admin : nat * User) : M unit :=
  let request_id := POST request !! "request_id" in
  let action := POST request !! "action" in
  let review_notes := default empty_str (POST request !! "review_notes") in
  found ← get_pending_request request_id;
  match found with
  | Some permission_request =>
    if bool_decide (action = Some "approve") then
      '(_, r) ← approve_request permission_request super_admin;
      requester ← User_objects_get (requesting_admin r);
      messages_add SUCCESS
        ("Permission request approved for " +:+ username requester +:+ ".")
    else if bool_decide (action = Some "reject") then
      '(_, r) ← reject_request permission_request super_admin review_notes;
      requester ← User_objects_get (requesting_admin r);
      messages_add SUCCESS
        ("Permission request rejected for " +:+ username requester +:+ ".")
    else mret tt
  | None => messages_add ERROR "Permission request not found."
  end.

(** [super_admin_permission_requests(request)] of accounts/views.py. *)
Definition super_admin_permission_requests (request : HttpRequest)
    : M HttpResponse :=
  user_passes_test is_super_admin "/accounts/login/" request (λ ru,
    if str_eq (method request) "POST" then
      resolve_posted_request request ru;;
      mret (Redirect "normal_admin:normal_admin_permission_requests")
    else mret (Render "realestate_admin_templates/permission_requests.html")).

(** [admin_permission_requests(request)] of real_estate/admin_views.py: the
    same view behind the default login URL ([settings.LOGIN_URL], a
    parameter here). *)
Definition admin_permission_requests (login_url : string)
    (request : HttpRequest) : M HttpResponse :=
  user_passes_test is_super_admin login_url request (λ ru,
    if str_eq (method request) "POST" then
      resolve_posted_request request ru;;
      mret (Redirect "admin_permission_requests")
    else mret (Render "realestate_admin_templates/permission_requests.html")).

(** ** Well-formed tables *)

(** The one-to-one relation between applications and applicants. *)
Definition one_to_one (tbl : gmap nat RealEstateAgentApplication) : Prop :=
  ∀ k1 k2 a1 a2, tbl !! k1 = Some a1 → tbl !! k2 = Some a2 →
                 applicant a1 = applicant a2 → k1 = k2.

(** ** Further example worlds *)

(** The super admin posts a decision on request [text] to the review view. *)
Definition review_post (text action : string) : HttpRequest :=
  {| session_user := Some 1; method := "POST";
     POST := {[ "request_id" := text; "action" := action ]};
     META := {[ "REMOTE_ADDR" := "10.0.0.1" ]} |}.

(** The limited admin 7 posts the same decision. *)
Definition review_post_by_admin7 (text action : string) : HttpRequest :=
  {| session_user := Some 7; method := "POST";
     POST := {[ "request_id" := text; "action" := action ]};
     META := {[ "REMOTE_ADDR" := "10.0.0.7" ]} |}.

(** Admin 7 posts the request form for a permission type with key [ptype]. *)
Definition request_form (ptype why how : string) : HttpRequest :=
  {| session_user := Some 7; method := "POST";
     POST := {[ "permission_type" := ptype; "reason" := why;
                "justification" := how ]};
     META := {[ "REMOTE_ADDR" := "10.0.0.7" ]} |}.

(** The super admin posts [action] for account [agent_id] to the agents
    page. *)
Definition agents_post (agent_id action : string) : HttpRequest :=
  {| session_user := Some 1; method := "POST";
     POST := {[ "agent_id" := agent_id; "action" := action ]};
     META := {[ "REMOTE_ADDR" := "10.0.0.1" ]} |}.

(** A visitor posts the login form. *)
Definition login_post (name : string) : HttpRequest :=
  {| session_user := None; method := "POST";
     POST := {[ "username" := name; "password" := "secret" ]};
     META := ∅ |}.

(** * Theorems *)

(** ** Running monadic code in proofs *)

Arguments unique_together_violated : simpl never.
Arguments set_resolution : simpl never.
Arguments set_review : simpl never.
Arguments get_permission_type_display : simpl never.
Arguments str_in : simpl never.
Arguments str_eq : simpl never.

(** Unfold the monad and the storage primitives, nothing else. *)
Ltac run :=
  cbv beta iota zeta delta
    [mbind M_bind mret M_ret gets modify raise timezone_now messages_add
     message_user dict_index User_objects_get User_save User_insert
     Application_save UserActivity_objects_create
     AdminActivityLog_objects_create AdminNotification_objects_create
     AdminPermissionRequest_save AdminPermissionRequest_objects_create
     AdminPermissionRequest_get_pending get_user request_user
     log_admin_activity].

(** Read a field back from an updated world. *)
Tactic Notation "simp_world" :=
  cbn [users next_user_id applications permission_requests
       next_permission_request_id activity_logs admin_notifications
       user_activities flash clock
       with_users with_next_user_id with_applications
       with_permission_requests with_next_permission_request_id
       with_activity_logs with_admin_notifications with_user_activities
       with_flash with_clock].

Tactic Notation "simp_world" "in" hyp(H) :=
  cbn [users next_user_id applications permission_requests
       next_permission_request_id activity_logs admin_notifications
       user_activities flash clock
       with_users with_next_user_id with_applications
       with_permission_requests with_next_permission_request_id
       with_activity_logs with_admin_notifications with_user_activities
       with_flash with_clock] in H.

Lemma bind_run {A B : Type} (m : M A) (f : A → M B) (w : World) :
  (m ≫= f) w = match m w with
               | (Return a, w') => f a w'
               | (Raise e, w') => (Raise e, w')
               end.
Proof. reflexivity. Qed.

(** ** Python helpers *)

Lemma str_eq_true (x y : string) : str_eq x y = true ↔ x = y.
Proof. unfold str_eq. apply bool_decide_eq_true. Qed.

Lemma str_in_true (x : string) (xs : list string) : str_in x xs = true ↔ x ∈ xs.
Proof. unfold str_in. apply bool_decide_eq_true. Qed.

Lemma dict_get_true (d : gmap string bool) (k : string) :
  dict_get d k false = bool_decide (d !! k = Some true).
Proof.
  unfold dict_get. by destruct (d !! k) as [[]|].
Qed.

(** ** The authorization gate *)

Section gate.
Variable account : User.

(** Every map-backed predicate has the same shape. *)
Lemma can_map_backed (c : Capability) :
  c ≠ ManageAdmins →
  can account c =
    if bool_decide (user_type account = "super_admin") then true
    else is_admin_active account
         && dict_get (admin_permissions account) (capability_key c) false.
Proof. destruct c; intros Hc; try done. Qed.

Lemma super_admin_bypass (c : Capability) :
  user_type account = "super_admin" → can account c = true.
Proof.
  intros E. destruct c; simpl;
    unfold can_manage_users, can_manage_properties, can_manage_payments,
      can_manage_premium, can_manage_admins, can_manage_system,
      can_view_logs, can_delete_data, can_export_data, can_manage_content,
      str_eq; by rewrite bool_decide_eq_true_2.
Qed.
End gate.

(** C3 (as amended).  The gate grants every capability to a [super_admin],
    whatever its permission map and admin flag hold.  For every other
    account, whatever its role, [manage_admins] is denied, and any other
    capability is granted exactly when the admin flag is set and the
    permission map holds [true] under the capability's key; a missing key
    denies. *)
Theorem gate_contract (account : User) (c : Capability) :
  can account c =
    if bool_decide (user_type account = "super_admin") then true
    else if bool_decide (c = ManageAdmins) then false
    else is_admin_active account
         && bool_decide (admin_permissions account !! capability_key c = Some true).
Proof.
  destruct (decide (c = ManageAdmins)) as [->|Hc].
  - simpl. unfold can_manage_admins, str_eq. by case_bool_decide.
  - rewrite can_map_backed by done. rewrite dict_get_true.
    rewrite (bool_decide_eq_false_2 (c = ManageAdmins)) by done. done.
Qed.

(** C3, counterexample.  The claim denies every capability to an account
    that is neither a super_admin nor an active admin; a buyer that kept its
    admin flag and permission map is granted [manage_users]. *)
Lemma gate_grants_former_admin :
  ¬ (user_type demoted_admin ≠ "super_admin" →
     ¬ (user_type demoted_admin = "admin" ∧ is_admin_active demoted_admin = true) →
     can demoted_admin ManageUsers = false).
Proof.
  intros H.
  assert (can demoted_admin ManageUsers = true) as E by reflexivity.
  rewrite H in E; [discriminate | discriminate |].
  intros [? _]. discriminate.
Qed.

(** ** The audit log writer *)

Lemma ip_address_stored (b : bool) (self : AdminActivityLog) :
  ip_address (if b then set_is_high_risk true self else self) = ip_address self.
Proof. by destruct b. Qed.

Lemma AdminActivityLog_save_run (self : AdminActivityLog) (w : World) :
  truthy_opt (ip_address self) = true →
  AdminActivityLog_save self w
  = (Return (if str_in (action_type self) high_risk_actions
             then set_is_high_risk true self else self),
     with_activity_logs
       (λ l, (l ++ [if str_in (action_type self) high_risk_actions
                    then set_is_high_risk true self else self])%list) w).
Proof.
  intros Hip. unfold AdminActivityLog_save. cbv zeta.
  by rewrite ip_address_stored, Hip.
Qed.

Lemma AdminActivityLog_save_raise (self : AdminActivityLog) (w : World) :
  truthy_opt (ip_address self) = false →
  AdminActivityLog_save self w = (Raise IntegrityError, w).
Proof.
  intros Hip. unfold AdminActivityLog_save. cbv zeta.
  by rewrite ip_address_stored, Hip.
Qed.

(** C4.  Whatever writes an audit entry ([save] on an instance,
    [objects.create], or the view helper [log_admin_activity]), and given
    that the entry carries a client address, the stored entry is high-risk
    when its action type is delete, ban, refund or permission, whatever the
    caller passed; for any other action type it carries the caller's value,
    [False] when the caller passed none.  An entry without an address is not
    stored: the write raises [IntegrityError] and the log is as before. *)
Theorem high_risk_derivation :
  (∀ (self : AdminActivityLog) (w : World),
     truthy_opt (ip_address self) = true →
     ∃ stored,
       AdminActivityLog_save self w
         = (Return stored, with_activity_logs (λ l, (l ++ [stored])%list) w)
       ∧ is_high_risk stored =
           if bool_decide (action_type self ∈ ["delete"; "ban"; "refund"; "permission"])
           then true else is_high_risk self)
  ∧ (∀ (actor : nat) (kind text : string) (target : option string)
       (target_pk : option nat) (ip ua : option string) (flag : option bool)
       (w : World),
     truthy_opt ip = true →
     ∃ stored w',
       AdminActivityLog_objects_create actor kind text target target_pk ip ua
         flag w = (Return stored, w')
       ∧ activity_logs w' = (activity_logs w ++ [stored])%list
       ∧ action_type stored = kind
       ∧ is_high_risk stored =
           if bool_decide (kind ∈ ["delete"; "ban"; "refund"; "permission"])
           then true else default false flag)
  ∧ (∀ (request : HttpRequest) (actor : nat) (kind text : string)
       (target : option string) (target_pk : option nat) (flag : option bool)
       (w : World),
     truthy_opt (META request !! "REMOTE_ADDR") = true →
     ∃ stored w',
       log_admin_activity request actor kind text target target_pk flag w
         = (Return tt, w')
       ∧ activity_logs w' = (activity_logs w ++ [stored])%list
       ∧ action_type stored = kind
       ∧ is_high_risk stored =
           if bool_decide (kind ∈ ["delete"; "ban"; "refund"; "permission"])
           then true else default false flag)
  ∧ (∀ (self : AdminActivityLog) (w : World),
       truthy_opt (ip_address self) = false →
       AdminActivityLog_save self w = (Raise IntegrityError, w)).
Proof.
  split; [|split; [|split]].
  - intros self w Hip. eexists. rewrite AdminActivityLog_save_run by done.
    split; [reflexivity|]. unfold str_in, high_risk_actions.
    by case_bool_decide.
  - intros actor kind text target target_pk ip ua flag w Hip. eexists _, _.
    run. rewrite AdminActivityLog_save_run by done. split; [reflexivity|].
    simp_world. split; [reflexivity|]. cbn [action_type].
    split; [by destruct (str_in kind _)|].
    unfold str_in, high_risk_actions. by case_bool_decide.
  - intros request actor kind text target target_pk flag w Hip. eexists _, _.
    run. rewrite AdminActivityLog_save_run by done. split; [reflexivity|].
    simp_world. split; [reflexivity|]. cbn [action_type].
    split; [by destruct (str_in kind _)|].
    unfold str_in, high_risk_actions. by case_bool_decide.
  - intros self w Hip. by apply AdminActivityLog_save_raise.
Qed.

(** C4, witness: an entry of type [permission] that the caller marks as not
    high-risk, and an entry of type [create] without a mark, both written
    for a request that carries its client address. *)
Lemma high_risk_derivation_witness :
  (∃ stored w',
     AdminActivityLog_objects_create 1 "permission" "Rejected" None None
       (Some "10.0.0.1") None (Some false) world0 = (Return stored, w')
     ∧ activity_logs w' = [stored] ∧ is_high_risk stored = true)
  ∧ (∃ stored w',
       log_admin_activity payments_form 7 "create" "Submitted" None None None
         world0 = (Return tt, w')
       ∧ activity_logs w' = [stored] ∧ is_high_risk stored = false).
Proof.
  destruct high_risk_derivation as (_ & Hcreate & Hlog & _).
  split.
  - destruct (Hcreate 1 "permission" "Rejected" None None (Some "10.0.0.1")
                None (Some false) world0 eq_refl)
      as (stored & w' & Hrun & Hlogs & _ & Hrisk).
    exists stored, w'. split; [exact Hrun|]. split; [exact Hlogs|].
    rewrite Hrisk. reflexivity.
  - destruct (Hlog payments_form 7 "create" "Submitted" None None None world0
                eq_refl)
      as (stored & w' & Hrun & Hlogs & _ & Hrisk).
    exists stored, w'. split; [exact Hrun|]. split; [exact Hlogs|].
    rewrite Hrisk. reflexivity.
Defined.

(** ** Resolving permission requests *)


Lemma unique_together_violated_false self_pk r tbl :
  (∀ k r', tbl !! k = Some r' → Some k ≠ self_pk → ¬ same_triple r r') →
  unique_together_violated self_pk r tbl = false.
Proof.
  intros H. unfold unique_together_violated.
  apply bool_decide_eq_false_2.
  intros (k & r' & Hk & Hne & Ht)%map_Exists_lookup. by eapply H.
Qed.

Section resolve.
Variables (w : World) (pk : nat) (r : AdminPermissionRequest).
Variables (super_admin : nat * User) (requester : User).
Hypothesis Hrequester : users w !! requesting_admin r = Some requester.

Abbreviation rejected_row notes :=
  (set_resolution "rejected" (Some (clock w)) (Some super_admin.1) notes
     (granted_at r) r).
Abbreviation granted_user :=
  (set_admin_permissions
     (<[permission_type r := true]> (admin_permissions requester)) requester).

(** A rejection that the unique index lets through: the request is saved as
    rejected, and the audit entry, which [reject_request] builds without a
    client address, is refused.  The method ends there. *)
Lemma reject_request_run (notes : string) :
  unique_together_violated (Some pk) (rejected_row notes)
    (permission_requests w) = false →
  ∃ w',
    reject_request (pk, r) super_admin notes w = (Raise IntegrityError, w')
    ∧ permission_requests w' = <[pk := rejected_row notes]> (permission_requests w)
    ∧ users w' = users w
    ∧ activity_logs w' = activity_logs w
    ∧ admin_notifications w' = admin_notifications w.
Proof.
  intros Hu. eexists.
  unfold reject_request. run; simp_world. rewrite Hu. simp_world.
  change (requesting_admin (set_resolution _ _ _ _ _ r))
    with (requesting_admin r).
  rewrite Hrequester. simp_world.
  rewrite AdminActivityLog_save_raise by reflexivity. by repeat split.
Qed.

Variables (pk0 : nat) (r0 : AdminPermissionRequest).
Hypothesis Hearlier : permission_requests w !! pk0 = Some r0.
Hypothesis Hsame_admin : requesting_admin r0 = requesting_admin r.
Hypothesis Hsame_type : permission_type r0 = permission_type r.

End resolve.


(** C5, evaluated.  The super admin rejects admin 7's pending request 1.
    The request is stored as rejected with the reviewer and the notes, and
    the users table (and so every permission map) is as before.  Then
    [reject_request] creates its audit entry without a client address, the
    insert is refused, and the method raises [IntegrityError]: no audit
    entry is stored, high-risk or not, and no notification is created. *)
Theorem reject_request_raises_on_audit_entry :
  ∃ w',
    reject_request (1, pending_request 100) (1, root_user) "not now"
      world_submitted
    = (Raise IntegrityError, w')
    ∧ permission_requests w' !! 1
      = Some (payments_request "rejected" 100 (Some 102%Z) (Some 1)
                "not now" None)
    ∧ users w' = users world_submitted
    ∧ activity_logs w' = activity_logs world_submitted
    ∧ admin_notifications w' = admin_notifications world_submitted.
Proof.
  eexists. split; [vm_compute; reflexivity|].
  split; [vm_compute; reflexivity|]. by repeat split.
Qed.

(** ** Submitting permission requests *)

Lemma truthy_opt_filled (s : string) : s ≠ empty_str → truthy_opt (Some s) = true.
Proof.
  intros H. unfold truthy_opt, truthy. apply negb_true_iff.
  unfold str_eq. by apply bool_decide_eq_false_2.
Qed.

Lemma permission_label_run (ptype label : string) (w : World) :
  dict_of PERMISSION_TYPES !! ptype = Some label →
  permission_label ptype w = (Return label, w).
Proof. intros H. unfold permission_label, dict_index. by rewrite H. Qed.

Lemma is_admin_user_active (u : User) :
  is_admin_user u = true → is_admin_active u = true.
Proof.
  unfold is_admin_user, is_normal_admin, is_super_admin. intros H.
  destruct (is_admin_active u); [done|]. by rewrite !andb_false_r in H.
Qed.

Lemma get_admin_permissions_active (u : User) :
  is_admin_active u = true → get_admin_permissions u = admin_permissions u.
Proof. intros H. unfold get_admin_permissions. by rewrite H. Qed.

Lemma first_None {A : Type} (m : gmap nat A) : first m = None ↔ m = ∅.
Proof.
  unfold first. rewrite <- map_to_list_empty_iff.
  destruct (map_to_list m); naive_solver.
Qed.

Lemma permission_requests_filter_empty who ptype st tbl :
  permission_requests_filter who ptype st tbl = ∅ ↔
  ∀ k r, tbl !! k = Some r →
    ¬ (requesting_admin r = who ∧ permission_type r = ptype ∧ pr_status r = st).
Proof.
  unfold permission_requests_filter. rewrite map_empty_filter.
  unfold map_Forall. simpl. done.
Qed.

Section submit.
Variables (w : World) (request : HttpRequest) (uid : nat) (u : User).
Variables (ptype why how label : string).
Hypothesis Hsession : session_user request = Some uid.
Hypothesis Huser : users w !! uid = Some u.
Hypothesis Hadmin : is_admin_user u = true.
Hypothesis Hpost : method request = "POST".
Hypothesis Hptype : POST request !! "permission_type" = Some ptype.
Hypothesis Hwhy : POST request !! "reason" = Some why.
Hypothesis Hhow : POST request !! "justification" = Some how.
Hypothesis Hfilled : ptype ≠ empty_str ∧ why ≠ empty_str ∧ how ≠ empty_str.
Hypothesis Hlabel : dict_of PERMISSION_TYPES !! ptype = Some label.

Abbreviation to_profile := (Redirect "normal_admin:normal_admin_profile").

Abbreviation new_request :=
  {| requesting_admin := uid; permission_type := ptype; reason := why;
     justification := how; pr_status := "pending"; requested_at := clock w;
     pr_reviewed_at := None; pr_reviewed_by := None; review_notes := empty_str;
     granted_at := None |}.

(** Pass the gate and the required-fields check of the view. *)
Ltac enter :=
  unfold normal_admin_request_permission, user_passes_test;
  run; rewrite Hsession; run; rewrite Huser;
  cbn [fmap option_fmap option_map fst snd];
  rewrite Hadmin, Hpost, Hptype, Hwhy, Hhow;
  rewrite (bool_decide_eq_true_2 ("POST" = "POST") eq_refl
           : str_eq "POST" "POST" = true);
  destruct Hfilled as (? & ? & ?);
  rewrite !truthy_opt_filled by done;
  cbn [negb orb str_of default];
  rewrite get_admin_permissions_active by (by apply is_admin_user_active);
  rewrite dict_get_true.

Lemma submit_already_granted :
  admin_permissions u !! ptype = Some true →
  normal_admin_request_permission request w
  = (Return to_profile,
     with_flash (λ l, (l ++ [(WARNING, "You already have " +:+ label
                                        +:+ " permission.")])%list) w).
Proof.
  intros Hg. enter. rewrite bool_decide_eq_true_2 by done.
  by rewrite (permission_label_run _ label).
Qed.

Lemma submit_already_pending (k : nat) (r : AdminPermissionRequest) :
  admin_permissions u !! ptype ≠ Some true →
  permission_requests w !! k = Some r →
  requesting_admin r = uid → permission_type r = ptype →
  pr_status r = "pending" →
  normal_admin_request_permission request w
  = (Return to_profile,
     with_flash (λ l, (l ++ [(WARNING, "You already have a pending request for "
                                        +:+ label +:+ " permission.")])%list) w).
Proof.
  intros Hg Hk Ha Hp Hs. enter. rewrite bool_decide_eq_false_2 by done.
  rewrite bool_decide_eq_true_2.
  - by rewrite (permission_label_run _ label).
  - apply not_eq_None_Some. rewrite first_None.
    rewrite permission_requests_filter_empty. intros Hno. by apply (Hno k r).
Qed.

Lemma submit_creates :
  admin_permissions u !! ptype ≠ Some true →
  (∀ k r, permission_requests w !! k = Some r →
     ¬ (requesting_admin r = uid ∧ permission_type r = ptype
        ∧ pr_status r = "pending")) →
  truthy_opt (META request !! "REMOTE_ADDR") = true →
  ∃ entry w',
    normal_admin_request_permission request w = (Return to_profile, w')
    ∧ permission_requests w'
      = <[next_permission_request_id w := new_request]> (permission_requests w)
    ∧ users w' = users w
    ∧ activity_logs w' = (activity_logs w ++ [entry])%list
    ∧ admin entry = uid ∧ action_type entry = "create"
    ∧ flash w'
      = (flash w ++ [(SUCCESS, "Your request for " +:+ label
           +:+ " permission has been submitted to Super Admin for review.")])%list.
Proof.
  intros Hg Hno Hip. eexists _, _. enter.
  rewrite bool_decide_eq_false_2 by done.
  rewrite bool_decide_eq_false_2.
  2:{ rewrite <- not_eq_None_Some. intros Hf. apply Hf. apply first_None.
      by apply permission_requests_filter_empty. }
  simp_world. rewrite unique_together_violated_false.
  2:{ intros k r Hk _ (Ha & Hp & Hs). by apply (Hno k r). }
  rewrite ?(permission_label_run _ label) by done. simp_world.
  rewrite AdminActivityLog_save_run by done.
  rewrite ?(permission_label_run _ label) by done. simp_world.
  repeat split.
Qed.

(** C8 (as amended).  An active admin posts the complete form for a
    requestable permission.  If the admin's permission map holds [true] for
    it, the view only adds the already-granted warning.  Otherwise, if a
    pending request of this admin for this permission is stored, the view
    only adds the already-pending warning.  Otherwise -- whatever resolved
    requests are stored, so in particular after a rejection -- and given
    that the request carries its client address, which the audit entry
    needs, it stores a new pending request under the next primary key, keeps
    every stored request, logs the creation and reports success. *)
Theorem permission_request_submission :
  (admin_permissions u !! ptype = Some true →
   normal_admin_request_permission request w
   = (Return to_profile,
      with_flash (λ l, (l ++ [(WARNING, "You already have " +:+ label
                                         +:+ " permission.")])%list) w))
  ∧ (admin_permissions u !! ptype ≠ Some true →
     (∃ k r, permission_requests w !! k = Some r ∧ requesting_admin r = uid
             ∧ permission_type r = ptype ∧ pr_status r = "pending") →
     normal_admin_request_permission request w
     = (Return to_profile,
        with_flash (λ l, (l ++ [(WARNING, "You already have a pending request for "
                                           +:+ label +:+ " permission.")])%list) w))
  ∧ (admin_permissions u !! ptype ≠ Some true →
     (∀ k r, permission_requests w !! k = Some r →
        ¬ (requesting_admin r = uid ∧ permission_type r = ptype
           ∧ pr_status r = "pending")) →
     permission_requests w !! next_permission_request_id w = None →
     truthy_opt (META request !! "REMOTE_ADDR") = true →
     ∃ w',
       normal_admin_request_permission request w = (Return to_profile, w')
       ∧ permission_requests w' !! next_permission_request_id w
         = Some new_request
       ∧ (∀ k r, permission_requests w !! k = Some r →
                 permission_requests w' !! k = Some r)
       ∧ users w' = users w
       ∧ (∃ entry, activity_logs w' = (activity_logs w ++ [entry])%list
                   ∧ action_type entry = "create")
       ∧ flash w'
         = (flash w ++ [(SUCCESS, "Your request for " +:+ label
              +:+ " permission has been submitted to Super Admin for review.")])%list).
Proof.
  split; [exact submit_already_granted|]. split.
  - intros Hg (k & r & Hk & Ha & Hp & Hs). by eapply submit_already_pending.
  - intros Hg Hno Hfresh Hip.
    destruct (submit_creates Hg Hno Hip)
      as (entry & w' & Hrun & Htbl & Husers & Hlog & _ & Hkind & Hflash).
    exists w'. split; [done|]. rewrite Htbl. split; [apply lookup_insert_eq|].
    split; [|by eauto 10].
    intros k r Hk. rewrite lookup_insert_ne; [done|]. congruence.
Qed.
End submit.

(** C8, counterexample.  Request 1 of admin 7 for [manage_payments] has been
    resolved -- approved.  A new submission for the same permission does not
    succeed: the view answers with the already-granted warning, the requests
    table is as before, and no stored request is pending. *)
Lemma resubmission_after_approval_is_refused :
  ∃ w',
    normal_admin_request_permission payments_form world_approved
    = (Return (Redirect "normal_admin:normal_admin_profile"), w')
    ∧ pr_status <$> permission_requests world_approved !! 1 = Some "approved"
    ∧ permission_requests w' = permission_requests world_approved
    ∧ (∀ k r, permission_requests w' !! k = Some r → pr_status r ≠ "pending")
    ∧ last (flash w')
      = Some (WARNING, "You already have Payment Management permission.").
Proof.
  eexists. split; [vm_compute; reflexivity|].
  split; [vm_compute; reflexivity|]. split; [reflexivity|].
  split; [|vm_compute; reflexivity].
  apply (bool_decide_unpack
           (map_Forall (λ _ r, pr_status r ≠ "pending") _)).
  vm_compute. exact I.
Qed.

(** C8, witness: the three outcomes, each at a world reached by running the
    views.  After the approval the form is refused as already granted; while
    request 1 is pending it is refused as already pending; after the
    rejection it is accepted and request 2 is stored as pending. *)
Lemma permission_request_submission_witness :
  normal_admin_request_permission payments_form world_approved
  = (Return (Redirect "normal_admin:normal_admin_profile"),
     with_flash (λ l, (l ++ [(WARNING, "You already have Payment Management permission.")])%list)
       world_approved)
  ∧ normal_admin_request_permission payments_form world_submitted
    = (Return (Redirect "normal_admin:normal_admin_profile"),
       with_flash (λ l, (l ++ [(WARNING, "You already have a pending request for Payment Management permission.")])%list)
         world_submitted)
  ∧ ∃ w',
      normal_admin_request_permission payments_form world_rejected
      = (Return (Redirect "normal_admin:normal_admin_profile"), w')
      ∧ permission_requests w' !! 2 = Some (pending_request 104)
      ∧ pr_status <$> permission_requests w' !! 1 = Some "rejected".
Proof.
  pose proof (λ w u Hu Ha,
    permission_request_submission w payments_form 7 u
      "manage_payments" "X" "Y" "Payment Management"
      eq_refl Hu Ha eq_refl eq_refl eq_refl eq_refl
      ltac:(by repeat split) eq_refl) as Hthm.
  split; [|split].
  - destruct (Hthm world_approved admin7_granted eq_refl eq_refl) as [Hgranted _].
    apply Hgranted. reflexivity.
  - destruct (Hthm world_submitted admin7 eq_refl eq_refl) as (_ & Hpending & _).
    apply Hpending; [done|].
    exists 1, (pending_request 100). by repeat split.
  - destruct (Hthm world_rejected admin7 eq_refl eq_refl) as (_ & _ & Hcreate).
    destruct Hcreate as (w' & Hrun & Hnew & Hkeep & _);
      [done| |reflexivity|reflexivity|].
    + apply (bool_decide_unpack
               (map_Forall (λ _ r, ¬ (requesting_admin r = 7
                  ∧ permission_type r = "manage_payments"
                  ∧ pr_status r = "pending")) _)).
      vm_compute. exact I.
    + exists w'. split; [done|]. split; [exact Hnew|].
      by rewrite (Hkeep 1 (payments_request "rejected" 100 (Some 102%Z) (Some 1)
                             "not now" None) eq_refl).
Defined.

(** ** Reviewing agent applications *)

Lemma activated_twice (t t' : timestamp) (u : User) :
  activated t (activated t' u) = activated t u.
Proof. reflexivity. Qed.

Section approve_loop.
Variables (request : HttpRequest) (rid : nat).
Hypothesis Hsession : session_user request = Some rid.

Lemma approve_one_run (w : World) (pk : nat) (a : RealEstateAgentApplication)
    (n : nat) (reviewer u : User) :
  users w !! rid = Some reviewer →
  users w !! applicant a = Some u →
  approve_one request (pk, a) n w
  = (Return (n + 1),
     with_users <[applicant a := activated (clock w + 1) u]>
       (with_clock (clock w + 1 + 1)
          (with_applications
             <[pk := set_review "approved" (Some (clock w)) (Some rid) a]> w))).
Proof.
  intros Hr Hu. unfold approve_one. run. rewrite Hsession. run; simp_world.
  rewrite Hr. cbn [fmap option_fmap option_map fst snd].
  simp_world. change (applicant (set_review _ _ _ a)) with (applicant a).
  rewrite Hu. simp_world. reflexivity.
Qed.

Lemma approve_rows_run (rows : list (nat * RealEstateAgentApplication)) :
  ∀ (w : World) (n : nat),
    is_Some (users w !! rid) →
    (∀ row, row ∈ rows → is_Some (users w !! applicant row.2)) →
    ∃ w',
      for_each rows (approve_one request) n w = (Return (n + length rows), w')
      ∧ (∀ pk, pk ∉ rows.*1 → applications w' !! pk = applications w !! pk)
      ∧ (NoDup rows.*1 → ∀ pk a, (pk, a) ∈ rows →
           ∃ t, applications w' !! pk
                = Some (set_review "approved" (Some t) (Some rid) a))
      ∧ (∀ uid, uid ∉ applicants rows → users w' !! uid = users w !! uid)
      ∧ (∀ uid, uid ∈ applicants rows →
           ∃ u t, users w !! uid = Some u
                  ∧ users w' !! uid = Some (activated t u))
      ∧ permission_requests w' = permission_requests w
      ∧ activity_logs w' = activity_logs w
      ∧ admin_notifications w' = admin_notifications w
      ∧ user_activities w' = user_activities w
      ∧ flash w' = flash w.
Proof.
  induction rows as [|[pk a] rows IH]; intros w n Hrev Hrows.
  - exists w. simpl. rewrite Nat.add_0_r. split; [done|].
    split_and!; try done;
      [intros _ pk a Hin | intros uid Hin]; by apply elem_of_nil in Hin.
  - destruct Hrev as [reviewer Hreviewer].
    destruct (Hrows (pk, a)) as [u Hu]; [apply elem_of_cons; by left|].
    simpl in Hu.
    cbn [for_each]. rewrite bind_run, (approve_one_run _ _ _ _ reviewer u) by done.
    set (w1 := with_users _ _).
    destruct (IH w1 (n + 1)) as (w' & Hrun & Happs & Hsel & Hkeep & Hact & Hrest).
    { subst w1. simp_world. destruct (decide (applicant a = rid)) as [->|].
      - rewrite lookup_insert_eq. eauto.
      - rewrite lookup_insert_ne by done. eauto. }
    { intros row Hrow. subst w1. simp_world.
      destruct (decide (applicant a = applicant row.2)) as [->|].
      - rewrite lookup_insert_eq. eauto.
      - rewrite lookup_insert_ne by done. apply Hrows. apply elem_of_cons; by right. }
    exists w'. split.
    { rewrite Hrun. f_equal. f_equal. simpl. lia. }
    split; [|split; [|split; [|split]]].
    + intros pk' Hpk'. rewrite fmap_cons, not_elem_of_cons in Hpk'.
      destruct Hpk' as [Hne Hpk']. rewrite Happs by done.
      subst w1. simp_world. by rewrite lookup_insert_ne.
    + rewrite fmap_cons. intros [Hfresh Hnodup]%NoDup_cons pk' a' Hin.
      apply elem_of_cons in Hin as [[= -> ->]|Hin].
      * exists (clock w). rewrite Happs by done. subst w1. simp_world.
        apply lookup_insert_eq.
      * by apply Hsel.
    + intros uid Huid. unfold applicants in Huid.
      rewrite fmap_cons, not_elem_of_cons in Huid. destruct Huid as [Hne Huid].
      rewrite Hkeep by done. subst w1. simp_world. by rewrite lookup_insert_ne.
    + intros uid Huid.
      destruct (decide (uid ∈ applicants rows)) as [Hin|Hnin].
      * destruct (Hact uid Hin) as (u1 & t & Hu1 & Hu').
        subst w1. simp_world. simp_world in Hu1.
        destruct (decide (applicant a = uid)) as [<-|Hne].
        -- rewrite lookup_insert_eq in Hu1. injection Hu1 as Hu1; subst u1.
           exists u, t. split; [done|]. by rewrite Hu'.
        -- rewrite lookup_insert_ne in Hu1 by done. eauto.
      * unfold applicants in Huid. rewrite fmap_cons in Huid.
        apply elem_of_cons in Huid as [->|Huid]; [|done]. simpl.
        exists u, (clock w + 1)%Z. split; [done|]. rewrite Hkeep by done.
        subst w1. simp_world. apply lookup_insert_eq.
    + subst w1. by simp_world in Hrest.
Qed.
End approve_loop.

Lemma queryset_rows (qs : list nat) (statuses : list string)
    (tbl : gmap nat RealEstateAgentApplication) (pk : nat)
    (a : RealEstateAgentApplication) :
  (pk, a) ∈ map_to_list (queryset_filter_status qs statuses tbl)
  ↔ tbl !! pk = Some a ∧ pk ∈ qs ∧ status a ∈ statuses.
Proof.
  rewrite elem_of_map_to_list. unfold queryset_filter_status.
  rewrite map_lookup_filter_Some. simpl. done.
Qed.

Lemma queryset_rows_keys (qs : list nat) (statuses : list string)
    (tbl : gmap nat RealEstateAgentApplication) (pk : nat) :
  pk ∈ (map_to_list (queryset_filter_status qs statuses tbl)).*1
  ↔ ∃ a, tbl !! pk = Some a ∧ pk ∈ qs ∧ status a ∈ statuses.
Proof.
  rewrite list_elem_of_fmap. split.
  - intros ([pk' a] & -> & Hin). exists a. by apply queryset_rows.
  - intros (a & H). exists (pk, a). split; [done|]. by apply queryset_rows.
Qed.

Section bulk_approve.
Variables (request : HttpRequest) (rid : nat) (qs : list nat) (w : World).
Hypothesis Hsession : session_user request = Some rid.
Hypothesis Hreviewer : is_Some (users w !! rid).
Hypothesis Hintegrity :
  ∀ pk a, applications w !! pk = Some a → is_Some (users w !! applicant a).

Abbreviation eligible := (queryset_filter_status qs ["pending"; "under_review"] (applications w)).

Lemma approve_applications_loop_run :
  ∃ w',
    approve_applications_loop request qs w = (Return (size eligible), w')
    ∧ (∀ pk a, applications w !! pk = Some a → pk ∈ qs →
         status a ∈ ["pending"; "under_review"] →
         ∃ t, applications w' !! pk
              = Some (set_review "approved" (Some t) (Some rid) a))
    ∧ (∀ pk, ¬ (∃ a, applications w !! pk = Some a ∧ pk ∈ qs
                     ∧ status a ∈ ["pending"; "under_review"]) →
         applications w' !! pk = applications w !! pk)
    ∧ (∀ pk a u, applications w !! pk = Some a → pk ∈ qs →
         status a ∈ ["pending"; "under_review"] →
         users w !! applicant a = Some u →
         ∃ t, users w' !! applicant a = Some (activated t u))
    ∧ (∀ uid, ¬ (∃ pk a, applications w !! pk = Some a ∧ pk ∈ qs
                     ∧ status a ∈ ["pending"; "under_review"]
                     ∧ applicant a = uid) →
         users w' !! uid = users w !! uid)
    ∧ flash w' = flash w.
Proof.
  unfold approve_applications_loop. rewrite bind_run. 
  change (gets ?f w) with (Return (f w), w). cbv beta iota.
  destruct (approve_rows_run request rid Hsession (map_to_list eligible) w 0)
    as (w' & Hrun & Hother & Hsel & Hkeep & Hact & _ & _ & _ & _ & Hflash);
    [done| |].
  { intros [pk a] [Hrow _]%queryset_rows. by eapply Hintegrity. }
  exists w'. split.
  { rewrite Hrun. by rewrite length_map_to_list. }
  split_and!; [| | | |done].
  - intros pk a Hpk Hin Hst. apply Hsel; [apply NoDup_fst_map_to_list|].
    by apply queryset_rows.
  - intros pk Hno. apply Hother. by rewrite queryset_rows_keys.
  - intros pk a u Hpk Hin Hst Hu.
    destruct (Hact (applicant a)) as (u' & t & Hu' & Hw').
    { unfold applicants. apply list_elem_of_fmap. exists (pk, a).
      split; [done|]. by apply queryset_rows. }
    exists t. congruence.
  - intros uid Hno. apply Hkeep. unfold applicants.
    rewrite list_elem_of_fmap.
    intros ([pk a] & -> & (Hpk & Hin & Hst)%queryset_rows).
    apply Hno. by exists pk, a.
Qed.
(** C6 (as amended).  Bulk approval over a selection approves exactly the
    stored applications of the selection whose status is pending or
    under_review: each of them gets status approved, a review time and the
    reviewer; every other application -- not selected, or selected with
    status approved, rejected or needs_info -- is left as it is, without an
    error.  The count that the action reports is the number of applications
    it approved. *)
Theorem bulk_approve_eligibility :
  ∃ w_loop w',
    approve_applications_loop request qs w = (Return (size eligible), w_loop)
    ∧ approve_applications request qs w = (Return tt, w')
    ∧ (∀ pk a, applications w !! pk = Some a → pk ∈ qs →
         status a ∈ ["pending"; "under_review"] →
         ∃ t, applications w' !! pk
              = Some (set_review "approved" (Some t) (Some rid) a))
    ∧ (∀ pk, ¬ (∃ a, applications w !! pk = Some a ∧ pk ∈ qs
                     ∧ status a ∈ ["pending"; "under_review"]) →
         applications w' !! pk = applications w !! pk)
    ∧ flash w'
      = (flash w ++
         [(INFO,
           if decide (0 < size eligible) then
             pretty (size eligible) +:+
             " applications approved. Users can now log in and list properties."
           else "No applications were approved.")])%list.
Proof.
  destruct approve_applications_loop_run
    as (w1 & Hloop & Hsel & Hother & _ & _ & Hflash).
  exists w1. unfold approve_applications. rewrite bind_run, Hloop.
  destruct (decide (0 < size eligible)); eexists;
    (split; [done|]); (split; [reflexivity|]); simp_world;
    rewrite Hflash; by split_and!.
Qed.
End bulk_approve.


Section bulk_update.
Variables (request : HttpRequest) (rid : nat) (reviewer : User).
Variables (qs : list nat) (w : World).
Hypothesis Hsession : session_user request = Some rid.
Hypothesis Hreviewer : users w !! rid = Some reviewer.

Abbreviation updated_table statuses f :=
  (map_imap (λ k a, Some (if decide (k ∈ qs ∧ status a ∈ statuses)
                          then f a else a)) (applications w)).

Lemma reject_applications_update_run :
  reject_applications_update request qs w
  = (Return (size (queryset_filter_status qs
                     ["pending"; "under_review"; "needs_info"] (applications w))),
     with_applications
       (λ _, updated_table ["pending"; "under_review"; "needs_info"]
               (set_review "rejected" (Some (clock w)) (Some rid)))
       (with_clock (clock w + 1) w)).
Proof.
  unfold reject_applications_update, queryset_update. run. rewrite Hsession.
  run; simp_world. rewrite Hreviewer. reflexivity.
Qed.

Lemma request_more_info_update_run :
  request_more_info_update request qs w
  = (Return (size (queryset_filter_status qs
                     ["pending"; "under_review"] (applications w))),
     with_applications
       (λ _, updated_table ["pending"; "under_review"]
               (set_review "needs_info" (Some (clock w)) (Some rid)))
       (with_clock (clock w + 1) w)).
Proof.
  unfold request_more_info_update, queryset_update. run. rewrite Hsession.
  run; simp_world. rewrite Hreviewer. reflexivity.
Qed.

Lemma updated_table_lookup (statuses : list string)
    (f : RealEstateAgentApplication → RealEstateAgentApplication) (pk : nat) :
  updated_table statuses f !! pk
  = (λ a, if decide (pk ∈ qs ∧ status a ∈ statuses) then f a else a)
      <$> applications w !! pk.
Proof. rewrite map_lookup_imap. by destruct (applications w !! pk). Qed.

Lemma updated_table_none (statuses : list string)
    (f : RealEstateAgentApplication → RealEstateAgentApplication) :
  (∀ pk a, applications w !! pk = Some a → pk ∈ qs → status a ∉ statuses) →
  updated_table statuses f = applications w
  ∧ size (queryset_filter_status qs statuses (applications w)) = 0.
Proof.
  intros Hno. split.
  - apply map_eq. intros pk. rewrite updated_table_lookup.
    destruct (applications w !! pk) as [a|] eqn:E; [|done]. simpl.
    rewrite decide_False; [done|]. intros [Hin Hst]. by eapply Hno.
  - apply map_size_empty_iff. unfold queryset_filter_status.
    apply map_empty_filter. intros pk a Hpk [Hin Hst]. simpl in *.
    by eapply Hno.
Qed.
Hypothesis Hterminal :
  ∀ pk a, applications w !! pk = Some a → pk ∈ qs →
          status a ∈ ["approved"; "rejected"].

Lemma terminal_not_eligible (statuses : list string) :
  statuses ⊆ ["pending"; "under_review"; "needs_info"] →
  ∀ pk a, applications w !! pk = Some a → pk ∈ qs → status a ∉ statuses.
Proof.
  intros Hsub pk a Hpk Hin Hst. apply Hsub in Hst.
  pose proof (Hterminal pk a Hpk Hin) as Ht.
  apply list_elem_of_In in Hst, Ht. simpl in Hst, Ht.
  destruct Ht as [E|[E|[]]]; rewrite <- E in Hst;
    by destruct Hst as [?|[?|[?|[]]]].
Qed.

(** C7.  The selection holds only applications that are already approved or
    rejected.  Bulk approval then fetches no row: it reports zero and leaves
    the world as it is, apart from the message.  Bulk rejection matches no
    row: it reports zero and leaves the applications table and the users
    table as they are.  Neither raises. *)
Theorem terminal_state_noop :
  approve_applications_loop request qs w = (Return 0, w)
  ∧ approve_applications request qs w
    = (Return tt,
       with_flash (λ l, (l ++ [(INFO, "No applications were approved.")])%list) w)
  ∧ ∃ w',
      reject_applications_update request qs w = (Return 0, w')
      ∧ reject_applications request qs w
        = (Return tt,
           with_flash (λ l, (l ++ [(INFO, "No applications were rejected.")])%list) w')
      ∧ applications w' = applications w
      ∧ users w' = users w.
Proof.
  assert (approve_applications_loop request qs w = (Return 0, w)) as Hloop.
  { unfold approve_applications_loop. rewrite bind_run.
    change (gets ?f w) with (Return (f w), w). cbv beta iota.
    destruct (updated_table_none ["pending"; "under_review"] id) as [_ Hsize].
    { apply terminal_not_eligible. intros x Hx%list_elem_of_In.
      apply list_elem_of_In. simpl in *. tauto. }
    apply map_size_empty_iff in Hsize. rewrite Hsize.
    by rewrite map_to_list_empty. }
  split; [done|]. split.
  { unfold approve_applications. by rewrite bind_run, Hloop. }
  destruct (updated_table_none ["pending"; "under_review"; "needs_info"]
              (set_review "rejected" (Some (clock w)) (Some rid)))
    as [Htbl Hsize].
  { by apply terminal_not_eligible. }
  eexists. split.
  { rewrite reject_applications_update_run. by rewrite Hsize. }
  split.
  { unfold reject_applications.
    rewrite bind_run, reject_applications_update_run. by rewrite Hsize. }
  simp_world. by rewrite Htbl.
Qed.
End bulk_update.

Section single_review.
Variables (request : HttpRequest) (rid : nat) (reviewer : User) (w : World).
Variables (pk : nat) (obj : RealEstateAgentApplication).
Variables (changed_data : list string) (u : User).
Hypothesis Hsession : session_user request = Some rid.
Hypothesis Hreviewer : users w !! rid = Some reviewer.
Hypothesis Hchanged : "status" ∈ changed_data.
Hypothesis Happlicant : users w !! applicant obj = Some u.

Ltac enter_review :=
  unfold save_model; cbn [andb];
  rewrite (proj2 (str_in_true _ _) Hchanged); cbn [andb];
  unfold str_eq at 1.

Lemma save_model_approve :
  status obj = "approved" →
  ∃ w',
    save_model request (pk, obj) changed_data true w = (Return tt, w')
    ∧ applications w'
      = <[pk := set_review "approved" (Some (clock w)) (Some rid) obj]>
          (applications w)
    ∧ users w' = <[applicant obj := activated (clock w + 1) u]> (users w)
    ∧ user_activities w'
      = (user_activities w ++
         [ {| ua_user := applicant obj; activity_type := "register";
              ua_title := "Real Estate Agent Application Approved";
              ua_description := "Application approved by " +:+ username reviewer |} ])%list.
Proof.
  intros Hst. eexists. enter_review. rewrite Hst.
  rewrite bool_decide_eq_false_2 by done. cbn [negb].
  run. rewrite Hsession. run; simp_world. rewrite Hreviewer.
  cbn [fmap option_fmap option_map fst snd].
  change (status (set_review ?s _ _ _)) with s.
  unfold str_eq. rewrite bool_decide_eq_true_2 by done.
  change (applicant (set_review _ _ _ obj)) with (applicant obj).
  simp_world. rewrite Happlicant. simp_world. by split_and!.
Qed.

Lemma save_model_lockout :
  status obj ∈ ["rejected"; "needs_info"] →
  ∃ w',
    save_model request (pk, obj) changed_data true w = (Return tt, w')
    ∧ applications w'
      = <[pk := set_review (status obj) (Some (clock w)) (Some rid) obj]>
          (applications w)
    ∧ users w' = <[applicant obj := locked_out u]> (users w).
Proof.
  intros Hst. eexists. enter_review.
  assert (status obj ≠ "pending" ∧ status obj ≠ "approved") as [Hne1 Hne2].
  { apply list_elem_of_In in Hst. simpl in Hst.
    destruct Hst as [<-|[<-|[]]]; by split. }
  rewrite bool_decide_eq_false_2 by done. cbn [negb].
  run. rewrite Hsession. run; simp_world. rewrite Hreviewer.
  cbn [fmap option_fmap option_map fst snd].
  change (status (set_review ?s _ _ _)) with s.
  unfold str_eq. rewrite bool_decide_eq_false_2 by done.
  rewrite (proj2 (str_in_true _ _) Hst).
  change (applicant (set_review _ _ _ obj)) with (applicant obj).
  simp_world. rewrite Happlicant. simp_world. by split_and!.
Qed.
End single_review.

Section cascade.
Variables (request : HttpRequest) (rid : nat) (w : World).
Variables (pk : nat) (a : RealEstateAgentApplication) (u : User).
Hypothesis Hsession : session_user request = Some rid.
Hypothesis Hreviewer : is_Some (users w !! rid).
Hypothesis Hintegrity :
  ∀ pk a, applications w !! pk = Some a → is_Some (users w !! applicant a).
Hypothesis Hstored : applications w !! pk = Some a.
Hypothesis Heligible : status a ∈ ["pending"; "under_review"].
Hypothesis Happlicant : users w !! applicant a = Some u.

(** C1.  Application [pk] is stored with status pending or under_review.
    Approving it -- by the bulk action over any selection that contains it,
    or by saving it in the admin form with the status changed to approved --
    does not raise, and afterwards the stored application is approved with
    a review time and the reviewer, and the stored account of the applicant
    is active and verified with a verification date. *)
Theorem approval_cascade :
  (∀ qs : list nat, pk ∈ qs →
     ∃ w' a' u',
       approve_applications request qs w = (Return tt, w')
       ∧ applications w' !! pk = Some a'
       ∧ users w' !! applicant a = Some u'
       ∧ cascade_done rid a' u')
  ∧ (∀ (obj : RealEstateAgentApplication) (changed_data : list string),
       applicant obj = applicant a → status obj = "approved" →
       "status" ∈ changed_data →
       ∃ w' a' u',
         save_model request (pk, obj) changed_data true w = (Return tt, w')
         ∧ applications w' !! pk = Some a'
         ∧ users w' !! applicant a = Some u'
         ∧ cascade_done rid a' u').
Proof.
  split.
  - intros qs Hin.
    destruct (approve_applications_loop_run request rid qs w
                Hsession Hreviewer Hintegrity)
      as (w1 & Hloop & Hsel & _ & Hact & _ & _).
    destruct (Hsel pk a Hstored Hin Heligible) as [t Ha'].
    destruct (Hact pk a u Hstored Hin Heligible Happlicant) as [t' Hu'].
    unfold approve_applications. rewrite bind_run, Hloop.
    destruct (decide (0 < _)); eexists _, _, _;
      (split; [reflexivity|]); simp_world;
      (split; [exact Ha'|]); (split; [exact Hu'|]);
      by repeat split.
  - intros obj changed_data Hsame Hst Hchanged.
    destruct Hreviewer as [reviewer Hrev]. rewrite <- Hsame in Happlicant.
    destruct (save_model_approve request rid reviewer w pk obj changed_data u
                Hsession Hrev Hchanged Happlicant Hst)
      as (w' & Hrun & Happs & Husers & _).
    exists w', (set_review "approved" (Some (clock w)) (Some rid) obj),
      (activated (clock w + 1) u).
    split; [done|]. rewrite Happs, Husers, <- Hsame, !lookup_insert_eq.
    by repeat split.
Qed.
End cascade.

(** Facts about the example world [world_applications]. *)
Lemma world_applications_integrity :
  ∀ pk a, applications world_applications !! pk = Some a →
          is_Some (users world_applications !! applicant a).
Proof.
  apply (bool_decide_unpack
           (map_Forall (λ _ a, is_Some (users world_applications !! applicant a)) _)).
  vm_compute. exact I.
Qed.

(** C1, witness: application 1 of agent 41 is pending; the super admin
    approves it, once through the bulk action over all four applications and
    once through the admin form. *)
Lemma approval_cascade_witness :
  (∃ w' a' u',
     approve_applications staff_request [1; 2; 3; 4] world_applications
       = (Return tt, w')
     ∧ applications w' !! 1 = Some a' ∧ users w' !! 41 = Some u'
     ∧ cascade_done 1 a' u')
  ∧ (∃ w' a' u',
       save_model staff_request (1, application_of 41 "approved") ["status"]
         true world_applications = (Return tt, w')
       ∧ applications w' !! 1 = Some a' ∧ users w' !! 41 = Some u'
       ∧ cascade_done 1 a' u').
Proof.
  destruct (approval_cascade staff_request 1 world_applications 1
              (application_of 41 "pending") (agent_user "agent41" false false)
              eq_refl ltac:(by eexists) world_applications_integrity
              eq_refl ltac:(by apply list_elem_of_here) eq_refl)
    as [Hbulk Hsingle].
  split.
  - apply Hbulk. apply list_elem_of_here.
  - apply Hsingle; [reflexivity | reflexivity | apply list_elem_of_here].
Defined.

(** C6, counterexample.  Application 4 is waiting for more information, a
    status the claim counts as eligible for approval.  Bulk approval over
    applications 1 to 4 reports one approved application, not two, and
    leaves application 4 as it was. *)
Lemma bulk_approve_skips_needs_info :
  ∃ w_loop w',
    status <$> applications world_applications !! 4 = Some "needs_info"
    ∧ approve_applications_loop staff_request [1; 2; 3; 4] world_applications
      = (Return 1, w_loop)
    ∧ approve_applications staff_request [1; 2; 3; 4] world_applications
      = (Return tt, w')
    ∧ applications w' !! 4 = applications world_applications !! 4
    ∧ status <$> applications w' !! 4 ≠ Some "approved".
Proof.
  eexists _, _. split; [reflexivity|].
  split; [vm_compute; reflexivity|]. split; [vm_compute; reflexivity|].
  split; [reflexivity|]. discriminate.
Qed.

(** C6, witness: bulk approval over applications 1 to 4, of which only
    application 1 is pending. *)
Lemma bulk_approve_eligibility_witness :
  ∃ w_loop w',
    approve_applications_loop staff_request [1; 2; 3; 4] world_applications
      = (Return 1, w_loop)
    ∧ approve_applications staff_request [1; 2; 3; 4] world_applications
      = (Return tt, w')
    ∧ (∃ t, applications w' !! 1
            = Some (set_review "approved" (Some t) (Some 1)
                      (application_of 41 "pending")))
    ∧ applications w' !! 2 = Some (application_of 42 "approved")
    ∧ applications w' !! 3 = Some (application_of 43 "rejected")
    ∧ applications w' !! 4 = Some (application_of 44 "needs_info").
Proof.
  destruct (bulk_approve_eligibility staff_request 1 [1; 2; 3; 4]
              world_applications eq_refl ltac:(by eexists)
              world_applications_integrity)
    as (w_loop & w' & Hloop & Hrun & Hsel & Hother & _).
  exists w_loop, w'. split; [exact Hloop|]. split; [exact Hrun|].
  split; [apply Hsel; [reflexivity | apply list_elem_of_here
                      | apply list_elem_of_here]|].
  assert (∀ pk st who,
            applications world_applications !! pk = Some (application_of who st) →
            st ∉ ["pending"; "under_review"] →
            applications w' !! pk = Some (application_of who st)) as Hkeep.
  { intros pk st who Hpk Hst. rewrite Hother; [done|].
    intros (a & Ha & _ & Hin). rewrite Hpk in Ha. injection Ha as <-.
    by apply Hst. }
  split_and!; (apply Hkeep; [reflexivity|]);
    intros Hin%list_elem_of_In; simpl in Hin;
    by destruct Hin as [?|[?|[]]].
Defined.

(** C7, witness: bulk approval and bulk rejection over the approved
    application 2 and the rejected application 3. *)
Lemma terminal_state_noop_witness :
  approve_applications_loop staff_request [2; 3] world_applications
    = (Return 0, world_applications)
  ∧ ∃ w',
      reject_applications_update staff_request [2; 3] world_applications
        = (Return 0, w')
      ∧ applications w' = applications world_applications
      ∧ users w' = users world_applications.
Proof.
  destruct (terminal_state_noop staff_request 1 root_user [2; 3]
              world_applications eq_refl eq_refl)
    as (Happrove & _ & w' & Hreject & _ & Happs & Husers).
  - intros pk a Hpk Hin. apply list_elem_of_In in Hin. simpl in Hin.
    destruct Hin as [<-|[<-|[]]]; injection Hpk as <-.
    + apply list_elem_of_here.
    + apply list_elem_of_further, list_elem_of_here.
  - split; [exact Happrove|]. by exists w'.
Defined.

(** The bulk reject and needs-info actions write the applications table
    only: whatever the selection, the users table is as before. *)
Lemma bulk_lockout_writes_no_user (request : HttpRequest) (rid : nat)
    (reviewer : User) (qs : list nat) (w : World) :
  session_user request = Some rid → users w !! rid = Some reviewer →
  users (exec (reject_applications request qs) w) = users w
  ∧ users (exec (request_more_info request qs) w) = users w.
Proof.
  intros Hsession Hreviewer. unfold exec, reject_applications, request_more_info.
  rewrite !bind_run.
  rewrite (reject_applications_update_run request rid reviewer qs w) by done.
  rewrite (request_more_info_update_run request rid reviewer qs w) by done.
  split; by destruct (decide (0 < _)).
Qed.

(** C2, evaluated.  Application 1 is pending and its applicant, account 41,
    is active and verified (verified by hand with the [verify_agents]
    action).  The bulk reject action stores the application as rejected, the
    bulk needs-info action stores it as needs_info; after either the account
    is stored exactly as before, still active and still verified. *)
Theorem bulk_lockout_leaves_account_verified :
  ∃ w_reject w_info,
    status <$> applications world_verified_by_hand !! 1 = Some "pending"
    ∧ reject_applications staff_request [1] world_verified_by_hand
      = (Return tt, w_reject)
    ∧ status <$> applications w_reject !! 1 = Some "rejected"
    ∧ users w_reject !! 41 = users world_verified_by_hand !! 41
    ∧ request_more_info staff_request [1] world_verified_by_hand
      = (Return tt, w_info)
    ∧ status <$> applications w_info !! 1 = Some "needs_info"
    ∧ users w_info !! 41 = users world_verified_by_hand !! 41
    ∧ is_active <$> users world_verified_by_hand !! 41 = Some true
    ∧ is_verified <$> users world_verified_by_hand !! 41 = Some true.
Proof.
  eexists _, _. split; [reflexivity|].
  split; [vm_compute; reflexivity|]. split; [reflexivity|].
  split; [reflexivity|].
  split; [vm_compute; reflexivity|]. by repeat split.
Qed.

(** ** Where accounts become verified *)

Lemma verify_agents_run (request : HttpRequest) (qs : list nat) (w : World) :
  ∃ text,
    verify_agents request qs w
    = (Return tt,
       with_flash (λ l, (l ++ [(INFO, text)])%list)
         (with_users
            (map_imap (λ k u,
               Some (if decide (k ∈ qs ∧ user_type u = "agent"
                                ∧ is_verified u = false)
                     then set_verification_date (Some (clock w))
                            (set_is_active true (set_is_verified true u))
                     else u)))
            (with_clock (clock w + 1) w))).
Proof.
  unfold verify_agents. run; simp_world.
  destruct (decide (0 < _)); eexists; reflexivity.
Qed.

(** The text of a primary key that the agents page posts back. *)
Lemma get_agent_run (text : string) (pk : nat) (agent : User) (w : World) :
  parse_pk text = Some pk → users w !! pk = Some agent →
  user_type agent ∈ ["agent"; "broker"] →
  get_agent (Some text) w = (Return (pk, agent), w).
Proof.
  intros Hpk Hagent Hrole. unfold get_agent. rewrite Hpk. run. rewrite Hagent.
  by rewrite (proj2 (str_in_true _ _) Hrole).
Qed.

(** C9 (as amended).  Approval of its application is not the only way an
    account becomes verified.  Registration stores the new account verified
    and active, with a verification date, for every role other than agent,
    and unverified and inactive for the role agent.  The [verify_agents]
    admin action verifies and activates every unverified agent account of
    its selection, and the verify action of the agents page, posted with
    the client address that its audit entry needs, verifies an unverified
    agent or broker account; neither reads or writes an application. *)
Theorem verified_without_approval :
  (∀ (w : World) (request : HttpRequest) (f : RegistrationForm),
     method request = "POST" →
     ∃ resp u w',
       register request (Some f) w = (Return resp, w')
       ∧ users w' = <[next_user_id w := u]> (users w)
       ∧ user_type u = cleaned_user_type f
       ∧ is_verified u = negb (str_eq (cleaned_user_type f) "agent")
       ∧ is_active u = is_verified u
       ∧ verification_date u
         = (if is_verified u then Some (clock w) else None)
       ∧ applications w' = applications w)
  ∧ (∀ (w : World) (request : HttpRequest) (qs : list nat) (uid : nat)
       (u : User),
       uid ∈ qs → users w !! uid = Some u → user_type u = "agent" →
       is_verified u = false →
       ∃ w',
         verify_agents request qs w = (Return tt, w')
         ∧ users w' !! uid = Some (activated (clock w) u)
         ∧ applications w' = applications w)
  ∧ (∀ (w : World) (request : HttpRequest) (rid pk : nat) (ru agent : User)
       (text : string),
       session_user request = Some rid → users w !! rid = Some ru →
       is_admin ru = true → method request = "POST" →
       POST request !! "agent_id" = Some text → parse_pk text = Some pk →
       POST request !! "action" = Some "verify" →
       users w !! pk = Some agent → user_type agent ∈ ["agent"; "broker"] →
       is_verified agent = false →
       truthy_opt (META request !! "REMOTE_ADDR") = true →
       ∃ w',
         normal_admin_agents request w
         = (Return (Redirect "normal_admin:normal_admin_agents"), w')
         ∧ users w' !! pk
           = Some (set_verification_date (Some (clock w))
                     (set_is_verified true agent))
         ∧ applications w' = applications w).
Proof.
  split; [|split].
  - intros w request f Hpost. unfold register. rewrite Hpost.
    rewrite (bool_decide_eq_true_2 ("POST" = "POST") eq_refl
             : str_eq "POST" "POST" = true).
    change (user_type (set_user_type ?t _)) with t.
    destruct (str_eq (cleaned_user_type f) "agent");
      eexists _, _, _; (split; [reflexivity|]); by repeat split.
  - intros w request qs uid u Hin Hu Hrole Hunverified.
    destruct (verify_agents_run request qs w) as [text ->].
    eexists. split; [reflexivity|]. simp_world. split; [|done].
    rewrite map_lookup_imap, Hu. simpl. by rewrite decide_True.
  - intros w request rid pk ru agent text Hsession Hru Hadmin Hpost Hid Hpk
      Haction Hagent Hrole Hunverified Hip.
    eexists. unfold normal_admin_agents, user_passes_test.
    run. rewrite Hsession. run. rewrite Hru.
    cbn [fmap option_fmap option_map fst snd].
    rewrite Hadmin, Hpost.
    rewrite (bool_decide_eq_true_2 ("POST" = "POST") eq_refl
             : str_eq "POST" "POST" = true).
    rewrite Hid, Haction. unfold try_except_DoesNotExist.
    rewrite (get_agent_run text pk agent w) by done.
    rewrite bool_decide_eq_true_2 by done. rewrite Hunverified. cbn [negb andb].
    simp_world. rewrite AdminActivityLog_save_run by done.
    split; [reflexivity|]. simp_world.
    split; [apply lookup_insert_eq | done].
Qed.

(** C9, counterexample.  A visitor registers as a buyer.  The stored account
    is verified at creation, with a verification date, although no
    application exists and nothing has been approved. *)
Lemma registration_verifies_buyer :
  ∃ w',
    register register_post (Some buyer_form) world0
    = (Return (Redirect "home"), w')
    ∧ users world0 !! 8 = None
    ∧ is_verified <$> users w' !! 8 = Some true
    ∧ verification_date <$> users w' !! 8 = Some (Some 100%Z)
    ∧ applications w' = ∅.
Proof.
  eexists. split; [vm_compute; reflexivity|]. by repeat split.
Qed.

(** C9, witness: a buyer and an agent register; the super admin verifies the
    unverified agent 41, whose application is pending, with the admin action
    and with the agents page. *)
Lemma verified_without_approval_witness :
  (∃ w', register register_post (Some buyer_form) world0
         = (Return (Redirect "home"), w')
         ∧ is_verified <$> users w' !! 8 = Some true)
  ∧ (∃ w', register register_post (Some agent_form) world0
           = (Return (Redirect "accounts:agent_application"), w')
           ∧ is_verified <$> users w' !! 8 = Some false)
  ∧ (∃ w', verify_agents staff_request [41] world_applications = (Return tt, w')
           ∧ is_verified <$> users w' !! 41 = Some true
           ∧ status <$> applications w' !! 1 = Some "pending")
  ∧ (∃ w', normal_admin_agents verify_post world_applications
           = (Return (Redirect "normal_admin:normal_admin_agents"), w')
           ∧ is_verified <$> users w' !! 41 = Some true
           ∧ status <$> applications w' !! 1 = Some "pending").
Proof.
  destruct verified_without_approval as (Hregister & Hadmin_action & Hpage).
  split; [|split; [|split]].
  - destruct (Hregister world0 register_post buyer_form eq_refl)
      as (resp & u & w' & Hrun & Husers & _ & Hverified & _).
    exists w'. split.
    + rewrite Hrun. f_equal. f_equal. vm_compute in Hrun. congruence.
    + rewrite Husers. change (next_user_id world0) with 8.
      rewrite lookup_insert_eq. simpl. by rewrite Hverified.
  - destruct (Hregister world0 register_post agent_form eq_refl)
      as (resp & u & w' & Hrun & Husers & _ & Hverified & _).
    exists w'. split.
    + rewrite Hrun. f_equal. f_equal. vm_compute in Hrun. congruence.
    + rewrite Husers. change (next_user_id world0) with 8.
      rewrite lookup_insert_eq. simpl. by rewrite Hverified.
  - destruct (Hadmin_action world_applications staff_request [41] 41
                (agent_user "agent41" false false)
                ltac:(apply list_elem_of_here) eq_refl eq_refl eq_refl)
      as (w' & Hrun & Husers & Happs).
    exists w'. split; [done|]. by rewrite Husers, Happs.
  - destruct (Hpage world_applications verify_post 1 41 root_user
                (agent_user "agent41" false false) "41"
                eq_refl eq_refl eq_refl eq_refl eq_refl eq_refl eq_refl eq_refl
                ltac:(apply list_elem_of_here) eq_refl eq_refl)
      as (w' & Hrun & Husers & Happs).
    exists w'. split; [done|]. by rewrite Husers, Happs.
Defined.

(** * Further properties *)

(** ** Approving a permission request *)

Lemma capability_key_inj (c c' : Capability) :
  capability_key c = capability_key c' → c = c'.
Proof. destruct c, c'; simpl; intros H; by try discriminate. Qed.

Section approve.
Variables (w : World) (pk : nat) (r : AdminPermissionRequest).
Variables (super_admin : nat * User) (requester : User).
Hypothesis Hrequester : users w !! requesting_admin r = Some requester.
Hypothesis Hfree :
  ∀ k r', permission_requests w !! k = Some r' → k ≠ pk →
          ¬ (requesting_admin r' = requesting_admin r
             ∧ permission_type r' = permission_type r
             ∧ pr_status r' = "approved").

Abbreviation approved_row :=
  (set_resolution "approved" (Some (clock w)) (Some super_admin.1)
     (review_notes r) (Some (clock w + 1)%Z) r).
Abbreviation granted :=
  (set_admin_permissions
     (<[permission_type r := true]> (admin_permissions requester)) requester).

(** An approval that the unique index lets through: the requester's row and
    the request are saved, and the audit entry, which [approve_request]
    builds without a client address, is refused.  The method ends there. *)
Lemma approve_request_run :
  ∃ w',
    approve_request (pk, r) super_admin w = (Raise IntegrityError, w')
    ∧ permission_requests w' = <[pk := approved_row]> (permission_requests w)
    ∧ users w' = <[requesting_admin r := granted]> (users w)
    ∧ activity_logs w' = activity_logs w
    ∧ admin_notifications w' = admin_notifications w
    ∧ next_permission_request_id w' = next_permission_request_id w
    ∧ applications w' = applications w.
Proof.
  eexists. unfold approve_request. run; simp_world.
  rewrite Hrequester. simp_world.
  rewrite unique_together_violated_false.
  2:{ intros k r' Hk Hne (Ha & Hp & Hs). apply (Hfree k r' Hk); [congruence|].
      by repeat split. }
  simp_world. rewrite AdminActivityLog_save_raise by reflexivity.
  by repeat split.
Qed.

(** X1.  A pending request is approved while no other request of the same
    admin for the same permission is stored as approved.  [approve_request]
    saves the requester's row: the stored permission map holds [true] under
    the requested key and is otherwise as before, and nothing else of the
    row changes.  It saves the request as approved with review time,
    reviewer and grant time; no other user and no other request is written.
    Then the audit entry, which the method builds without a client address,
    is refused: the method raises [IntegrityError], the two saves stay, and
    neither an audit entry nor a notification is stored. *)
Theorem approve_request_merges_permission :
  ∃ w' requester',
    approve_request (pk, r) super_admin w = (Raise IntegrityError, w')
    ∧ permission_requests w' !! pk = Some approved_row
    ∧ users w' !! requesting_admin r = Some requester'
    ∧ admin_permissions requester' !! permission_type r = Some true
    ∧ (∀ key, key ≠ permission_type r →
         admin_permissions requester' !! key = admin_permissions requester !! key)
    ∧ set_admin_permissions (admin_permissions requester) requester' = requester
    ∧ (∀ uid, uid ≠ requesting_admin r → users w' !! uid = users w !! uid)
    ∧ (∀ k, k ≠ pk → permission_requests w' !! k = permission_requests w !! k)
    ∧ activity_logs w' = activity_logs w
    ∧ admin_notifications w' = admin_notifications w.
Proof.
  destruct approve_request_run
    as (w' & Hrun & Htbl & Husers & Hlog & Hnotes & _).
  exists w', granted. rewrite Htbl, Husers.
  split; [done|]. split; [apply lookup_insert_eq|].
  split; [apply lookup_insert_eq|]. split; [apply lookup_insert_eq|].
  split; [intros key Hkey; by apply lookup_insert_ne|].
  split; [by destruct requester|].
  split; [intros uid Huid; by apply lookup_insert_ne|].
  split; [intros k Hk; by apply lookup_insert_ne|]. done.
Qed.

(** X2.  The same approval, seen from the authorization gate, in the world
    that the raise of [approve_request] leaves behind.  If the requested key
    is the key of capability [c], then the requester's stored account
    passes the gate for [c] provided [c] is not [manage_admins] and the
    account's admin flag is set; every other capability is decided as
    before, and [manage_admins] is decided as before even when the approved
    request asked for it. *)
Theorem approved_permission_reaches_gate (c : Capability) :
  capability_key c = permission_type r →
  ∃ w' requester',
    approve_request (pk, r) super_admin w = (Raise IntegrityError, w')
    ∧ users w' !! requesting_admin r = Some requester'
    ∧ (c ≠ ManageAdmins → is_admin_active requester = true →
       can requester' c = true)
    ∧ (∀ c', c' ≠ c → can requester' c' = can requester c')
    ∧ can requester' ManageAdmins = can requester ManageAdmins.
Proof.
  intros Hkey.
  destruct approve_request_run as (w' & Hrun & _ & Husers & _).
  exists w', granted. rewrite Husers. split; [done|].
  split; [apply lookup_insert_eq|]. split; [|split].
  - intros Hc Hactive. rewrite can_map_backed by done. simpl.
    case_bool_decide; [done|]. rewrite Hactive, Hkey. simpl.
    unfold dict_get. by rewrite lookup_insert_eq.
  - intros c' Hc'. destruct (decide (c' = ManageAdmins)) as [->|Hm]; [done|].
    rewrite !can_map_backed by done. simpl. unfold dict_get.
    rewrite lookup_insert_ne; [done|]. rewrite <- Hkey.
    intros E. by apply capability_key_inj in E.
  - done.
Qed.
End approve.


Lemma is_super_admin_inv (u : User) :
  is_super_admin u = true → user_type u = "super_admin" ∧ is_admin_active u = true.
Proof.
  unfold is_super_admin. intros [H1 H2]%andb_true_iff.
  by apply str_eq_true in H1.
Qed.

Section review_view.
Variables (w : World) (request : HttpRequest) (rid : nat) (ru : User).
Hypothesis Hsession : session_user request = Some rid.
Hypothesis Hru : users w !! rid = Some ru.
Hypothesis Hsuper : is_super_admin ru = true.
Hypothesis Hpost : method request = "POST".

Lemma review_view_enter :
  super_admin_permission_requests request w
  = match resolve_posted_request request (rid, ru) w with
    | (Return _, w') =>
        (Return (Redirect "normal_admin:normal_admin_permission_requests"), w')
    | (Raise e, w') => (Raise e, w')
    end.
Proof.
  unfold super_admin_permission_requests, user_passes_test.
  run. rewrite Hsession. run. rewrite Hru.
  cbn [fmap option_fmap option_map fst snd]. rewrite Hsuper, Hpost.
  rewrite (bool_decide_eq_true_2 ("POST" = "POST") eq_refl
           : str_eq "POST" "POST" = true).
  by destruct (resolve_posted_request request (rid, ru) w) as [[]].
Qed.

Lemma get_pending_request_found (text : string) (pk : nat)
    (r : AdminPermissionRequest) :
  parse_pk text = Some pk → permission_requests w !! pk = Some r →
  pr_status r = "pending" →
  get_pending_request (Some text) w = (Return (Some (pk, r)), w).
Proof.
  intros Hpk Hr Hst. unfold get_pending_request. rewrite Hpk. run. rewrite Hr.
  rewrite Hst.
  by rewrite (bool_decide_eq_true_2 ("pending" = "pending") eq_refl
              : str_eq "pending" "pending" = true).
Qed.

Lemma get_pending_request_missing (text : string) (pk : nat) :
  parse_pk text = Some pk →
  (∀ r, permission_requests w !! pk = Some r → pr_status r ≠ "pending") →
  get_pending_request (Some text) w = (Return None, w).
Proof.
  intros Hpk Hno. unfold get_pending_request. rewrite Hpk. run.
  destruct (permission_requests w !! pk) as [r|] eqn:E; [|done].
  unfold str_eq. by rewrite bool_decide_eq_false_2 by by apply Hno.
Qed.

Lemma resolve_posted_request_missing :
  (POST request !! "request_id" = None
   ∨ ∃ text pk, POST request !! "request_id" = Some text
                ∧ parse_pk text = Some pk
                ∧ ∀ r, permission_requests w !! pk = Some r →
                       pr_status r ≠ "pending") →
  resolve_posted_request request (rid, ru) w
  = (Return tt,
     with_flash (λ l, (l ++ [(ERROR, "Permission request not found.")])%list) w).
Proof.
  unfold resolve_posted_request. rewrite bind_run.
  intros [Hnone|(text & pk & Hid & Hpk & Hno)].
  - by rewrite Hnone.
  - by rewrite Hid, (get_pending_request_missing text pk).
Qed.

Lemma admin_view_enter (login_url : string) :
  admin_permission_requests login_url request w
  = match resolve_posted_request request (rid, ru) w with
    | (Return _, w') => (Return (Redirect "admin_permission_requests"), w')
    | (Raise e, w') => (Raise e, w')
    end.
Proof.
  unfold admin_permission_requests, user_passes_test.
  run. rewrite Hsession. run. rewrite Hru.
  cbn [fmap option_fmap option_map fst snd]. rewrite Hsuper, Hpost.
  rewrite (bool_decide_eq_true_2 ("POST" = "POST") eq_refl
           : str_eq "POST" "POST" = true).
  by destruct (resolve_posted_request request (rid, ru) w) as [[]].
Qed.

(** X3.  An active super admin posts a decision to a review view.  If the
    form names no request, or names a primary key under which no request is
    stored, or one whose request is no longer pending (it has been approved
    or rejected already), then -- whatever the action -- the view only adds
    the message "Permission request not found." and redirects; no table is
    written.  So a request can be resolved through the views once. *)
Theorem resolved_request_is_not_found :
  (POST request !! "request_id" = None
   ∨ ∃ text pk, POST request !! "request_id" = Some text
                ∧ parse_pk text = Some pk
                ∧ ∀ r, permission_requests w !! pk = Some r →
                       pr_status r ≠ "pending") →
  super_admin_permission_requests request w
  = (Return (Redirect "normal_admin:normal_admin_permission_requests"),
     with_flash (λ l, (l ++ [(ERROR, "Permission request not found.")])%list) w)
  ∧ ∀ login_url,
      admin_permission_requests login_url request w
      = (Return (Redirect "admin_permission_requests"),
         with_flash (λ l, (l ++ [(ERROR, "Permission request not found.")])%list) w).
Proof.
  intros Hmissing. split.
  - by rewrite review_view_enter, resolve_posted_request_missing.
  - intros login_url. by rewrite admin_view_enter, resolve_posted_request_missing.
Qed.
End review_view.

(** ** Outcomes of the submission view *)

(** X7.  The submission view never fails on the unique index of the requests
    table, in any world and for any request: before it inserts the pending
    request, its guard has looked for a stored request with the same admin,
    permission and status.  The view returns; or it raises [KeyError], the
    posted permission type being none of the requestable ones; or it raises
    [IntegrityError] on its audit entry, the request carrying no client
    address -- and then the new pending request has been stored under the
    next primary key. *)
Theorem submission_never_violates_unique_index (w : World) (request : HttpRequest) :
  (∃ resp w', normal_admin_request_permission request w = (Return resp, w'))
  ∨ (∃ ptype w',
       normal_admin_request_permission request w = (Raise KeyError, w')
       ∧ POST request !! "permission_type" = Some ptype
       ∧ dict_of PERMISSION_TYPES !! ptype = None)
  ∨ (∃ r w',
       normal_admin_request_permission request w = (Raise IntegrityError, w')
       ∧ truthy_opt (META request !! "REMOTE_ADDR") = false
       ∧ permission_requests w'
         = <[next_permission_request_id w := r]> (permission_requests w)
       ∧ pr_status r = "pending").
Proof.
  unfold normal_admin_request_permission, user_passes_test. run.
  destruct (session_user request) as [uid|]; [|left; by eexists _, _].
  run. destruct (users w !! uid) as [u|]; [|left; by eexists _, _].
  cbn [fmap option_fmap option_map fst snd].
  destruct (is_admin_user u); [|left; by eexists _, _].
  destruct (str_eq (method request) "POST"); [|left; by eexists _, _].
  destruct (POST request !! "permission_type") as [ptype|] eqn:Hptype;
    [|left; by eexists _, _].
  destruct (negb (truthy_opt (Some ptype)) || _ || _); [left; by eexists _, _|].
  cbn [str_of default]. unfold id.
  destruct (dict_of PERMISSION_TYPES !! ptype) as [label|] eqn:Hdict.
  - assert (∀ w0, permission_label ptype w0 = (Return label, w0)) as Hlabel.
    { intros w0. by apply permission_label_run. }
    destruct (dict_get _ _ _).
    { rewrite Hlabel. left. by eexists _, _. }
    destruct (bool_decide _) eqn:Hpending.
    { rewrite Hlabel. left. by eexists _, _. }
    apply bool_decide_eq_false in Hpending.
    rewrite <- not_eq_None_Some in Hpending. apply dec_stable in Hpending.
    rewrite first_None, permission_requests_filter_empty in Hpending.
    simp_world. rewrite unique_together_violated_false.
    2:{ intros k r Hk _ (Ha & Hp & Hs). by apply (Hpending k r). }
    rewrite Hlabel. simp_world.
    destruct (truthy_opt (META request !! "REMOTE_ADDR")) eqn:Hip.
    + rewrite AdminActivityLog_save_run by done. rewrite Hlabel.
      left. by eexists _, _.
    + rewrite AdminActivityLog_save_raise by done.
      right; right. eexists _, _. split; [reflexivity|]. simp_world.
      by repeat split.
  - assert (∀ w0, permission_label ptype w0 = (Raise KeyError, w0)) as Hlabel.
    { intros w0. unfold permission_label, dict_index. by rewrite Hdict. }
    right; left. exists ptype.
    destruct (dict_get _ _ _).
    { rewrite Hlabel. by eexists. }
    destruct (bool_decide _) eqn:Hpending.
    { rewrite Hlabel. by eexists. }
    apply bool_decide_eq_false in Hpending.
    rewrite <- not_eq_None_Some in Hpending. apply dec_stable in Hpending.
    rewrite first_None, permission_requests_filter_empty in Hpending.
    simp_world. rewrite unique_together_violated_false.
    2:{ intros k r Hk _ (Ha & Hp & Hs). by apply (Hpending k r). }
    rewrite Hlabel. by eexists.
Qed.

(** Facts about the example world [world_submitted]. *)
Lemma world_submitted_no_approved :
  ∀ k r', permission_requests world_submitted !! k = Some r' → k ≠ 1 →
          ¬ (requesting_admin r' = requesting_admin (pending_request 100)
             ∧ permission_type r' = permission_type (pending_request 100)
             ∧ pr_status r' = "approved").
Proof.
  intros k r' Hk Hne [_ [_ Hst]].
  assert (map_Forall (λ _ r, pr_status r ≠ "approved")
            (permission_requests world_submitted)) as Hall.
  { apply (bool_decide_unpack _). vm_compute. exact I. }
  by apply (Hall k r').
Qed.

(** X1, witness: the super admin approves admin 7's pending request 1 for
    [manage_payments]; [manage_properties] stays granted, the request is
    stored as approved, and the log and the notifications stay empty. *)
Lemma approve_request_merges_permission_witness :
  ∃ w' requester',
    approve_request (1, pending_request 100) (1, root_user) world_submitted
    = (Raise IntegrityError, w')
    ∧ permission_requests w' !! 1
      = Some (payments_request "approved" 100 (Some 102%Z) (Some 1)
                empty_str (Some 103%Z))
    ∧ users w' !! 7 = Some requester'
    ∧ admin_permissions requester' !! "manage_payments" = Some true
    ∧ admin_permissions requester' !! "manage_properties" = Some true
    ∧ admin_permissions requester' !! "manage_users" = Some false
    ∧ activity_logs w' = activity_logs world_submitted
    ∧ admin_notifications w' = [].
Proof.
  destruct (approve_request_merges_permission world_submitted 1
              (pending_request 100) (1, root_user) admin7 eq_refl
              world_submitted_no_approved)
    as (w' & requester' & Hrun & Hrow & Hu & Hgranted & Hkeep & _ & _ & _
        & Hlog & Hnotes).
  exists w', requester'. split; [exact Hrun|]. split; [exact Hrow|].
  split; [exact Hu|]. split; [exact Hgranted|]. rewrite !Hkeep by done.
  split; [reflexivity|]. split; [reflexivity|]. split; [exact Hlog|].
  rewrite Hnotes. reflexivity.
Defined.

(** X2, witness: in the world that this approval leaves behind admin 7
    passes the gate for [manage_payments], and still not for
    [manage_users]. *)
Lemma approved_permission_reaches_gate_witness :
  ∃ w' requester',
    approve_request (1, pending_request 100) (1, root_user) world_submitted
    = (Raise IntegrityError, w')
    ∧ users w' !! 7 = Some requester'
    ∧ can requester' ManagePayments = true
    ∧ can requester' ManageUsers = false.
Proof.
  destruct (approved_permission_reaches_gate world_submitted 1
              (pending_request 100) (1, root_user) admin7 eq_refl
              world_submitted_no_approved ManagePayments eq_refl)
    as (w' & requester' & Hrun & Hu & Hgate & Hothers & _).
  exists w', requester'. split; [exact Hrun|]. split; [exact Hu|].
  split; [by apply Hgate|]. by rewrite Hothers.
Defined.

(** X3, witness: request 1 has been approved; the super admin posts a
    rejection of it, and a decision on request 5, which does not exist. *)
Lemma resolved_request_is_not_found_witness :
  super_admin_permission_requests (review_post "1" "reject") world_approved
  = (Return (Redirect "normal_admin:normal_admin_permission_requests"),
     with_flash (λ l, (l ++ [(ERROR, "Permission request not found.")])%list)
       world_approved)
  ∧ super_admin_permission_requests (review_post "5" "approve") world_approved
    = (Return (Redirect "normal_admin:normal_admin_permission_requests"),
       with_flash (λ l, (l ++ [(ERROR, "Permission request not found.")])%list)
         world_approved).
Proof.
  split.
  - apply (resolved_request_is_not_found world_approved
             (review_post "1" "reject") 1 root_user eq_refl eq_refl eq_refl
             eq_refl).
    right. exists "1", 1. split; [reflexivity|]. split; [reflexivity|].
    intros r Hr. vm_compute in Hr. injection Hr as <-. discriminate.
  - apply (resolved_request_is_not_found world_approved
             (review_post "5" "approve") 1 root_user eq_refl eq_refl eq_refl
             eq_refl).
    right. exists "5", 5. split; [reflexivity|]. split; [reflexivity|].
    intros r Hr. vm_compute in Hr. discriminate.
Defined.

(** ** Who gets past the decorators *)

Lemma user_passes_test_refuses (test : User → bool) (login_url : string)
    (request : HttpRequest) (view : nat * User → M HttpResponse) (w : World) :
  (∀ uid u, session_user request = Some uid → users w !! uid = Some u →
            test u = false) →
  user_passes_test test login_url request view w
  = (Return (Redirect login_url), w).
Proof.
  intros Hfail. unfold user_passes_test, get_user. rewrite bind_run.
  destruct (session_user request) as [uid|]; [|done]. run.
  destruct (users w !! uid) as [u|] eqn:E; [|done]. simpl.
  by rewrite (Hfail uid u).
Qed.

(** X4.  Whoever does not pass a view's test -- an anonymous visitor, a
    session whose account is gone, an account with the wrong role or a
    cleared admin flag -- is redirected to the login page, whatever the
    method and the form, and the world is left exactly as it was.  The
    review views let only an active super admin through, the request form
    only an active admin or super admin, the agents page only staff,
    superusers and the two admin roles. *)
Theorem views_refuse_other_callers (request : HttpRequest) (w : World) :
  ((∀ uid u, session_user request = Some uid → users w !! uid = Some u →
             ¬ (user_type u = "super_admin" ∧ is_admin_active u = true)) →
   super_admin_permission_requests request w
   = (Return (Redirect "/accounts/login/"), w)
   ∧ ∀ login_url, admin_permission_requests login_url request w
                  = (Return (Redirect login_url), w))
  ∧ ((∀ uid u, session_user request = Some uid → users w !! uid = Some u →
               ¬ ((user_type u = "admin" ∨ user_type u = "super_admin")
                  ∧ is_admin_active u = true)) →
     normal_admin_request_permission request w
     = (Return (Redirect "/accounts/login/"), w))
  ∧ ((∀ uid u, session_user request = Some uid → users w !! uid = Some u →
               is_staff u = false ∧ is_superuser u = false
               ∧ user_type u ≠ "super_admin" ∧ user_type u ≠ "admin") →
     normal_admin_agents request w = (Return (Redirect "/accounts/login/"), w)).
Proof.
  split; [|split].
  - intros Hno.
    assert (∀ uid u, session_user request = Some uid → users w !! uid = Some u →
                     is_super_admin u = false) as Hfail.
    { intros uid u Hs Hu. apply not_true_is_false.
      intros ?%is_super_admin_inv. by apply (Hno uid u). }
    split; [|intros login_url]; by apply user_passes_test_refuses.
  - intros Hno. apply user_passes_test_refuses. intros uid u Hs Hu.
    apply not_true_is_false. unfold is_admin_user, is_normal_admin, is_super_admin.
    intros [[H1 H2]%andb_true_iff|[H1 H2]%andb_true_iff]%orb_true_iff;
      apply str_eq_true in H1; apply (Hno uid u Hs Hu); auto.
  - intros Hno. apply user_passes_test_refuses. intros uid u Hs Hu.
    destruct (Hno uid u Hs Hu) as (Hstaff & Hsuper & Hn1 & Hn2).
    unfold is_admin. rewrite Hstaff, Hsuper. simpl.
    apply not_true_is_false. intros Hin%str_in_true.
    apply list_elem_of_In in Hin. simpl in Hin. by destruct Hin as [?|[?|[]]].
Qed.

(** X4, witness: the limited admin 7 posts an approval of its own pending
    request 1 to the review view, and an anonymous visitor posts the request
    form. *)
Lemma views_refuse_other_callers_witness :
  super_admin_permission_requests (review_post_by_admin7 "1" "approve")
    world_submitted
  = (Return (Redirect "/accounts/login/"), world_submitted)
  ∧ normal_admin_request_permission register_post world0
    = (Return (Redirect "/accounts/login/"), world0).
Proof.
  split.
  - destruct (views_refuse_other_callers (review_post_by_admin7 "1" "approve")
                world_submitted) as [Hreview _].
    apply Hreview. intros uid u [= <-] Hu [Hrole _].
    vm_compute in Hu. injection Hu as <-. discriminate.
  - destruct (views_refuse_other_callers register_post world0)
      as (_ & Hform & _).
    apply Hform. intros uid u Hs. discriminate.
Defined.

(** ** The request form: incomplete and unknown input *)

Lemma dict_of_lookup_None (pairs : list (string * string)) (k : string) :
  dict_of pairs !! k = None ↔ k ∉ pairs.*1.
Proof.
  unfold dict_of.
  assert (∀ d : gmap string string,
            foldl (λ d kv, <[kv.1 := kv.2]> d) d pairs !! k = None
            ↔ d !! k = None ∧ k ∉ pairs.*1) as Hgen.
  { induction pairs as [|[k' v] pairs IH]; intros d; simpl.
    - rewrite elem_of_nil. tauto.
    - rewrite IH, lookup_insert_None, not_elem_of_cons. intuition congruence. }
  rewrite Hgen, lookup_empty. tauto.
Qed.

Lemma truthy_opt_false (o : option string) :
  o = None ∨ o = Some empty_str → truthy_opt o = false.
Proof. by intros [->| ->]. Qed.

Section submit_edges.
Variables (w : World) (request : HttpRequest) (uid : nat) (u : User).
Hypothesis Hsession : session_user request = Some uid.
Hypothesis Huser : users w !! uid = Some u.
Hypothesis Hadmin : is_admin_user u = true.
Hypothesis Hpost : method request = "POST".

Ltac pass_gate :=
  unfold normal_admin_request_permission, user_passes_test;
  run; rewrite Hsession; run; rewrite Huser;
  cbn [fmap option_fmap option_map fst snd];
  rewrite Hadmin, Hpost;
  rewrite (bool_decide_eq_true_2 ("POST" = "POST") eq_refl
           : str_eq "POST" "POST" = true).

(** X5.  An active admin posts the request form with one of the three
    fields missing or empty.  The view adds the message "All fields are
    required.", redirects back to the form and writes nothing: no request,
    no audit entry. *)
Theorem incomplete_request_form (field : string) :
  field ∈ ["permission_type"; "reason"; "justification"] →
  POST request !! field = None ∨ POST request !! field = Some empty_str →
  normal_admin_request_permission request w
  = (Return (Redirect "normal_admin:normal_admin_request_permission"),
     with_flash (λ l, (l ++ [(ERROR, "All fields are required.")])%list) w).
Proof.
  intros Hfield Hempty%truthy_opt_false. pass_gate.
  apply list_elem_of_In in Hfield. simpl in Hfield.
  destruct Hfield as [<-|[<-|[<-|[]]]]; rewrite Hempty; simpl;
    by rewrite ?orb_true_r.
Qed.

Variables (ptype why how : string).
Hypothesis Hptype : POST request !! "permission_type" = Some ptype.
Hypothesis Hwhy : POST request !! "reason" = Some why.
Hypothesis Hhow : POST request !! "justification" = Some how.
Hypothesis Hfilled : ptype ≠ empty_str ∧ why ≠ empty_str ∧ how ≠ empty_str.
Hypothesis Hunknown : ptype ∉ PERMISSION_TYPES.*1.

Lemma permission_label_unknown (w0 : World) :
  permission_label ptype w0 = (Raise KeyError, w0).
Proof.
  unfold permission_label, dict_index.
  by rewrite (proj2 (dict_of_lookup_None _ _) Hunknown).
Qed.

(** X6.  An active admin posts the complete form with a permission type
    that is not one of the nine requestable keys (the key [manage_admins],
    for one).  The view raises [KeyError] when it looks up the label.  If
    the admin holds the permission or has a pending request for it, nothing
    has been written by then.  Otherwise the pending request has already
    been stored under the next primary key and stays stored; no audit entry
    and no message are written. *)
Theorem unknown_permission_type_raises :
  (admin_permissions u !! ptype = Some true
   ∨ (∃ k r, permission_requests w !! k = Some r ∧ requesting_admin r = uid
             ∧ permission_type r = ptype ∧ pr_status r = "pending") →
   normal_admin_request_permission request w = (Raise KeyError, w))
  ∧ (admin_permissions u !! ptype ≠ Some true →
     (∀ k r, permission_requests w !! k = Some r →
        ¬ (requesting_admin r = uid ∧ permission_type r = ptype
           ∧ pr_status r = "pending")) →
     ∃ w',
       normal_admin_request_permission request w = (Raise KeyError, w')
       ∧ permission_requests w'
         = <[next_permission_request_id w :=
               {| requesting_admin := uid; permission_type := ptype;
                  reason := why; justification := how; pr_status := "pending";
                  requested_at := clock w; pr_reviewed_at := None;
                  pr_reviewed_by := None; review_notes := empty_str;
                  granted_at := None |}]> (permission_requests w)
       ∧ activity_logs w' = activity_logs w
       ∧ flash w' = flash w
       ∧ users w' = users w).
Proof.
  destruct Hfilled as (? & ? & ?).
  assert (∀ k : M HttpResponse, (permission_label ptype ≫= λ _, k) w
                                 = (Raise KeyError, w)) as Hlabel.
  { intros k. by rewrite bind_run, permission_label_unknown. }
  split.
  - intros Hcase. pass_gate. rewrite Hptype, Hwhy, Hhow.
    rewrite !truthy_opt_filled by done. cbn [negb orb str_of default].
    rewrite get_admin_permissions_active by (by apply is_admin_user_active).
    rewrite dict_get_true.
    destruct (decide (admin_permissions u !! ptype = Some true)) as [Hg|Hg].
    { rewrite bool_decide_eq_true_2 by done.
      by rewrite permission_label_unknown. }
    destruct Hcase as [?|(k & r & Hk & Ha & Hp & Hs)]; [done|].
    rewrite bool_decide_eq_false_2 by done.
    rewrite bool_decide_eq_true_2.
    + by rewrite permission_label_unknown.
    + apply not_eq_None_Some. rewrite first_None.
      rewrite permission_requests_filter_empty. intros Hno. by apply (Hno k r).
  - intros Hg Hno. eexists. pass_gate. rewrite Hptype, Hwhy, Hhow.
    rewrite !truthy_opt_filled by done. cbn [negb orb str_of default].
    rewrite get_admin_permissions_active by (by apply is_admin_user_active).
    rewrite dict_get_true. rewrite bool_decide_eq_false_2 by done.
    rewrite bool_decide_eq_false_2.
    2:{ rewrite <- not_eq_None_Some. intros Hf. apply Hf. apply first_None.
        by apply permission_requests_filter_empty. }
    simp_world. rewrite unique_together_violated_false.
    2:{ intros k r Hk _ (Ha & Hp & Hs). by apply (Hno k r). }
    rewrite permission_label_unknown. simp_world. by repeat split.
Qed.
End submit_edges.

(** X5, witness: admin 7 posts the form with an empty justification. *)
Lemma incomplete_request_form_witness :
  normal_admin_request_permission (request_form "manage_users" "X" empty_str)
    world0
  = (Return (Redirect "normal_admin:normal_admin_request_permission"),
     with_flash (λ l, (l ++ [(ERROR, "All fields are required.")])%list) world0).
Proof.
  apply (incomplete_request_form world0
           (request_form "manage_users" "X" empty_str) 7 admin7
           eq_refl eq_refl eq_refl eq_refl "justification").
  - apply list_elem_of_further, list_elem_of_further, list_elem_of_here.
  - right. reflexivity.
Defined.

(** X6, witness: admin 7 asks for [manage_admins]; request 1 is stored and
    the view raises. *)
Lemma unknown_permission_type_raises_witness :
  ∃ w',
    normal_admin_request_permission (request_form "manage_admins" "X" "Y") world0
    = (Raise KeyError, w')
    ∧ pr_status <$> permission_requests w' !! 1 = Some "pending"
    ∧ permission_type <$> permission_requests w' !! 1 = Some "manage_admins"
    ∧ activity_logs w' = [].
Proof.
  destruct (unknown_permission_type_raises world0
              (request_form "manage_admins" "X" "Y") 7 admin7
              eq_refl eq_refl eq_refl eq_refl "manage_admins" "X" "Y"
              eq_refl eq_refl eq_refl ltac:(by repeat split))
    as [_ Hstored].
  { intros Hin%list_elem_of_In. simpl in Hin.
    repeat (destruct Hin as [Hin|Hin]; [discriminate|]). done. }
  destruct Hstored as (w' & Hrun & Htbl & Hlog & _).
  - discriminate.
  - intros k r Hk. simpl in Hk. by rewrite lookup_empty in Hk.
  - exists w'. split; [exact Hrun|]. rewrite Htbl, Hlog.
    change (next_permission_request_id world0) with 1.
    rewrite !lookup_insert_eq. by repeat split.
Defined.

(** ** The permission map and the gate *)

Lemma no_permissions_false (key : string) :
  dict_get no_permissions key false = false.
Proof.
  unfold dict_get. destruct (no_permissions !! key) as [b|] eqn:E; [|done].
  revert key b E.
  apply (bool_decide_unpack (map_Forall (λ _ b, b = false) no_permissions)).
  vm_compute. exact I.
Qed.

(** X8.  For an account that is not a super_admin, the dictionary that
    [get_admin_permissions] returns and the gate agree: every capability
    other than [manage_admins] is granted exactly when the dictionary holds
    [true] under the capability's key, and [manage_admins] is denied.  For an
    account whose admin flag is off the dictionary denies every key,
    whatever the stored map holds. *)
Theorem permission_map_agrees_with_gate (u : User) :
  user_type u ≠ "super_admin" →
  (∀ c, c ≠ ManageAdmins →
        can u c = dict_get (get_admin_permissions u) (capability_key c) false)
  ∧ can u ManageAdmins = false
  ∧ (is_admin_active u = false →
     ∀ key, dict_get (get_admin_permissions u) key false = false).
Proof.
  intros Hrole. split; [|split].
  - intros c Hc. rewrite can_map_backed by done.
    rewrite bool_decide_eq_false_2 by done. unfold get_admin_permissions.
    destruct (is_admin_active u); simpl; [done|].
    by rewrite no_permissions_false.
  - simpl. unfold can_manage_admins, str_eq. by rewrite bool_decide_eq_false_2.
  - intros Hoff key. unfold get_admin_permissions. rewrite Hoff. simpl.
    apply no_permissions_false.
Qed.

(** ** The bulk actions on accounts *)

Lemma selected_size_update (qs : list nat) (f : User → User) (tbl : gmap nat User) :
  size (filter (λ kv : nat * User, kv.1 ∈ qs)
          (map_imap (λ k u, Some (if decide (k ∈ qs) then f u else u)) tbl))
  = size (filter (λ kv : nat * User, kv.1 ∈ qs) tbl).
Proof.
  rewrite <- (map_size_fmap f (filter _ tbl)). f_equal.
  apply map_eq. intros k. rewrite lookup_fmap.
  destruct (decide (k ∈ qs)) as [Hin|Hout].
  - destruct (tbl !! k) as [u|] eqn:E.
    + rewrite (map_lookup_filter_Some_2 _ tbl k u) by done. simpl.
      apply map_lookup_filter_Some_2; [|done].
      rewrite map_lookup_imap, E. simpl. by rewrite decide_True.
    + rewrite (map_lookup_filter_None_2 _ tbl k) by (by left). simpl.
      apply map_lookup_filter_None_2. left. by rewrite map_lookup_imap, E.
  - rewrite (map_lookup_filter_None_2 _ tbl k) by (right; intros; done). simpl.
    apply map_lookup_filter_None_2. right. intros; done.
Qed.

Lemma users_action_run (qs : list nat) (f : User → User) (text : nat → string)
    (w : World) :
  (users_update qs f;; n ← users_count qs; message_user (text n)) w
  = (Return tt,
     with_flash
       (λ l, (l ++ [(INFO, text (size (filter (λ kv : nat * User, kv.1 ∈ qs)
                                        (users w))))])%list)
       (with_users (map_imap (λ k u, Some (if decide (k ∈ qs) then f u else u))) w)).
Proof.
  unfold users_update, users_count. run; simp_world.
  by rewrite selected_size_update.
Qed.

Lemma users_updated_lookup (qs : list nat) (f : User → User)
    (tbl : gmap nat User) (k : nat) :
  map_imap (λ k u, Some (if decide (k ∈ qs) then f u else u)) tbl !! k
  = (λ u, if decide (k ∈ qs) then f u else u) <$> tbl !! k.
Proof. rewrite map_lookup_imap. by destruct (tbl !! k). Qed.

Lemma gate_ignores_role (u : User) (role : string) (c : Capability) :
  user_type u ≠ "super_admin" → role ≠ "super_admin" →
  can (set_user_type role u) c = can u c.
Proof.
  intros Hu Hrole. destruct (decide (c = ManageAdmins)) as [->|Hc].
  - simpl. unfold can_manage_admins, str_eq. simpl.
    by rewrite !bool_decide_eq_false_2.
  - rewrite !can_map_backed by done. simpl.
    by rewrite !bool_decide_eq_false_2.
Qed.

Section role_actions.
Variables (request : HttpRequest) (qs : list nat) (w : World).

Abbreviation selected_count :=
  (size (filter (λ kv : nat * User, kv.1 ∈ qs) (users w))).

Abbreviation role_set role text w' :=
  ((∀ k, users w' !! k
         = (λ u, if decide (k ∈ qs) then set_user_type role u else u)
             <$> users w !! k)
   ∧ flash w' = (flash w ++ [(INFO, pretty selected_count +:+ text)])%list
   ∧ (∀ k u u', users w !! k = Some u → users w' !! k = Some u' →
        is_admin_active u' = is_admin_active u
        ∧ admin_permissions u' = admin_permissions u
        ∧ (user_type u ≠ "super_admin" → ∀ c, can u' c = can u c)
        ∧ (k ∈ qs → can u' ManageAdmins = false))).

Lemma role_action_run (role : string) (text : string) :
  role ≠ "super_admin" →
  ∃ w',
    (users_update qs (set_user_type role);; n ← users_count qs;
     message_user (pretty n +:+ text)) w = (Return tt, w')
    ∧ role_set role text w'.
Proof.
  intros Hrole. rewrite (users_action_run qs _ (λ n, pretty n +:+ text)).
  eexists. split; [reflexivity|]. simp_world.
  split; [intros k; apply users_updated_lookup|]. split; [done|].
  intros k u u' Hu. rewrite users_updated_lookup, Hu. simpl.
  intros [= <-]. destruct (decide (k ∈ qs)) as [Hin|Hout].
  - split; [done|]. split; [done|]. split.
    + intros Hne c. by apply gate_ignores_role.
    + intros _. simpl. unfold can_manage_admins, str_eq. simpl.
      by rewrite bool_decide_eq_false_2.
  - by repeat split.
Qed.

(** X9.  The actions [make_brokers], [make_buyers] and [make_agents] never
    raise.  Each rewrites the role of every stored account of the selection
    and of no other account, and reports the number of stored accounts in
    the selection.  The admin flag and the permission map of every account
    stay as they were, so an account that was not a super_admin is decided
    by the gate exactly as before -- a limited admin made a buyer keeps its
    capabilities -- while every selected account, a super_admin included, is
    denied [manage_admins] afterwards. *)
Theorem role_change_keeps_capabilities :
  (∃ w', make_brokers request qs w = (Return tt, w')
         ∧ role_set "broker" " users set as brokers." w')
  ∧ (∃ w', make_buyers request qs w = (Return tt, w')
           ∧ role_set "buyer" " users set as buyers." w')
  ∧ (∃ w', make_agents request qs w = (Return tt, w')
           ∧ role_set "agent" " users set as real estate agents." w').
Proof.
  split; [|split]; by apply role_action_run.
Qed.

Abbreviation active_set flag text w' :=
  ((∀ k, users w' !! k
         = (λ u, if decide (k ∈ qs) then set_is_active flag u else u)
             <$> users w !! k)
   ∧ flash w' = (flash w ++ [(INFO, pretty selected_count +:+ text)])%list
   ∧ (∀ k u u', users w !! k = Some u → users w' !! k = Some u' →
        set_is_active (is_active u) u' = u)
   ∧ applications w' = applications w
   ∧ permission_requests w' = permission_requests w
   ∧ activity_logs w' = activity_logs w).

Lemma set_is_active_same (u : User) : set_is_active (is_active u) u = u.
Proof. by destruct u. Qed.

Lemma set_is_active_twice (b b' : bool) (u : User) :
  set_is_active b (set_is_active b' u) = set_is_active b u.
Proof. reflexivity. Qed.

Lemma active_action_run (flag : bool) (text : string) :
  ∃ w',
    (users_update qs (set_is_active flag);; n ← users_count qs;
     message_user (pretty n +:+ text)) w = (Return tt, w')
    ∧ active_set flag text w'.
Proof.
  rewrite (users_action_run qs _ (λ n, pretty n +:+ text)).
  eexists. split; [reflexivity|]. simp_world.
  split; [intros k; apply users_updated_lookup|]. split; [done|].
  split; [|done].
  intros k u u' Hu. rewrite users_updated_lookup, Hu. simpl.
  intros [= <-]. destruct (decide (k ∈ qs)).
  - rewrite set_is_active_twice. apply set_is_active_same.
  - apply set_is_active_same.
Qed.

(** X10.  [activate_users] and [deactivate_users] never raise; each sets
    [is_active] on every stored account of the selection, leaves every other
    account alone and reports the number of stored accounts in the selection
    (also those that already had the value).  The column [is_active] is all
    that the actions write: putting the old value back gives the old row, so
    role, admin flag, permission map and verification of every account are
    as before, and so are the applications, the permission requests and the
    audit log -- the actions write no audit entry. *)
Theorem activation_actions_write_only_is_active :
  (∃ w', activate_users request qs w = (Return tt, w')
         ∧ active_set true " users activated." w')
  ∧ (∃ w', deactivate_users request qs w = (Return tt, w')
           ∧ active_set false " users deactivated." w').
Proof. split; apply active_action_run. Qed.
End role_actions.

(** ** Verifying agents and revoking the verification *)

Section verification_actions.
Variables (request : HttpRequest) (qs : list nat).

Abbreviation verified_rows t tbl :=
  (map_imap (λ k u,
     Some (if decide (k ∈ qs ∧ user_type u = "agent" ∧ is_verified u = false)
           then activated t u else u)) tbl).

Abbreviation revoked_rows tbl :=
  (map_imap (λ k u,
     Some (if decide (k ∈ qs ∧ user_type u = "agent" ∧ is_verified u = true)
           then set_verification_date None (locked_out u) else u)) tbl).

Lemma verified_rows_leave_none (t : timestamp) (tbl : gmap nat User) :
  verify_agents_filter qs (verified_rows t tbl) = ∅.
Proof.
  unfold verify_agents_filter. apply map_empty_filter.
  intros k u Hk (Hin & Hrole & Hver). simpl in *.
  rewrite map_lookup_imap in Hk.
  destruct (tbl !! k) as [u0|] eqn:E; [|done]. simpl in Hk.
  injection Hk as <-. destruct (decide _) as [(_ & _ & Hv)|Hn]; [done|].
  by apply Hn.
Qed.

Lemma revoked_rows_leave_none (tbl : gmap nat User) :
  revoke_verification_filter qs (revoked_rows tbl) = ∅.
Proof.
  unfold revoke_verification_filter. apply map_empty_filter.
  intros k u Hk (Hin & Hrole & Hver). simpl in *.
  rewrite map_lookup_imap in Hk.
  destruct (tbl !! k) as [u0|] eqn:E; [|done]. simpl in Hk.
  injection Hk as <-. destruct (decide _) as [(_ & _ & Hv)|Hn]; [done|].
  by apply Hn.
Qed.

Lemma verify_agents_exact (w : World) :
  verify_agents request qs w
  = (Return tt,
     with_flash (λ l, (l ++ [(INFO,
         "No agents selected or all selected agents are already verified.")])%list)
       (with_users (λ tbl, verified_rows (clock w) tbl)
          (with_clock (clock w + 1) w))).
Proof.
  unfold verify_agents. run; simp_world.
  change (map_imap _ (users w)) with (verified_rows (clock w) (users w)).
  by rewrite verified_rows_leave_none, map_size_empty.
Qed.

Lemma revoke_verification_exact (w : World) :
  revoke_verification request qs w
  = (Return tt,
     with_flash (λ l, (l ++ [(INFO, "No verified agents selected.")])%list)
       (with_users (λ tbl, revoked_rows tbl) w)).
Proof.
  unfold revoke_verification. run; simp_world.
  change (map_imap _ (users w)) with (revoked_rows (users w)).
  by rewrite revoked_rows_leave_none, map_size_empty.
Qed.

(** X11.  [verify_agents] never raises.  It verifies and activates, with
    the current time as verification date, every stored account of the
    selection that is an unverified agent, and leaves every other account
    and all applications alone.  Its count is taken after the update through
    the same filter on unverified agents, which then matches no row: the
    action always reports that no agents were selected or all are verified
    already, also when it has just verified accounts. *)
Theorem verify_agents_reports_nothing (w : World) :
  ∃ w',
    verify_agents request qs w = (Return tt, w')
    ∧ (∀ k, users w' !! k
            = (λ u, if decide (k ∈ qs ∧ user_type u = "agent"
                               ∧ is_verified u = false)
                    then activated (clock w) u else u) <$> users w !! k)
    ∧ flash w'
      = (flash w ++ [(INFO,
           "No agents selected or all selected agents are already verified.")])%list
    ∧ applications w' = applications w.
Proof.
  rewrite verify_agents_exact. eexists. split; [reflexivity|]. simp_world.
  split; [|done]. intros k. rewrite map_lookup_imap. by destruct (users w !! k).
Qed.

(** X12.  [revoke_verification] never raises.  It takes the verification,
    the active flag and the verification date away from every stored account
    of the selection that is a verified agent and leaves every other account
    and all applications alone.  Its count, taken after the update through
    the same filter on verified agents, matches no row: the action always
    reports that no verified agents were selected. *)
Theorem revoke_verification_reports_nothing (w : World) :
  ∃ w',
    revoke_verification request qs w = (Return tt, w')
    ∧ (∀ k, users w' !! k
            = (λ u, if decide (k ∈ qs ∧ user_type u = "agent"
                               ∧ is_verified u = true)
                    then set_verification_date None (locked_out u) else u)
                <$> users w !! k)
    ∧ flash w' = (flash w ++ [(INFO, "No verified agents selected.")])%list
    ∧ applications w' = applications w.
Proof.
  rewrite revoke_verification_exact. eexists. split; [reflexivity|]. simp_world.
  split; [|done]. intros k. rewrite map_lookup_imap. by destruct (users w !! k).
Qed.

(** X13.  [verify_agents] followed by [revoke_verification] over the same
    selection: every stored agent account of the selection ends unverified,
    inactive and without verification date, whether or not it was verified
    before; every other account is as before.  The pair is no round trip: an
    unverified agent that was active before ends inactive. *)
Theorem verify_then_revoke (w : World) :
  ∃ w1 w2,
    verify_agents request qs w = (Return tt, w1)
    ∧ revoke_verification request qs w1 = (Return tt, w2)
    ∧ ∀ k, users w2 !! k
           = (λ u, if decide (k ∈ qs ∧ user_type u = "agent")
                   then set_verification_date None (locked_out u) else u)
               <$> users w !! k.
Proof.
  eexists _, _. split; [apply verify_agents_exact|].
  split; [apply revoke_verification_exact|]. simp_world.
  intros k. rewrite !map_lookup_imap. destruct (users w !! k) as [u|]; [|done].
  simpl. f_equal.
  destruct (decide (k ∈ qs ∧ user_type u = "agent")) as [[Hin Hrole]|Hno].
  - destruct (is_verified u) eqn:Hv.
    + rewrite (decide_False (P := _ ∧ _ ∧ true = false)) by (intros (_ & _ & ?); done).
      rewrite decide_True by done. done.
    + rewrite (decide_True (P := _ ∧ _ ∧ false = false)) by done.
      rewrite decide_True by done. by destruct u.
  - rewrite (decide_False (P := _ ∧ _ ∧ _ = false)) by (intros (? & ? & _); by apply Hno).
    rewrite decide_False by (intros (? & ? & _); by apply Hno). done.
Qed.
End verification_actions.

(** ** Bulk rejection and the request for more information *)

Lemma str_eq_refl (x : string) : str_eq x x = true.
Proof. by apply str_eq_true. Qed.

Lemma str_eq_false (x y : string) : x ≠ y → str_eq x y = false.
Proof. intros H. unfold str_eq. by rewrite bool_decide_eq_false_2. Qed.

Lemma str_in_false (x : string) (xs : list string) : x ∉ xs → str_in x xs = false.
Proof. intros H. unfold str_in. by rewrite bool_decide_eq_false_2. Qed.

Lemma reviewed_lookup (qs : list nat) (statuses : list string)
    (f : RealEstateAgentApplication → RealEstateAgentApplication)
    (tbl : gmap nat RealEstateAgentApplication) (pk : nat) :
  map_imap (λ k a, Some (if decide (k ∈ qs ∧ status a ∈ statuses)
                         then f a else a)) tbl !! pk
  = (λ a, if decide (pk ∈ qs ∧ status a ∈ statuses) then f a else a)
      <$> tbl !! pk.
Proof. rewrite map_lookup_imap. by destruct (tbl !! pk). Qed.

Section bulk_lockout.
Variables (request : HttpRequest) (rid : nat) (reviewer : User).
Variables (qs : list nat) (w : World).
Hypothesis Hsession : session_user request = Some rid.
Hypothesis Hreviewer : users w !! rid = Some reviewer.

Abbreviation matching statuses :=
  (size (queryset_filter_status qs statuses (applications w))).

(** X14.  With the reviewer logged in, [reject_applications] and
    [request_more_info] never raise.  Bulk rejection stores as rejected, with
    one common review time and the reviewer, exactly the stored applications
    of the selection whose status is pending, under_review or needs_info;
    the request for more information stores as needs_info exactly those
    whose status is pending or under_review.  Every other application -- not
    selected, or in another status -- is left as it is, the reported count
    is the number of matching applications, and neither action writes a user
    or a user activity. *)
Theorem bulk_reject_eligibility :
  (∃ w',
     reject_applications request qs w = (Return tt, w')
     ∧ (∀ pk, applications w' !! pk
              = (λ a, if decide (pk ∈ qs ∧ status a
                                   ∈ ["pending"; "under_review"; "needs_info"])
                      then set_review "rejected" (Some (clock w)) (Some rid) a
                      else a) <$> applications w !! pk)
     ∧ flash w'
       = (flash w ++
          [(INFO,
            if decide (0 < matching ["pending"; "under_review"; "needs_info"])
            then pretty (matching ["pending"; "under_review"; "needs_info"])
                 +:+ " applications rejected."
            else "No applications were rejected.")])%list
     ∧ users w' = users w ∧ user_activities w' = user_activities w)
  ∧ (∃ w',
       request_more_info request qs w = (Return tt, w')
       ∧ (∀ pk, applications w' !! pk
                = (λ a, if decide (pk ∈ qs ∧ status a ∈ ["pending"; "under_review"])
                        then set_review "needs_info" (Some (clock w)) (Some rid) a
                        else a) <$> applications w !! pk)
       ∧ flash w'
         = (flash w ++
            [(INFO,
              if decide (0 < matching ["pending"; "under_review"])
              then pretty (matching ["pending"; "under_review"])
                   +:+ " applications marked as needing more information."
              else "No applications were updated.")])%list
       ∧ users w' = users w ∧ user_activities w' = user_activities w).
Proof.
  split.
  - unfold reject_applications.
    rewrite bind_run, (reject_applications_update_run request rid reviewer) by done.
    destruct (decide (0 < _)); eexists; (split; [reflexivity|]); simp_world;
      (split; [intros pk; apply reviewed_lookup|done]).
  - unfold request_more_info.
    rewrite bind_run, (request_more_info_update_run request rid reviewer) by done.
    destruct (decide (0 < _)); eexists; (split; [reflexivity|]); simp_world;
      (split; [intros pk; apply reviewed_lookup|done]).
Qed.

(** X15.  After [request_more_info] over a selection, bulk approval over
    the same selection approves nothing: no application of the selection is
    pending or under_review any more, so [approve_applications] counts zero,
    reports that no applications were approved and writes no application
    and no user. *)
Theorem needs_info_blocks_bulk_approval :
  ∃ w1,
    request_more_info request qs w = (Return tt, w1)
    ∧ approve_applications_loop request qs w1 = (Return 0, w1)
    ∧ approve_applications request qs w1
      = (Return tt,
         with_flash (λ l, (l ++ [(INFO, "No applications were approved.")])%list) w1).
Proof.
  assert (∃ w1, request_more_info request qs w = (Return tt, w1)
                ∧ ∀ pk, applications w1 !! pk
                  = (λ a, if decide (pk ∈ qs ∧ status a ∈ ["pending"; "under_review"])
                          then set_review "needs_info" (Some (clock w)) (Some rid) a
                          else a) <$> applications w !! pk) as (w1 & Hrun & Htbl).
  { unfold request_more_info.
    rewrite bind_run, (request_more_info_update_run request rid reviewer) by done.
    destruct (decide (0 < _)); eexists; (split; [reflexivity|]); simp_world;
      intros pk; apply reviewed_lookup. }
  exists w1. split; [done|].
  assert (approve_applications_loop request qs w1 = (Return 0, w1)) as Hloop.
  { unfold approve_applications_loop. rewrite bind_run.
    change (gets ?f w1) with (Return (f w1), w1). cbv beta iota.
    assert (queryset_filter_status qs ["pending"; "under_review"]
              (applications w1) = ∅) as ->.
    { unfold queryset_filter_status. apply map_empty_filter.
      intros pk a Hpk [Hin Hst]. simpl in *. rewrite Htbl in Hpk.
      destruct (applications w !! pk) as [a0|]; [|done]. simpl in Hpk.
      injection Hpk as <-. destruct (decide _) as [_|Hno].
      - change (status (set_review ?s _ _ _)) with s in Hst.
        apply list_elem_of_In in Hst. simpl in Hst.
        by destruct Hst as [?|[?|[]]].
      - by apply Hno. }
    by rewrite map_to_list_empty. }
  split; [done|]. unfold approve_applications. by rewrite bind_run, Hloop.
Qed.
End bulk_lockout.

(** ** Saving an application in the admin form *)

Section form_save.
Variables (request : HttpRequest) (w : World).
Variables (pk : nat) (obj : RealEstateAgentApplication).
Variables (changed_data : list string) (change : bool).

(** X16.  [save_model] stores the instance exactly as the form left it --
    no review time, no reviewer, no account written, the clock not read --
    when the instance is being added, when the status is not among the
    changed fields, or when the status was changed to pending.  When the
    status of an existing application was changed to a value other than
    pending, approved, rejected and needs_info (under_review, for one), the
    review time and the reviewer are stamped and nothing else is written:
    the applicant's account is not touched. *)
Theorem save_model_without_cascade :
  (change = false ∨ "status" ∉ changed_data ∨ status obj = "pending" →
   save_model request (pk, obj) changed_data change w
   = (Return tt, with_applications <[pk := obj]> w))
  ∧ (∀ rid reviewer,
       session_user request = Some rid → users w !! rid = Some reviewer →
       change = true → "status" ∈ changed_data →
       status obj ∉ ["pending"; "approved"; "rejected"; "needs_info"] →
       save_model request (pk, obj) changed_data change w
       = (Return tt,
          with_applications
            <[pk := set_review (status obj) (Some (clock w)) (Some rid) obj]>
            (with_clock (clock w + 1) w))).
Proof.
  split.
  - intros Hplain. unfold save_model.
    assert (change && str_in "status" changed_data
            && negb (str_eq (status obj) "pending") = false) as ->; [|done].
    destruct Hplain as [->|[Hout| ->]].
    + done.
    + rewrite str_in_false by done. by rewrite andb_false_r.
    + rewrite str_eq_refl. by rewrite andb_false_r.
  - intros rid reviewer Hsession Hreviewer -> Hin Hst. unfold save_model.
    rewrite (proj2 (str_in_true _ _) Hin). cbn [andb].
    assert (status obj ≠ "pending" ∧ status obj ≠ "approved"
            ∧ status obj ∉ ["rejected"; "needs_info"]) as (H1 & H2 & H3).
    { rewrite !list_elem_of_In in *. simpl in *. intuition congruence. }
    rewrite (str_eq_false _ _ H1). cbn [negb].
    run. rewrite Hsession. run; simp_world. rewrite Hreviewer.
    cbn [fmap option_fmap option_map fst snd].
    change (status (set_review ?s _ _ _)) with s.
    rewrite (str_eq_false _ _ H2), (str_in_false _ _ H3). reflexivity.
Qed.
End form_save.

(** ** Logging in *)

Lemma first_Some {A : Type} (rows : gmap nat A) (k : nat) (a : A) :
  first rows = Some (k, a) → rows !! k = Some a.
Proof.
  unfold first. intros H. apply elem_of_map_to_list.
  destruct (map_to_list rows) as [|x l]; [done|]. simpl in H.
  injection H as ->. apply list_elem_of_here.
Qed.

Lemma agent_application_found (tbl : gmap nat RealEstateAgentApplication)
    (k : nat) (a : RealEstateAgentApplication) :
  one_to_one tbl → tbl !! k = Some a →
  first (filter (λ kv : nat * RealEstateAgentApplication,
                   applicant kv.2 = applicant a) tbl) = Some (k, a).
Proof.
  intros Hone Hk.
  destruct (first _) as [[k' a']|] eqn:E.
  - apply first_Some in E. apply map_lookup_filter_Some in E as [Hk' Happ].
    simpl in Happ. assert (k' = k) as -> by by eapply Hone. congruence.
  - apply first_None in E.
    assert (filter (λ kv : nat * RealEstateAgentApplication,
                      applicant kv.2 = applicant a) tbl !! k = Some a) as Hin.
    { by apply map_lookup_filter_Some. }
    by rewrite E in Hin.
Qed.

Lemma agent_application_none (tbl : gmap nat RealEstateAgentApplication)
    (pk : nat) :
  (∀ k a, tbl !! k = Some a → applicant a ≠ pk) →
  first (filter (λ kv : nat * RealEstateAgentApplication,
                   applicant kv.2 = pk) tbl) = None.
Proof.
  intros Hno. unfold first.
  assert (filter (λ kv : nat * RealEstateAgentApplication,
                    applicant kv.2 = pk) tbl = ∅) as ->.
  { apply map_empty_filter. intros k a Hk. simpl. exact (Hno k a Hk). }
  by rewrite map_to_list_empty.
Qed.

Section login.
Variables (request : HttpRequest) (next_url : option string) (w : World).
Variables (pk : nat) (u : User).
Hypothesis Hpost : method request = "POST".
Hypothesis Hu : users w !! pk = Some u.

Lemma user_login_admin :
  user_type u ∈ ["super_admin"; "admin"] →
  ∃ resp w',
    user_login request true (Some pk) next_url w
    = (Return (resp, if is_admin_active u then Some pk else None), w')
    ∧ users w' = users w ∧ applications w' = applications w
    ∧ resp = (if is_admin_active u
              then Redirect (if truthy_opt next_url then str_of next_url
                             else "normal_admin:normal_admin_dashboard")
              else login_page).
Proof.
  intros Hrole. unfold user_login. rewrite Hpost, str_eq_refl. run. rewrite Hu.
  cbn [fmap option_fmap option_map]. rewrite (proj2 (str_in_true _ _) Hrole).
  destruct (is_admin_active u); [|by eexists _, _].
  destruct (truthy_opt next_url); [by eexists _, _|].
  destruct (str_eq (user_type u) "super_admin"); by eexists _, _.
Qed.

Lemma user_login_agent (found : option (nat * RealEstateAgentApplication)) :
  user_type u = "agent" →
  first (filter (λ kv : nat * RealEstateAgentApplication, applicant kv.2 = pk)
           (applications w)) = found →
  ∃ w',
    user_login request true (Some pk) next_url w
    = (Return
         (match found with
          | Some (_, a) =>
              if str_eq (status a) "approved" && is_active u && is_verified u
              then (Redirect "home", Some pk) else (login_page, None)
          | None => (login_page, None)
          end), w')
    ∧ users w' = users w ∧ applications w' = applications w.
Proof.
  intros Hrole Hfound. unfold user_login, agent_application_of.
  rewrite Hpost, str_eq_refl. run. rewrite Hu.
  cbn [fmap option_fmap option_map]. rewrite Hrole.
  rewrite (str_in_false "agent") by (by intros [?|[?|[]]]%list_elem_of_In).
  rewrite str_eq_refl. rewrite Hfound.
  destruct found as [[k a]|]; [|by eexists].
  destruct (str_eq (status a) "approved" && is_active u && is_verified u);
    [by eexists|].
  destruct (str_in (status a) ["pending"; "under_review"]); [by eexists|].
  destruct (str_eq (status a) "needs_info"); [by eexists|].
  destruct (str_eq (status a) "rejected"); by eexists.
Qed.

Lemma user_login_other :
  user_type u ∉ ["super_admin"; "admin"; "agent"] →
  ∃ w',
    user_login request true (Some pk) next_url w
    = (Return (if is_active u then (Redirect "home", Some pk)
               else (login_page, None)), w')
    ∧ users w' = users w ∧ applications w' = applications w.
Proof.
  intros Hrole.
  assert ((user_type u ∉ ["super_admin"; "admin"]) ∧ user_type u ≠ "agent")
    as [H1 H2].
  { rewrite !list_elem_of_In in *. simpl in *. intuition congruence. }
  unfold user_login. rewrite Hpost, str_eq_refl. run. rewrite Hu.
  cbn [fmap option_fmap option_map].
  rewrite (str_in_false _ _ H1), (str_eq_false _ _ H2).
  destruct (is_active u); by eexists.
Qed.

(** X17.  A valid login form is posted and [authenticate] has returned the
    stored account [pk].  [user_login] does not raise and writes no user and
    no application.  It either logs the account in and redirects, or renders
    the login page with nobody logged in.  Which of the two depends on the
    role: a super_admin or admin is logged in exactly when its admin flag is
    set ([is_active] is not consulted); an agent, provided no two
    applications share an applicant, exactly when the account is active and
    verified and its application is approved; any other account exactly
    when it is active. *)
Theorem login_decision :
  ∃ resp session w',
    user_login request true (Some pk) next_url w = (Return (resp, session), w')
    ∧ users w' = users w ∧ applications w' = applications w
    ∧ (session = None ∧ resp = login_page
       ∨ session = Some pk ∧ ∃ url, resp = Redirect url)
    ∧ (user_type u ∈ ["super_admin"; "admin"] →
       (session = Some pk ↔ is_admin_active u = true))
    ∧ (user_type u = "agent" → one_to_one (applications w) →
       (session = Some pk
        ↔ is_active u = true ∧ is_verified u = true
          ∧ ∃ k a, applications w !! k = Some a ∧ applicant a = pk
                   ∧ status a = "approved"))
    ∧ (user_type u ∉ ["super_admin"; "admin"; "agent"] →
       (session = Some pk ↔ is_active u = true)).
Proof.
  destruct (decide (user_type u ∈ ["super_admin"; "admin"])) as [Hadmin|Hnoadmin].
  { destruct (user_login_admin Hadmin) as (resp & w' & Hrun & Husers & Happs & Hresp).
    exists resp, (if is_admin_active u then Some pk else None), w'.
    split; [done|]. split; [done|]. split; [done|]. split; [|split; [|split]].
    - rewrite Hresp. destruct (is_admin_active u); [right|left]; eauto.
    - intros _. by destruct (is_admin_active u).
    - intros Hagent. rewrite Hagent in Hadmin.
      apply list_elem_of_In in Hadmin. simpl in Hadmin.
      by destruct Hadmin as [?|[?|[]]].
    - intros Hno. destruct Hno. rewrite !list_elem_of_In in *. simpl in *. tauto. }
  destruct (decide (user_type u = "agent")) as [Hagent|Hnoagent].
  { destruct (user_login_agent _ Hagent eq_refl) as (w' & Hrun & Husers & Happs).
    destruct (first _) as [[k a]|] eqn:Hfound.
    - apply first_Some in Hfound as Hrow.
      apply map_lookup_filter_Some in Hrow as [Hk Happ]. simpl in Happ.
      destruct (str_eq (status a) "approved" && is_active u && is_verified u)
        eqn:Hok.
      + exists (Redirect "home"), (Some pk), w'.
        split; [done|]. split; [done|]. split; [done|].
        split; [right; eauto|]. split; [done|]. split.
        * intros _ _. split; [|done]. intros _.
          apply andb_true_iff in Hok as [[Hst%str_eq_true Hact]%andb_true_iff Hver].
          split; [done|]. split; [done|]. by exists k, a.
        * intros Hrole. destruct Hrole. rewrite Hagent.
          apply list_elem_of_further, list_elem_of_further, list_elem_of_here.
      + exists login_page, None, w'.
        split; [done|]. split; [done|]. split; [done|].
        split; [by left|]. split; [done|]. split.
        * intros _ Hone. split; [done|].
          intros (Hact & Hver & k' & a' & Hk' & Happ' & Hst').
          assert (k' = k) as -> by (eapply Hone; [done..|congruence]).
          assert (a' = a) as -> by congruence.
          rewrite Hst', Hact, Hver, str_eq_refl in Hok. done.
        * intros Hrole. destruct Hrole. rewrite Hagent.
          apply list_elem_of_further, list_elem_of_further, list_elem_of_here.
    - exists login_page, None, w'.
      split; [done|]. split; [done|]. split; [done|].
      split; [by left|]. split; [done|]. split.
      + intros _ _. split; [done|].
        intros (_ & _ & k' & a' & Hk' & Happ' & _).
        apply first_None in Hfound.
        assert (filter (λ kv : nat * RealEstateAgentApplication,
                          applicant kv.2 = pk) (applications w) !! k' = Some a')
          as Hin by by apply map_lookup_filter_Some.
        by rewrite Hfound in Hin.
      + intros Hrole. destruct Hrole. rewrite Hagent.
        apply list_elem_of_further, list_elem_of_further, list_elem_of_here. }
  assert (user_type u ∉ ["super_admin"; "admin"; "agent"]) as Hother.
  { rewrite !list_elem_of_In in *. simpl in *. intuition congruence. }
  destruct (user_login_other Hother) as (w' & Hrun & Husers & Happs).
  destruct (is_active u) eqn:Hact.
  - exists (Redirect "home"), (Some pk), w'.
    split; [done|]. split; [done|]. split; [done|].
    split; [right; eauto|]. by split_and!.
  - exists login_page, None, w'.
    split; [done|]. split; [done|]. split; [done|].
    split; [by left|]. by split_and!.
Qed.
End login.

(** ** From the review to the login *)

Lemma one_to_one_kept (tbl tbl' : gmap nat RealEstateAgentApplication) :
  (∀ k a', tbl' !! k = Some a' →
           ∃ a, tbl !! k = Some a ∧ applicant a' = applicant a) →
  one_to_one tbl → one_to_one tbl'.
Proof.
  intros Hsame Hone k1 k2 a1 a2 H1 H2 Happ.
  destruct (Hsame k1 a1 H1) as (b1 & Hb1 & E1).
  destruct (Hsame k2 a2 H2) as (b2 & Hb2 & E2).
  eapply Hone; [done..|congruence].
Qed.

Section review_then_login.
Variables (request login_request : HttpRequest) (rid : nat) (qs : list nat).
Variables (w : World) (pk : nat) (a : RealEstateAgentApplication) (u : User).
Variable next_url : option string.
Hypothesis Hsession : session_user request = Some rid.
Hypothesis Hreviewer : is_Some (users w !! rid).
Hypothesis Hintegrity :
  ∀ pk a, applications w !! pk = Some a → is_Some (users w !! applicant a).
Hypothesis Hone : one_to_one (applications w).
Hypothesis Hstored : applications w !! pk = Some a.
Hypothesis Hselected : pk ∈ qs.
Hypothesis Hagent : users w !! applicant a = Some u.
Hypothesis Hrole : user_type u = "agent".
Hypothesis Hpost : method login_request = "POST".

(** X18.  From the review to the login.  No two applications share an
    applicant; application [pk] of an agent account is pending or
    under_review.  After bulk approval over a selection that contains it,
    the agent's next login (valid form, [authenticate] returning the
    account) succeeds and redirects to home, whatever the account's flags
    were before. *)
Theorem approved_agent_can_log_in :
  status a ∈ ["pending"; "under_review"] →
  ∃ w1 w2,
    approve_applications request qs w = (Return tt, w1)
    ∧ user_login login_request true (Some (applicant a)) next_url w1
      = (Return (Redirect "home", Some (applicant a)), w2).
Proof.
  intros Heligible.
  destruct (approve_applications_loop_run request rid qs w
              Hsession Hreviewer Hintegrity)
    as (w1 & Hloop & Hsel & Hother & Hact & _ & _).
  destruct (Hsel pk a Hstored Hselected Heligible) as [t Ha'].
  destruct (Hact pk a u Hstored Hselected Heligible Hagent) as [t' Hu'].
  assert (∃ w1', approve_applications request qs w = (Return tt, w1')
                 ∧ users w1' = users w1 ∧ applications w1' = applications w1)
    as (w1' & Hrun & Husers & Happs).
  { unfold approve_applications. rewrite bind_run, Hloop.
    destruct (decide (0 < _)); by eexists. }
  rewrite <- Husers in Hu'. rewrite <- Happs in Ha'.
  destruct (user_login_agent login_request next_url w1' (applicant a)
              (activated t' u) Hpost Hu'
              (Some (pk, set_review "approved" (Some t) (Some rid) a)) Hrole)
    as (w2 & Hlogin & _).
  { apply (agent_application_found (applications w1') pk
             (set_review "approved" (Some t) (Some rid) a)); [|done].
    apply (one_to_one_kept (applications w)); [|done].
    intros k b' Hk. rewrite Happs in Hk.
    destruct (applications w !! k) as [b|] eqn:Hb.
    - exists b. split; [done|].
      destruct (decide (k ∈ qs ∧ status b ∈ ["pending"; "under_review"]))
        as [[Hin Hst]|Hno].
      + destruct (Hsel k b Hb Hin Hst) as [tb Hb']. rewrite Hb' in Hk.
        by injection Hk as <-.
      + rewrite Hother in Hk.
        * rewrite Hb in Hk. by injection Hk as <-.
        * intros (b0 & Hb0 & Hin & Hst). rewrite Hb in Hb0.
          injection Hb0 as <-. by apply Hno.
    - rewrite Hother in Hk; [by rewrite Hb in Hk|].
      intros (b0 & Hb0 & _). by rewrite Hb in Hb0. }
  exists w1', w2. split; [done|]. rewrite Hlogin. reflexivity.
Qed.
End review_then_login.

(** ** From the review to the login, continued *)

Lemma user_login_agent_refused (request : HttpRequest)
    (next_url : option string) (w : World) (pk : nat) (u : User) (k : nat)
    (a : RealEstateAgentApplication) :
  method request = "POST" → users w !! pk = Some u → user_type u = "agent" →
  one_to_one (applications w) →
  applications w !! k = Some a → applicant a = pk → status a ≠ "approved" →
  user_login request true (Some pk) next_url w
  = (Return (login_page, None),
     if str_in (status a) ["pending"; "under_review"] then
       with_flash (λ l, (l ++ [(WARNING,
         "Your Real Estate Agent application is under review. You will be notified once it's approved.")])%list) w
     else if str_eq (status a) "needs_info" then
       with_flash (λ l, (l ++ [(WARNING,
         "Your application needs additional information. Please check your application status for details.")])%list) w
     else if str_eq (status a) "rejected" then
       with_flash (λ l, (l ++ [(ERROR,
         "Your Real Estate Agent application has been rejected. Please contact support for assistance.")])%list) w
     else w).
Proof.
  intros Hpost Hu Hrole Hone Hk Happ Hst.
  unfold user_login, agent_application_of.
  rewrite Hpost, str_eq_refl. run. rewrite Hu.
  cbn [fmap option_fmap option_map]. rewrite Hrole.
  rewrite (str_in_false "agent") by (by intros [?|[?|[]]]%list_elem_of_In).
  rewrite str_eq_refl. subst pk.
  rewrite (agent_application_found _ k a) by done.
  rewrite (str_eq_false _ _ Hst). cbn [andb].
  destruct (str_in (status a) ["pending"; "under_review"]); [done|].
  destruct (str_eq (status a) "needs_info"); [done|].
  by destruct (str_eq (status a) "rejected").
Qed.

Section lockout_then_login.
Variables (request login_request : HttpRequest) (rid : nat) (reviewer : User).
Variables (qs : list nat) (w : World) (pk : nat).
Variables (a : RealEstateAgentApplication) (u : User).
Variable next_url : option string.
Hypothesis Hsession : session_user request = Some rid.
Hypothesis Hreviewer : users w !! rid = Some reviewer.
Hypothesis Hone : one_to_one (applications w).
Hypothesis Hstored : applications w !! pk = Some a.
Hypothesis Hselected : pk ∈ qs.
Hypothesis Hagent : users w !! applicant a = Some u.
Hypothesis Hrole : user_type u = "agent".
Hypothesis Hpost : method login_request = "POST".

Lemma reviewed_table_one_to_one (statuses : list string) (st : string)
    (t : timestamp) (tbl' : gmap nat RealEstateAgentApplication) :
  (∀ k, tbl' !! k
        = (λ b, if decide (k ∈ qs ∧ status b ∈ statuses)
                then set_review st (Some t) (Some rid) b else b)
            <$> applications w !! k) →
  one_to_one tbl'.
Proof.
  intros Htbl. apply (one_to_one_kept (applications w)); [|done].
  intros k b' Hk. rewrite Htbl in Hk.
  destruct (applications w !! k) as [b|]; [|done]. simpl in Hk.
  exists b. split; [done|]. injection Hk as <-. by destruct (decide _).
Qed.

(** X19.  No two applications share an applicant, and the reviewer is
    logged in.  After [reject_applications] over a selection containing an
    agent's pending, under_review or needs_info application, the agent's
    account is stored as before -- still active and verified if it was --
    and yet the agent's next login is refused with the message that the
    application has been rejected.  After [request_more_info] on a pending
    or under_review application the login is refused with the message that
    the application needs additional information. *)
Theorem rejected_agent_is_refused_at_login :
  (status a ∈ ["pending"; "under_review"; "needs_info"] →
   ∃ w1,
     reject_applications request qs w = (Return tt, w1)
     ∧ users w1 !! applicant a = Some u
     ∧ user_login login_request true (Some (applicant a)) next_url w1
       = (Return (login_page, None),
          with_flash (λ l, (l ++ [(ERROR,
            "Your Real Estate Agent application has been rejected. Please contact support for assistance.")])%list) w1))
  ∧ (status a ∈ ["pending"; "under_review"] →
     ∃ w1,
       request_more_info request qs w = (Return tt, w1)
       ∧ users w1 !! applicant a = Some u
       ∧ user_login login_request true (Some (applicant a)) next_url w1
         = (Return (login_page, None),
            with_flash (λ l, (l ++ [(WARNING,
              "Your application needs additional information. Please check your application status for details.")])%list) w1)).
Proof.
  split; intros Hst.
  - assert (∃ w1, reject_applications request qs w = (Return tt, w1)
                  ∧ users w1 = users w
                  ∧ ∀ k, applications w1 !! k
                    = (λ b, if decide (k ∈ qs ∧ status b
                                         ∈ ["pending"; "under_review"; "needs_info"])
                            then set_review "rejected" (Some (clock w)) (Some rid) b
                            else b) <$> applications w !! k)
      as (w1 & Hrun & Husers & Htbl).
    { unfold reject_applications.
      rewrite bind_run, (reject_applications_update_run request rid reviewer) by done.
      destruct (decide (0 < _)); eexists; (split; [reflexivity|]); simp_world;
        (split; [done|]); intros k; apply reviewed_lookup. }
    exists w1. split; [done|]. rewrite Husers. split; [done|].
    rewrite (user_login_agent_refused login_request next_url w1 (applicant a) u pk
               (set_review "rejected" (Some (clock w)) (Some rid) a));
      [done|done|by rewrite Husers|done|by eapply reviewed_table_one_to_one| |done|done].
    rewrite Htbl, Hstored. simpl. by rewrite decide_True.
  - assert (∃ w1, request_more_info request qs w = (Return tt, w1)
                  ∧ users w1 = users w
                  ∧ ∀ k, applications w1 !! k
                    = (λ b, if decide (k ∈ qs ∧ status b
                                         ∈ ["pending"; "under_review"])
                            then set_review "needs_info" (Some (clock w)) (Some rid) b
                            else b) <$> applications w !! k)
      as (w1 & Hrun & Husers & Htbl).
    { unfold request_more_info.
      rewrite bind_run, (request_more_info_update_run request rid reviewer) by done.
      destruct (decide (0 < _)); eexists; (split; [reflexivity|]); simp_world;
        (split; [done|]); intros k; apply reviewed_lookup. }
    exists w1. split; [done|]. rewrite Husers. split; [done|].
    rewrite (user_login_agent_refused login_request next_url w1 (applicant a) u pk
               (set_review "needs_info" (Some (clock w)) (Some rid) a));
      [done|done|by rewrite Husers|done|by eapply reviewed_table_one_to_one| |done|done].
    rewrite Htbl, Hstored. simpl. by rewrite decide_True.
Qed.
End lockout_then_login.

Section verified_by_hand.
Variables (request login_request : HttpRequest) (qs : list nat) (w : World).
Variables (k : nat) (a : RealEstateAgentApplication) (u : User).
Variable next_url : option string.
Hypothesis Hone : one_to_one (applications w).
Hypothesis Hstored : applications w !! k = Some a.
Hypothesis Hagent : users w !! applicant a = Some u.
Hypothesis Hrole : user_type u = "agent".
Hypothesis Hunverified : is_verified u = false.
Hypothesis Hselected : applicant a ∈ qs.
Hypothesis Hpost : method login_request = "POST".

(** X20.  No two applications share an applicant.  An unverified agent
    whose application is not approved is verified and activated by the
    [verify_agents] action.  The account is then active and verified, but
    the agent's next login is still refused and logs nobody in: the login
    view requires the application to be approved. *)
Theorem hand_verified_agent_is_refused_at_login :
  status a ≠ "approved" →
  ∃ w1 w2,
    verify_agents request qs w = (Return tt, w1)
    ∧ users w1 !! applicant a = Some (activated (clock w) u)
    ∧ user_login login_request true (Some (applicant a)) next_url w1
      = (Return (login_page, None), w2)
    ∧ users w2 = users w1.
Proof.
  intros Hst. rewrite verify_agents_exact. eexists _, _.
  split; [reflexivity|]. simp_world.
  assert (map_imap (λ k u,
            Some (if decide (k ∈ qs ∧ user_type u = "agent" ∧ is_verified u = false)
                  then activated (clock w) u else u)) (users w) !! applicant a
          = Some (activated (clock w) u)) as Hrow.
  { rewrite map_lookup_imap, Hagent. simpl. by rewrite decide_True. }
  split; [done|].
  rewrite (user_login_agent_refused login_request next_url _ (applicant a)
             (activated (clock w) u) k a); [|done..].
  split; [reflexivity|].
  destruct (str_in (status a) ["pending"; "under_review"]); [done|].
  destruct (str_eq (status a) "needs_info"); [done|].
  by destruct (str_eq (status a) "rejected").
Qed.
End verified_by_hand.

(** ** The agents page *)

Section agents_page.
Variables (request : HttpRequest) (rid : nat) (ru : User).
Hypothesis Hsession : session_user request = Some rid.
Hypothesis Hadmin : is_admin ru = true.
Hypothesis Hpost : method request = "POST".

Lemma agents_page_enter (w : World) :
  users w !! rid = Some ru →
  normal_admin_agents request w
  = (try_except_DoesNotExist
       ('(pk, agent) ← get_agent (POST request !! "agent_id");
        if bool_decide (POST request !! "action" = Some "verify")
           && negb (is_verified agent) then
          t ← timezone_now;
          User_save pk (set_verification_date (Some t) (set_is_verified true agent));;
          log_admin_activity request rid "verify"
            ("Verified agent: " +:+ username agent) (Some "User") (Some pk) None;;
          messages_add SUCCESS
            ("Agent " +:+ dquote +:+ get_full_name_repr agent +:+ dquote
             +:+ " verified successfully.")
        else if bool_decide (POST request !! "action" = Some "unverify")
                && is_verified agent then
          User_save pk (set_verification_date None (set_is_verified false agent));;
          log_admin_activity request rid "update"
            ("Unverified agent: " +:+ username agent) (Some "User") (Some pk) None;;
          messages_add SUCCESS
            ("Agent " +:+ dquote +:+ get_full_name_repr agent +:+ dquote
             +:+ " unverified.")
        else if bool_decide (POST request !! "action" = Some "activate")
                && negb (is_active agent) then
          User_save pk (set_is_active true agent);;
          log_admin_activity request rid "update"
            ("Activated agent account: " +:+ username agent)
            (Some "User") (Some pk) None;;
          messages_add SUCCESS
            ("Agent " +:+ dquote +:+ get_full_name_repr agent +:+ dquote
             +:+ " activated.")
        else if bool_decide (POST request !! "action" = Some "deactivate")
                && is_active agent then
          User_save pk (set_is_active false agent);;
          log_admin_activity request rid "update"
            ("Deactivated agent account: " +:+ username agent)
            (Some "User") (Some pk) None;;
          messages_add SUCCESS
            ("Agent " +:+ dquote +:+ get_full_name_repr agent +:+ dquote
             +:+ " deactivated.")
        else mret tt)
       (messages_add ERROR "Agent not found.");;
     mret (Redirect "normal_admin:normal_admin_agents")) w.
Proof.
  intros Hru. unfold normal_admin_agents, user_passes_test.
  rewrite bind_run. unfold get_user. rewrite Hsession.
  rewrite bind_run. change (gets ?f w) with (Return (f w), w). cbv beta iota.
  rewrite Hru. cbn [fmap option_fmap option_map]. unfold mret at 1, M_ret at 1.
  cbv beta iota. cbn [fst snd]. rewrite Hadmin, Hpost, str_eq_refl. reflexivity.
Qed.

Lemma get_agent_refuses (agent_id : option string) (w : World) :
  (agent_id = None
   ∨ ∃ text pk, agent_id = Some text ∧ parse_pk text = Some pk
                ∧ ∀ u, users w !! pk = Some u → user_type u ∉ ["agent"; "broker"]) →
  get_agent agent_id w = (Raise DoesNotExist, w).
Proof.
  intros [->|(text & pk & -> & Hpk & Hno)]; [done|].
  unfold get_agent. rewrite Hpk. run.
  destruct (users w !! pk) as [u|]; [|done].
  by rewrite (str_in_false _ _ (Hno u eq_refl)).
Qed.

(** X21.  An admin posts to the agents page.  If the form carries no
    [agent_id], or the primary key it spells belongs to no account or to an
    account that is neither agent nor broker (a buyer, an admin), then --
    whatever the action -- the page only adds the message "Agent not found."
    and redirects: no account is written and no audit entry is made. *)
Theorem agents_page_unknown_agent (w : World) :
  users w !! rid = Some ru →
  (POST request !! "agent_id" = None
   ∨ ∃ text pk, POST request !! "agent_id" = Some text ∧ parse_pk text = Some pk
                ∧ ∀ u, users w !! pk = Some u → user_type u ∉ ["agent"; "broker"]) →
  normal_admin_agents request w
  = (Return (Redirect "normal_admin:normal_admin_agents"),
     with_flash (λ l, (l ++ [(ERROR, "Agent not found.")])%list) w).
Proof.
  intros Hru Hmissing. rewrite agents_page_enter by done.
  rewrite bind_run. unfold try_except_DoesNotExist at 1.
  rewrite bind_run, get_agent_refuses by done. reflexivity.
Qed.

(** X22.  An admin posts to the agents page for a stored agent or broker.
    Unless the action is the one that flips the account's verified flag
    (verify an unverified account, unverify a verified one) or the one that
    flips its active flag (activate an inactive account, deactivate an
    active one), the page redirects and leaves the world exactly as it was:
    no account written, no audit entry, no message -- also for a missing or
    unknown action. *)
Theorem agents_page_guards (w : World) (text : string) (pk : nat) (agent : User) :
  users w !! rid = Some ru →
  POST request !! "agent_id" = Some text → parse_pk text = Some pk →
  users w !! pk = Some agent → user_type agent ∈ ["agent"; "broker"] →
  POST request !! "action"
    ∉ [Some (if is_verified agent then "unverify" else "verify");
       Some (if is_active agent then "deactivate" else "activate")] →
  normal_admin_agents request w
  = (Return (Redirect "normal_admin:normal_admin_agents"), w).
Proof.
  intros Hru Hid Hpk Hagent Hrole Haction. rewrite agents_page_enter by done.
  rewrite bind_run. unfold try_except_DoesNotExist at 1.
  rewrite bind_run, Hid, (get_agent_run text pk agent w) by done.
  rewrite !list_elem_of_In in Haction. simpl in Haction.
  destruct (is_verified agent), (is_active agent); cbn [negb andb];
    rewrite ?andb_false_r, ?andb_true_r;
    repeat (rewrite bool_decide_eq_false_2 by (intros E; rewrite E in Haction; tauto));
    reflexivity.
Qed.

(** X23.  An admin verifies an unverified agent or broker on the agents
    page and then unverifies it, with two requests that carry the client
    address.  Neither request raises.  The first stores
    the account verified, with the current time as verification date; after
    the second the account is stored as at the start except that its
    verification date is cleared; the active flag is never touched and no
    application is written.  The audit log gains two entries by the admin
    with the account as target, of type [verify] and [update], neither
    high-risk. *)
Theorem agents_page_verify_unverify (request' : HttpRequest) (w : World)
    (text : string) (pk : nat) (agent : User) :
  users w !! rid = Some ru →
  session_user request' = Some rid → method request' = "POST" →
  POST request !! "agent_id" = Some text →
  POST request' !! "agent_id" = Some text → parse_pk text = Some pk →
  users w !! pk = Some agent → user_type agent ∈ ["agent"; "broker"] →
  is_verified agent = false →
  POST request !! "action" = Some "verify" →
  POST request' !! "action" = Some "unverify" →
  truthy_opt (META request !! "REMOTE_ADDR") = true →
  truthy_opt (META request' !! "REMOTE_ADDR") = true →
  ∃ w1 w2 e1 e2,
    normal_admin_agents request w
    = (Return (Redirect "normal_admin:normal_admin_agents"), w1)
    ∧ normal_admin_agents request' w1
      = (Return (Redirect "normal_admin:normal_admin_agents"), w2)
    ∧ users w1 = <[pk := set_verification_date (Some (clock w))
                           (set_is_verified true agent)]> (users w)
    ∧ users w2 = <[pk := set_verification_date None agent]> (users w)
    ∧ activity_logs w2 = (activity_logs w ++ [e1; e2])%list
    ∧ action_type e1 = "verify" ∧ action_type e2 = "update"
    ∧ admin e1 = rid ∧ admin e2 = rid
    ∧ target_id e1 = Some pk ∧ target_id e2 = Some pk
    ∧ is_high_risk e1 = false ∧ is_high_risk e2 = false
    ∧ applications w2 = applications w.
Proof.
  intros Hru Hsession' Hpost' Hid Hid' Hpk Hagent Hrole Hunverified Hact Hact'
    Hip Hip'.
  set (agent1 := set_verification_date (Some (clock w)) (set_is_verified true agent)).
  assert (∃ ru1, <[pk := agent1]> (users w) !! rid = Some ru1
                 ∧ is_admin ru1 = true) as (ru1 & Hru1 & Hadmin1).
  { destruct (decide (pk = rid)) as [->|Hne].
    - exists agent1. rewrite lookup_insert_eq. split; [done|].
      rewrite Hru in Hagent. injection Hagent as <-. exact Hadmin.
    - exists ru. by rewrite lookup_insert_ne. }
  subst agent1. eexists _, _, _, _. split.
  { rewrite agents_page_enter by done.
    rewrite bind_run. unfold try_except_DoesNotExist at 1.
    rewrite bind_run, Hid, (get_agent_run text pk agent w) by done.
    rewrite Hact, Hunverified. rewrite bool_decide_eq_true_2 by done.
    cbn [negb andb]. run; simp_world.
    rewrite AdminActivityLog_save_run by done. reflexivity. }
  split.
  { unfold normal_admin_agents, user_passes_test.
    rewrite bind_run. unfold get_user. rewrite Hsession'.
    rewrite bind_run. change (gets ?f ?w0) with (Return (f w0), w0).
    cbv beta iota. simp_world. rewrite Hru1.
    cbn [fmap option_fmap option_map]. unfold mret at 1, M_ret at 1.
    cbv beta iota. cbn [fst snd]. rewrite Hadmin1, Hpost', str_eq_refl.
    rewrite bind_run. unfold try_except_DoesNotExist at 1.
    rewrite bind_run, Hid'.
    rewrite (get_agent_run text pk
               (set_verification_date (Some (clock w)) (set_is_verified true agent)))
      by (simp_world; by rewrite ?lookup_insert_eq).
    rewrite Hact'.
    rewrite (bool_decide_eq_false_2 (Some "unverify" = Some "verify")) by done.
    rewrite bool_decide_eq_true_2 by done.
    cbn [negb andb].
    change (is_verified (set_verification_date _ (set_is_verified true agent)))
      with true.
    cbn [negb andb]. run; simp_world.
    rewrite AdminActivityLog_save_run by done. reflexivity. }
  simp_world. split; [done|]. split.
  { rewrite insert_insert_eq. f_equal. destruct agent. simpl in *.
    by subst. }
  split; [by rewrite <- app_assoc|]. by repeat split.
Qed.
End agents_page.

(** ** Runs on the example worlds *)

(** Facts about the example world and the runs on it. *)
Lemma world_applications_one_to_one : one_to_one (applications world_applications).
Proof.
  intros k1 k2 a1 a2 H1 H2. revert k2 a2 H2. revert k1 a1 H1.
  apply (bool_decide_unpack
           (map_Forall (λ k1 a1,
              map_Forall (λ k2 a2, applicant a1 = applicant a2 → k1 = k2)
                (applications world_applications))
              (applications world_applications))).
  vm_compute. exact I.
Qed.

(** X8, witness: the limited admin 7. *)
Lemma permission_map_agrees_with_gate_witness :
  (∀ c, c ≠ ManageAdmins →
        can admin7 c = dict_get (get_admin_permissions admin7) (capability_key c) false)
  ∧ can admin7 ManageAdmins = false
  ∧ (is_admin_active admin7 = false →
     ∀ key, dict_get (get_admin_permissions admin7) key false = false).
Proof.
  apply (permission_map_agrees_with_gate admin7). vm_compute. discriminate.
Defined.

(** X14, witness: bulk rejection over applications 1 to 4 rejects the
    pending application 1 and application 4, which waits for more
    information, and leaves the approved application 2. *)
Lemma bulk_reject_eligibility_witness :
  ∃ w',
    reject_applications staff_request [1; 2; 3; 4] world_applications
    = (Return tt, w')
    ∧ status <$> applications w' !! 1 = Some "rejected"
    ∧ status <$> applications w' !! 2 = Some "approved"
    ∧ status <$> applications w' !! 4 = Some "rejected"
    ∧ users w' = users world_applications.
Proof.
  destruct (bulk_reject_eligibility staff_request 1 root_user [1; 2; 3; 4]
              world_applications eq_refl eq_refl)
    as [(w' & Hrun & Htbl & _ & Husers & _) _].
  exists w'. split; [exact Hrun|]. rewrite !Htbl.
  split; [vm_compute; reflexivity|]. split; [vm_compute; reflexivity|].
  split; [vm_compute; reflexivity|]. exact Husers.
Defined.

(** X15, witness: more information is requested for applications 1 to 4;
    bulk approval over the same four then approves none. *)
Lemma needs_info_blocks_bulk_approval_witness :
  ∃ w1,
    request_more_info staff_request [1; 2; 3; 4] world_applications = (Return tt, w1)
    ∧ approve_applications_loop staff_request [1; 2; 3; 4] w1 = (Return 0, w1).
Proof.
  destruct (needs_info_blocks_bulk_approval staff_request 1 root_user [1; 2; 3; 4]
              world_applications eq_refl eq_refl) as (w1 & Hrun & Hloop & _).
  by exists w1.
Defined.

(** X16, witness: the feedback of application 2 is edited without a status
    change; application 1 is put under review. *)
Lemma save_model_without_cascade_witness :
  save_model staff_request (2, application_of 42 "rejected") ["admin_feedback"]
    true world_applications
  = (Return tt,
     with_applications <[2 := application_of 42 "rejected"]> world_applications)
  ∧ save_model staff_request (1, application_of 41 "under_review") ["status"]
      true world_applications
    = (Return tt,
       with_applications
         <[1 := set_review "under_review" (Some 100%Z) (Some 1)
                  (application_of 41 "under_review")]>
         (with_clock 101%Z world_applications)).
Proof.
  split.
  - apply (save_model_without_cascade staff_request world_applications 2
             (application_of 42 "rejected") ["admin_feedback"] true).
    right; left. apply (bool_decide_unpack _). vm_compute. exact I.
  - apply (proj2 (save_model_without_cascade staff_request world_applications 1
                    (application_of 41 "under_review") ["status"] true)
             1 root_user); [reflexivity | reflexivity | reflexivity | |].
    + apply (bool_decide_unpack _). vm_compute. exact I.
    + apply (bool_decide_unpack _). vm_compute. exact I.
Defined.

(** X17, witness: agent 42, active and verified with an approved
    application, is logged in. *)
Lemma login_decision_witness :
  ∃ resp session w',
    user_login (login_post "agent42") true (Some 42) None world_applications
    = (Return (resp, session), w')
    ∧ session = Some 42.
Proof.
  destruct (login_decision (login_post "agent42") None world_applications 42
              (agent_user "agent42" true true) eq_refl eq_refl)
    as (resp & session & w' & Hrun & _ & _ & _ & _ & Hagent & _).
  exists resp, session, w'. split; [exact Hrun|].
  apply Hagent; [reflexivity | apply world_applications_one_to_one |].
  split; [reflexivity|]. split; [reflexivity|].
  exists 2, (application_of 42 "approved"). by repeat split.
Defined.

(** X18, witness: agent 41, inactive and unverified with a pending
    application, logs in after the bulk approval. *)
Lemma approved_agent_can_log_in_witness :
  ∃ w1 w2,
    approve_applications staff_request [1; 2; 3; 4] world_applications
    = (Return tt, w1)
    ∧ user_login (login_post "agent41") true (Some 41) None w1
      = (Return (Redirect "home", Some 41), w2).
Proof.
  apply (approved_agent_can_log_in staff_request (login_post "agent41") 1
           [1; 2; 3; 4] world_applications 1 (application_of 41 "pending")
           (agent_user "agent41" false false) None eq_refl
           ltac:(by eexists) world_applications_integrity
           world_applications_one_to_one eq_refl
           ltac:(apply list_elem_of_here) eq_refl eq_refl eq_refl).
  apply list_elem_of_here.
Defined.

(** X19, witness: agent 41 has been verified by hand; its application is
    rejected in bulk; the account is still active and verified and the
    login is refused. *)
Lemma rejected_agent_is_refused_at_login_witness :
  ∃ w1 w2,
    reject_applications staff_request [1] world_verified_by_hand = (Return tt, w1)
    ∧ (is_active <$> users w1 !! 41) = Some true
    ∧ (is_verified <$> users w1 !! 41) = Some true
    ∧ user_login (login_post "agent41") true (Some 41) None w1
      = (Return (login_page, None), w2).
Proof.
  destruct (rejected_agent_is_refused_at_login staff_request
              (login_post "agent41") 1 root_user [1] world_verified_by_hand 1
              (application_of 41 "pending")
              (activated 100 (agent_user "agent41" false false)) None
              eq_refl eq_refl world_applications_one_to_one eq_refl
              ltac:(apply list_elem_of_here) eq_refl eq_refl eq_refl)
    as [Hreject _].
  destruct Hreject as (w1 & Hrun & Hu & Hlogin); [apply list_elem_of_here|].
  eexists w1, _. split; [exact Hrun|]. simpl in Hu. rewrite Hu.
  split; [reflexivity|]. split; [reflexivity|]. exact Hlogin.
Defined.

(** X20, witness: agent 41, whose application is pending, is verified by
    hand and is still refused at the login. *)
Lemma hand_verified_agent_is_refused_at_login_witness :
  ∃ w1 w2,
    verify_agents staff_request [41] world_applications = (Return tt, w1)
    ∧ (is_verified <$> users w1 !! 41) = Some true
    ∧ user_login (login_post "agent41") true (Some 41) None w1
      = (Return (login_page, None), w2).
Proof.
  destruct (hand_verified_agent_is_refused_at_login staff_request
              (login_post "agent41") [41] world_applications 1
              (application_of 41 "pending") (agent_user "agent41" false false)
              None world_applications_one_to_one eq_refl eq_refl eq_refl eq_refl
              ltac:(apply list_elem_of_here) eq_refl)
    as (w1 & w2 & Hrun & Hu & Hlogin & _); [discriminate|].
  exists w1, w2. split; [exact Hrun|]. simpl in Hu. rewrite Hu.
  split; [reflexivity|]. exact Hlogin.
Defined.

(** X21, witness: the super admin tries to deactivate account 7, an admin,
    through the agents page. *)
Lemma agents_page_unknown_agent_witness :
  normal_admin_agents (agents_post "7" "deactivate") world_applications
  = (Return (Redirect "normal_admin:normal_admin_agents"),
     with_flash (λ l, (l ++ [(ERROR, "Agent not found.")])%list) world_applications).
Proof.
  apply (agents_page_unknown_agent (agents_post "7" "deactivate") 1 root_user
           eq_refl eq_refl eq_refl world_applications eq_refl).
  right. exists "7", 7. split; [reflexivity|]. split; [reflexivity|].
  intros u Hu. vm_compute in Hu. injection Hu as <-.
  apply (bool_decide_unpack _). vm_compute. exact I.
Defined.

(** X22, witness: verifying agent 42, who is verified already. *)
Lemma agents_page_guards_witness :
  normal_admin_agents (agents_post "42" "verify") world_applications
  = (Return (Redirect "normal_admin:normal_admin_agents"), world_applications).
Proof.
  apply (agents_page_guards (agents_post "42" "verify") 1 root_user
           eq_refl eq_refl eq_refl world_applications "42" 42
           (agent_user "agent42" true true) eq_refl eq_refl eq_refl eq_refl).
  - apply list_elem_of_here.
  - apply (bool_decide_unpack _). vm_compute. exact I.
Defined.

(** X23, witness: agent 41 is verified and unverified again. *)
Lemma agents_page_verify_unverify_witness :
  ∃ w1 w2,
    normal_admin_agents verify_post world_applications
    = (Return (Redirect "normal_admin:normal_admin_agents"), w1)
    ∧ normal_admin_agents (agents_post "41" "unverify") w1
      = (Return (Redirect "normal_admin:normal_admin_agents"), w2)
    ∧ (is_verified <$> users w1 !! 41) = Some true
    ∧ users w2 !! 41 = users world_applications !! 41.
Proof.
  destruct (agents_page_verify_unverify verify_post 1 root_user
              eq_refl eq_refl eq_refl (agents_post "41" "unverify")
              world_applications "41" 41 (agent_user "agent41" false false)
              eq_refl eq_refl eq_refl eq_refl eq_refl eq_refl eq_refl
              ltac:(apply list_elem_of_here) eq_refl eq_refl eq_refl
              eq_refl eq_refl)
    as (w1 & w2 & e1 & e2 & Hrun1 & Hrun2 & Hu1 & Hu2 & _).
  exists w1, w2. split; [exact Hrun1|]. split; [exact Hrun2|].
  rewrite Hu1, Hu2. rewrite !lookup_insert_eq. split; reflexivity.
Defined.

(** X9, witness: the limited admin 7 is made a buyer and still passes the
    gate for [manage_properties]. *)
Lemma role_change_keeps_capabilities_witness :
  ∃ w' u',
    make_buyers staff_request [7] world0 = (Return tt, w')
    ∧ users w' !! 7 = Some u'
    ∧ user_type u' = "buyer"
    ∧ can u' ManageProperties = true
    ∧ can u' ManageAdmins = false.
Proof.
  destruct (role_change_keeps_capabilities staff_request [7] world0)
    as (_ & (w' & Hrun & Hrows & _ & Hkeep) & _).
  assert (users w' !! 7 = Some (set_user_type "buyer" admin7)) as Hu.
  { rewrite Hrows. reflexivity. }
  exists w', (set_user_type "buyer" admin7).
  split; [exact Hrun|]. split; [exact Hu|]. split; [reflexivity|].
  destruct (Hkeep 7 admin7 _ eq_refl Hu) as (_ & _ & Hcan & Hno).
  split.
  - rewrite Hcan; [reflexivity | discriminate].
  - apply Hno, list_elem_of_here.
Defined.

